(** * Memory tracer of aws-c-common (source/memtrace.c)

    A shallow embedding of the tracing allocator: the tracer structure, its
    track / untrack core, the four facade operations, construction and
    teardown, and the leak dump, followed by the properties of the
    bookkeeping and of the dump.

    Conventions.
    - [size_t] values are integers in [0, 2^size_bits); every arithmetic
      operation the C code performs on them is followed by [wrap].
    - Addresses are integers; NULL is 0.
    - The mutex is not modelled: every function below is one uninterrupted
      call, so states are observed at quiescent points only.
    - [AWS_FATAL_ASSERT] aborts the process: functions that contain one return
      a [result], whose [Fatal] is the abort.
    - The dump is the list of the lines it logs, one constructor per format
      string, and the list of the releases it makes. *)

From Stdlib Require Import ZArith Lia List Bool.
From Stdlib Require String Ascii.
From stdpp Require Import base option list gmap fin_maps.
Import ListNotations.

Local Open Scope Z_scope.

(** ** Platform *)

(** What the code takes from the machine and from the rest of the library:
    the width of [size_t] and of pointers, and [aws_hash_byte_cursor_ptr]
    (the 64-bit hash applied to the captured frame array). *)
Class Platform := {
  size_bits : Z;
  size_bits_min : 16 <= size_bits;
  aws_hash_byte_cursor_ptr : list Z -> Z
}.

Section Words.
Context `{Platform}.

Definition SIZE_MODULUS : Z := 2 ^ size_bits.

(** Reduction of an integer to a [size_t]. *)
Definition wrap (z : Z) : Z := z mod SIZE_MODULUS.

Definition is_size_t (z : Z) : Prop := 0 <= z < SIZE_MODULUS.

(** Reduction to a [uint64_t]. *)
Definition wrap64 (z : Z) : Z := z mod 2 ^ 64.
End Words.

(** ** Fatal assertions *)

Inductive result (A : Type) : Type :=
  | Ok (a : A)
  | Fatal.
Arguments Ok {A} a.
Arguments Fatal {A}.

#[global] Instance result_ret : MRet result := fun A a => Ok a.

#[global] Instance result_bind : MBind result := fun A B k r =>
  match r with
  | Ok a => k a
  | Fatal => Fatal
  end.

(** Modelled from the spec: the status codes of the library (error.h is
    missing from the sources), which the spec knows as success and failure;
    the tracer only ever compares a status with [AWS_OP_SUCCESS]. *)
Definition AWS_OP_SUCCESS : Z := 0.
Definition AWS_OP_ERR : Z := -1.

(** Modelled from the spec: the macro [AWS_FATAL_ASSERT], missing from the
    sources. "Fatal; abort": a condition that fails ends the process. *)
Definition AWS_FATAL_ASSERT (cond : bool) : result unit :=
  if cond then Ok tt else Fatal.

(** ** Allocators *)

(** An allocator object is known by its identity, a non-zero number; 0
    stands for a NULL allocator pointer. *)
Definition aws_allocator : Type := N.

(** Modelled from the spec: [aws_default_allocator], missing from the
    sources, "the process default" allocator: one fixed allocator object. *)
Definition aws_default_allocator : aws_allocator := 1%N.

(** The inner allocator, as the tracer calls it: [aws_mem_acquire],
    [aws_mem_release], [aws_mem_realloc] and [aws_mem_calloc] applied to
    [tracer->allocator]. [heap] is whatever state the allocator keeps.
    [aws_mem_realloc] returns a status and the (possibly updated) pointer. *)
Record allocator_ops (heap : Type) : Type := {
  mem_acquire : heap -> Z -> heap * Z;
  mem_release : heap -> Z -> heap;
  mem_realloc : heap -> Z -> Z -> Z -> heap * (Z * Z);
  mem_calloc : heap -> Z -> Z -> heap * Z
}.
Arguments mem_acquire {heap}.
Arguments mem_release {heap}.
Arguments mem_realloc {heap}.
Arguments mem_calloc {heap}.

(** Bookkeeping memory: a block remembers the allocator it came from (ghost
    information, which the C pointer does not carry). *)
Record block (A : Type) : Type := {
  origin : aws_allocator;
  payload : A
}.
Arguments origin {A}.
Arguments payload {A}.

(** Modelled from the spec: [aws_mem_calloc] for a metadata record,
    missing from the sources. "Allocate ... from B": the block belongs to the
    allocator that is asked, and holds the initial contents given. *)
Definition aws_mem_calloc {A : Type} (a : aws_allocator) (init : A) : block A :=
  {| origin := a; payload := init |}.

(** One call of [aws_mem_release] on a metadata record: the allocator that
    was asked to free, and the allocator the block had been taken from. *)
Record release_event : Type := {
  asked : aws_allocator;
  owner : aws_allocator
}.

(** Modelled from the spec: [aws_mem_release] for a metadata record,
    missing from the sources. "Free the record (via ...)": the call is
    recorded with the allocator asked and the allocator owning the block. *)
Definition aws_mem_release {A : Type} (a : aws_allocator) (b : block A) : release_event :=
  {| asked := a; owner := origin b |}.

Definition matched (e : release_event) : bool := N.eqb (asked e) (owner e).

(** ** Data model *)

(** Modelled from the spec: [enum aws_mem_trace_level], declared in a header
    missing from the sources. "A three-valued configuration parameter,
    ordered by increasing fidelity": NONE, BYTES, STACKS. *)
Inductive aws_mem_trace_level : Type :=
  | AWS_MEMTRACE_NONE
  | AWS_MEMTRACE_BYTES
  | AWS_MEMTRACE_STACKS.

Definition level_rank (l : aws_mem_trace_level) : Z :=
  match l with
  | AWS_MEMTRACE_NONE => 0
  | AWS_MEMTRACE_BYTES => 1
  | AWS_MEMTRACE_STACKS => 2
  end.

Definition level_eqb (a b : aws_mem_trace_level) : bool :=
  level_rank a =? level_rank b.

(** describes a single live allocation *)
Record alloc_info : Type := {
  size : Z;
  time : Z;
  stack : Z
}.

(** one of these is stored per unique stack *)
Record stack_trace : Type := {
  depth : Z;
  frames : list Z
}.

(** Tracking structure. [released] is ghost state: the calls of
    [aws_mem_release] made so far on metadata records, latest first. *)
Record alloc_tracer : Type := {
  allocator : aws_allocator;
  system_allocator : aws_allocator;
  level : aws_mem_trace_level;
  frames_per_stack : Z;
  allocated : Z;
  allocs : gmap Z (block alloc_info);
  stacks : gmap Z (block stack_trace);
  released : list release_event
}.

Definition FRAMES_TO_SKIP : Z := 2.

Definition with_allocated (t : alloc_tracer) (v : Z) : alloc_tracer :=
  {| allocator := allocator t; system_allocator := system_allocator t;
     level := level t; frames_per_stack := frames_per_stack t;
     allocated := v; allocs := allocs t; stacks := stacks t;
     released := released t |}.

Definition with_allocs (t : alloc_tracer) (m : gmap Z (block alloc_info)) : alloc_tracer :=
  {| allocator := allocator t; system_allocator := system_allocator t;
     level := level t; frames_per_stack := frames_per_stack t;
     allocated := allocated t; allocs := m; stacks := stacks t;
     released := released t |}.

Definition with_stacks (t : alloc_tracer) (m : gmap Z (block stack_trace)) : alloc_tracer :=
  {| allocator := allocator t; system_allocator := system_allocator t;
     level := level t; frames_per_stack := frames_per_stack t;
     allocated := allocated t; allocs := allocs t; stacks := m;
     released := released t |}.

Definition with_released (t : alloc_tracer) (l : list release_event) : alloc_tracer :=
  {| allocator := allocator t; system_allocator := system_allocator t;
     level := level t; frames_per_stack := frames_per_stack t;
     allocated := allocated t; allocs := allocs t; stacks := stacks t;
     released := l |}.

Definition with_alloc_stack (a : block alloc_info) (id : Z) : block alloc_info :=
  {| origin := origin a;
     payload := {| size := size (payload a); time := time (payload a); stack := id |} |}.

(** ** Hash table *)

(** The hash table lives in hash_table.c, outside the file modelled here;
    the operations the tracer uses are modelled on a finite map. *)
Section HashTable.
Context {V : Type}.

(** Modelled from the spec: [aws_hash_table_find], missing from the
    sources. "Look up address": the call itself succeeds, and the element
    is NULL ([None]) when the key is absent. *)
Definition aws_hash_table_find (m : gmap Z V) (key : Z) : Z * option V :=
  (AWS_OP_SUCCESS, m !! key).

(** Modelled from the spec: [aws_hash_table_put], missing from the
    sources. "Insert (address -> record) into the allocation map.
    Duplicate keys are a fatal invariant violation": a key already present
    is refused with an error status and the table is left as it was. *)
Definition aws_hash_table_put (m : gmap Z V) (key : Z) (value : V) : Z * gmap Z V :=
  match m !! key with
  | Some _ => (AWS_OP_ERR, m)
  | None => (AWS_OP_SUCCESS, <[key := value]> m)
  end.

(** Modelled from the spec: [aws_hash_table_create], missing from the
    sources. "Insert-or-find": reports in [was_created] whether the key had
    to be inserted; the caller stores the value of a created element. *)
Definition aws_hash_table_create (m : gmap Z V) (key : Z) : Z * bool :=
  (AWS_OP_SUCCESS, match m !! key with Some _ => false | None => true end).

(** Modelled from the spec: [aws_hash_table_remove_element], missing from
    the sources. "Remove the map entry" of an element that was found. *)
Definition aws_hash_table_remove_element (m : gmap Z V) (key : Z) : Z * gmap Z V :=
  (AWS_OP_SUCCESS, delete key m).

(** Modelled from the spec: [aws_hash_table_get_entry_count], missing from
    the sources. The number of entries, "|live-map|". *)
Definition aws_hash_table_get_entry_count (m : gmap Z V) : Z :=
  Z.of_nat (base.size m).
End HashTable.

(** Modelled from the spec: [aws_hash_table_clean_up], missing from the
    sources. Teardown "invokes the per-entry destructors": the value
    destructor given at initialisation runs once on every entry. *)
Definition aws_hash_table_clean_up {V : Type}
    (destroy_value_fn : V -> release_event) (m : gmap Z V) : list release_event :=
  (fun kv => destroy_value_fn (snd kv)) <$> map_to_list m.

(** ** Tracker core *)

(** [memcpy] of [count] pointers out of [src]: the entries the source
    buffer holds, up to [count] of them. A [count] beyond what [src] holds
    makes the C call read past the buffer, which is undefined: the model
    has no outcome for that and returns the entries held. This is the case
    of a capture of fewer than [FRAMES_TO_SKIP] frames, whose count wraps;
    statements that a track at level STACKS completes therefore assume the
    capture within bounds ([capture_in_bounds] below). *)
Fixpoint memcpy (src : list Z) (count : Z) : list Z :=
  match src with
  | [] => []
  | x :: src => if 0 <? count then x :: memcpy src (count - 1) else []
  end.

(** What one call observes of its surroundings: the clock read by
    [time(NULL)] and the stack walker, [aws_backtrace], which given the
    capacity of the buffer returns the frames it captured (their number is
    the depth it reports). *)
Record call_env : Type := {
  time_now : Z;
  aws_backtrace : Z -> list Z
}.

Section Tracker.
Context `{Platform}.

(** for the hash table, to destroy elements *)
Definition s_destroy_alloc (data : block alloc_info) : release_event :=
  let allocator := aws_default_allocator in
  aws_mem_release allocator data.

Definition s_destroy_stacktrace (data : block stack_trace) : release_event :=
  let allocator := aws_default_allocator in
  aws_mem_release allocator data.

(** [AWS_ZERO_STRUCT( *tracer )]: a zeroed table holds no entry. *)
Definition zeroed_tracer : alloc_tracer :=
  {| allocator := 0%N; system_allocator := 0%N;
     level := AWS_MEMTRACE_NONE; frames_per_stack := 0;
     allocated := 0; allocs := ∅; stacks := ∅; released := [] |}.

(** [probe] is what [aws_backtrace(stack, 1)] returns. Initialising the
    mutex and the tables is taken to succeed. *)
Definition s_alloc_tracer_init (probe : Z) (tracer : alloc_tracer)
    (allocator' system_allocator' : aws_allocator)
    (level' : aws_mem_trace_level) (frames_per_stack' : Z) : alloc_tracer :=
  let level' :=
    if probe =? 0
    then (if level_rank level' >? level_rank AWS_MEMTRACE_BYTES
          then AWS_MEMTRACE_BYTES else level')
    else level' in
  let tracer :=
    {| allocator := allocator'; system_allocator := system_allocator';
       level := level'; frames_per_stack := frames_per_stack tracer;
       allocated := allocated tracer; allocs := allocs tracer;
       stacks := stacks tracer; released := released tracer |} in
  let tracer :=
    if level_rank (level tracer) >=? level_rank AWS_MEMTRACE_BYTES
    then with_allocs (with_allocated tracer 0) ∅
    else tracer in
  if level_eqb (level tracer) AWS_MEMTRACE_STACKS
  then
    let frames_per_stack' :=
      if frames_per_stack' >? 128 then 128 else frames_per_stack' in
    {| allocator := allocator tracer;
       system_allocator := system_allocator tracer;
       level := level tracer;
       frames_per_stack := (if frames_per_stack' =? 0 then 8 else frames_per_stack');
       allocated := allocated tracer; allocs := allocs tracer;
       stacks := ∅; released := released tracer |}
  else tracer.

(** [stack_frames] stands for the buffer after the walker filled it; the
    [memcpy] takes [stack_depth - FRAMES_TO_SKIP] entries (a [size_t]
    difference) from index [FRAMES_TO_SKIP] on. *)
Definition s_alloc_tracer_track (e : call_env) (tracer : alloc_tracer)
    (ptr sz : Z) : result alloc_tracer :=
  if level_eqb (level tracer) AWS_MEMTRACE_NONE then Ok tracer else
  let tracer := with_allocated tracer (wrap (allocated tracer + sz)) in
  let alloc :=
    aws_mem_calloc (system_allocator tracer)
      {| size := sz; time := time_now e; stack := 0 |} in
  '(tracer, alloc) ←
    (if level_eqb (level tracer) AWS_MEMTRACE_STACKS then
       let stack_frames :=
         aws_backtrace e (FRAMES_TO_SKIP + frames_per_stack tracer) in
       let stack_depth := Z.of_nat (length stack_frames) in
       if negb (stack_depth =? 0) then
         let stack_id := wrap64 (aws_hash_byte_cursor_ptr stack_frames) in
         let alloc := with_alloc_stack alloc stack_id in
         let '(rc, was_created) :=
           aws_hash_table_create (stacks tracer) (wrap stack_id) in
         _ ← AWS_FATAL_ASSERT (AWS_OP_SUCCESS =? rc);
         if (was_created : bool) then
           let stack :=
             aws_mem_calloc (system_allocator tracer)
               {| depth := wrap (stack_depth - FRAMES_TO_SKIP);
                  frames :=
                    memcpy (drop (Z.to_nat FRAMES_TO_SKIP) stack_frames)
                           (wrap (stack_depth - FRAMES_TO_SKIP)) |} in
           Ok (with_stacks tracer (<[wrap stack_id := stack]> (stacks tracer)),
               alloc)
         else Ok (tracer, alloc)
       else Ok (tracer, alloc)
     else Ok (tracer, alloc));
  let '(rc, allocs') := aws_hash_table_put (allocs tracer) ptr alloc in
  _ ← AWS_FATAL_ASSERT (AWS_OP_SUCCESS =? rc);
  Ok (with_allocs tracer allocs').

(** The assertion [item->key == ptr && item->value] holds of every element
    the map returns for [ptr]. *)
Definition s_alloc_tracer_untrack (tracer : alloc_tracer) (ptr : Z)
    : result alloc_tracer :=
  if level_eqb (level tracer) AWS_MEMTRACE_NONE then Ok tracer else
  let '(rc, item) := aws_hash_table_find (allocs tracer) ptr in
  _ ← AWS_FATAL_ASSERT (AWS_OP_SUCCESS =? rc);
  match item with
  | Some alloc =>
      let tracer :=
        with_allocated tracer (wrap (allocated tracer - size (payload alloc))) in
      let tracer :=
        with_released tracer (s_destroy_alloc alloc :: released tracer) in
      let '(rc, allocs') := aws_hash_table_remove_element (allocs tracer) ptr in
      _ ← AWS_FATAL_ASSERT (AWS_OP_SUCCESS =? rc);
      Ok (with_allocs tracer allocs')
  | None => Ok tracer
  end.

(** ** Lifecycle and queries *)

(** [system_allocator] is [None] for a NULL argument. The facade and the
    tracer are one block taken from the bookkeeping allocator. *)
Definition aws_mem_tracer_new (probe : Z) (allocator' : aws_allocator)
    (system_allocator' : option aws_allocator)
    (level' : aws_mem_trace_level) (frames_per_stack' : Z) : alloc_tracer :=
  let system_allocator' :=
    match system_allocator' with
    | Some a => a
    | None => aws_default_allocator
    end in
  s_alloc_tracer_init probe zeroed_tracer allocator' system_allocator' level'
    frames_per_stack'.

(** Returns the inner allocator; the second component lists the releases of
    metadata the teardown performs, the joint block last. That block was
    taken from the bookkeeping allocator handed to [aws_mem_tracer_new],
    which is the one [tracer->system_allocator] holds. *)
Definition aws_mem_tracer_destroy (tracer : alloc_tracer)
    : aws_allocator * list release_event :=
  let allocator' := allocator tracer in
  let freed_allocs := aws_hash_table_clean_up s_destroy_alloc (allocs tracer) in
  let freed_stacks := aws_hash_table_clean_up s_destroy_stacktrace (stacks tracer) in
  let system_allocator' := system_allocator tracer in
  (allocator',
   freed_allocs ++ freed_stacks ++
   [aws_mem_release system_allocator'
      {| origin := system_allocator tracer; payload := tracer |}]).

Definition aws_mem_tracer_bytes (tracer : alloc_tracer) : Z :=
  allocated tracer.

Definition aws_mem_tracer_count (tracer : alloc_tracer) : Z :=
  aws_hash_table_get_entry_count (allocs tracer).

End Tracker.

(** ** Allocator facade *)

Section Facade.
Context `{Platform} {heap : Type} (U : allocator_ops heap).

(** The facade's state: the tracer ([allocator->impl]) and the state of the
    inner allocator it forwards to. *)
Definition facade : Type := (alloc_tracer * heap)%type.

Definition s_trace_mem_acquire (e : call_env) (s : facade) (sz : Z)
    : result (facade * Z) :=
  let '(tracer, h) := s in
  let '(h, ptr) := mem_acquire U h sz in
  tracer ← s_alloc_tracer_track e tracer ptr sz;
  Ok ((tracer, h), ptr).

Definition s_trace_mem_release (s : facade) (ptr : Z) : result facade :=
  let '(tracer, h) := s in
  tracer ← s_alloc_tracer_untrack tracer ptr;
  let h := mem_release U h ptr in
  Ok (tracer, h).

Definition s_trace_mem_realloc (e : call_env) (s : facade)
    (ptr old_size new_size : Z) : result (facade * Z) :=
  let '(tracer, h) := s in
  let new_ptr := ptr in
  let '(h, (rc, new_ptr)) := mem_realloc U h new_ptr old_size new_size in
  _ ← AWS_FATAL_ASSERT (AWS_OP_SUCCESS =? rc);
  tracer ← s_alloc_tracer_untrack tracer ptr;
  tracer ← s_alloc_tracer_track e tracer new_ptr new_size;
  Ok ((tracer, h), new_ptr).

Definition s_trace_mem_calloc (e : call_env) (s : facade) (num sz : Z)
    : result (facade * Z) :=
  let '(tracer, h) := s in
  let '(h, ptr) := mem_calloc U h num sz in
  tracer ← s_alloc_tracer_track e tracer ptr (wrap (num * sz));
  Ok ((tracer, h), ptr).

End Facade.

(** ** Sequences of calls *)

(** A client's call through the four-operation vtable, and what it gets
    back: an address, nothing (release), or, from [aws_mem_realloc] on the
    inner allocator alone, a status other than [AWS_OP_SUCCESS]. *)
Inductive call : Type :=
  | Acquire (sz : Z)
  | Calloc (num sz : Z)
  | Release (ptr : Z)
  | Realloc (ptr old_size new_size : Z).

Inductive reply : Type :=
  | Address (ptr : Z)
  | Returned
  | Refused (rc : Z).

Section Runs.
Context `{Platform} {heap : Type} (U : allocator_ops heap).

Definition facade_call (e : call_env) (s : facade) (c : call)
    : result (facade * reply) :=
  match c with
  | Acquire sz =>
      '(s, p) ← s_trace_mem_acquire U e s sz; Ok (s, Address p)
  | Calloc num sz =>
      '(s, p) ← s_trace_mem_calloc U e s num sz; Ok (s, Address p)
  | Release ptr =>
      s ← s_trace_mem_release U s ptr; Ok (s, Returned)
  | Realloc ptr old_size new_size =>
      '(s, p) ← s_trace_mem_realloc U e s ptr old_size new_size;
      Ok (s, Address p)
  end.

Fixpoint facade_run (cs : list (call_env * call)) (s : facade)
    : result (facade * list reply) :=
  match cs with
  | [] => Ok (s, [])
  | (e, c) :: cs =>
      '(s, r) ← facade_call e s c;
      '(s, rs) ← facade_run cs s;
      Ok (s, r :: rs)
  end.

(** The same calls made on the inner allocator directly. *)
Definition inner_call (h : heap) (c : call) : heap * reply :=
  match c with
  | Acquire sz => let '(h, p) := mem_acquire U h sz in (h, Address p)
  | Calloc num sz => let '(h, p) := mem_calloc U h num sz in (h, Address p)
  | Release ptr => (mem_release U h ptr, Returned)
  | Realloc ptr old_size new_size =>
      let '(h, (rc, p)) := mem_realloc U h ptr old_size new_size in
      if AWS_OP_SUCCESS =? rc then (h, Address p) else (h, Refused rc)
  end.

Fixpoint inner_run (cs : list call) (h : heap) : heap * list reply :=
  match cs with
  | [] => (h, [])
  | c :: cs =>
      let '(h, r) := inner_call h c in
      let '(h, rs) := inner_run cs h in
      (h, r :: rs)
  end.

Definition succeeded (r : reply) : bool :=
  match r with
  | Refused _ => false
  | _ => true
  end.

End Runs.

(** Sum of the [size] fields over the entries of the allocation map. *)
Definition sum_sizes (m : gmap Z (block alloc_info)) : Z :=
  map_fold (fun _ b acc => size (payload b) + acc) 0 m.

(** ** Vocabulary of the statements *)

Section Vocabulary.
Context `{Platform}.

(** What a completed track of [ptr] with [sz] bytes leaves behind. *)
Record tracked (t : alloc_tracer) (ptr sz : Z) (t' : alloc_tracer) : Prop := {
  tracked_allocator : allocator t' = allocator t;
  tracked_system_allocator : system_allocator t' = system_allocator t;
  tracked_level : level t' = level t;
  tracked_frames_per_stack : frames_per_stack t' = frames_per_stack t;
  tracked_allocated : allocated t' = wrap (allocated t + sz);
  tracked_released : released t' = released t;
  tracked_entry :
    exists b, allocs t' = <[ptr := b]> (allocs t) /\
              size (payload b) = sz /\ origin b = system_allocator t
}.

(** What a completed untrack of a tracked [ptr], whose record is [b],
    leaves behind. *)
Definition untracked (t : alloc_tracer) (ptr : Z) (b : block alloc_info)
    : alloc_tracer :=
  with_allocs
    (with_released
       (with_allocated t (wrap (allocated t - size (payload b))))
       (s_destroy_alloc b :: released t))
    (delete ptr (allocs t)).

(** The live-bytes counter is the sum of the recorded sizes, as a [size_t]. *)
Definition bytes_consistent (t : alloc_tracer) : Prop :=
  allocated t = wrap (sum_sizes (allocs t)).

End Vocabulary.

(** ** Concrete platform and allocators, for closed examples *)

(** A 64-bit machine with a polynomial hash over the frame addresses. *)
#[local] Instance lp64 : Platform :=
  {| size_bits := 64;
     size_bits_min := ltac:(lia);
     aws_hash_byte_cursor_ptr :=
       fun fs => fold_left (fun acc f => (acc * 31 + f) mod 2 ^ 64) fs 7 |}.

(** A bump allocator with a limit of 2^32 bytes per request: the heap is
    the next free address; it never reuses one, and reallocation moves the
    block exactly when it grows. A request above the limit fails:
    acquisitions return NULL, reallocation reports an error and leaves the
    pointer as it was. *)
Definition bump_allocator : allocator_ops Z :=
  {| mem_acquire := fun h sz =>
       if sz <=? 2 ^ 32 then (h + sz + 16, h) else (h, 0);
     mem_release := fun h _ => h;
     mem_realloc := fun h ptr old_size new_size =>
       if new_size <=? old_size then (h, (AWS_OP_SUCCESS, ptr))
       else if new_size <=? 2 ^ 32 then (h + new_size + 16, (AWS_OP_SUCCESS, h))
       else (h, (AWS_OP_ERR, ptr));
     mem_calloc := fun h num sz =>
       if num * sz <=? 2 ^ 32 then (h + num * sz + 16, h) else (h, 0) |}.

(** A walker that reports a stack of [n] frames (never more than asked). *)
Definition walker (n : nat) (capacity : Z) : list Z :=
  take (Z.to_nat capacity) ((fun i => 4096 + 16 * Z.of_nat i) <$> seq 0 n).

Definition env_at (now : Z) (n : nat) : call_env :=
  {| time_now := now; aws_backtrace := walker n |}.

(** A tracer with one live allocation: 100 bytes at address 4096. *)
Definition one_live (l : aws_mem_trace_level) : alloc_tracer :=
  {| allocator := 5%N; system_allocator := 9%N; level := l;
     frames_per_stack := 8; allocated := 100;
     allocs := {[ 4096 := aws_mem_calloc 9%N
                            {| size := 100; time := 1; stack := 0 |} ]};
     stacks := ∅; released := [] |}.

(** ** Vocabulary of the further properties *)

Section TrackVocabulary.
Context `{Platform}.

(** The frames the walker hands to a track on [t], and their fingerprint. *)
Definition captured (e : call_env) (t : alloc_tracer) : list Z :=
  aws_backtrace e (FRAMES_TO_SKIP + frames_per_stack t).

Definition fingerprint (e : call_env) (t : alloc_tracer) : Z :=
  wrap64 (aws_hash_byte_cursor_ptr (captured e t)).

(** Whether a track on [t] records a stack: level STACKS and at least one
    frame captured. *)
Definition captures (e : call_env) (t : alloc_tracer) : bool :=
  level_eqb (level t) AWS_MEMTRACE_STACKS
  && negb (Z.of_nat (length (captured e t)) =? 0).

(** The capture of a track on [t] is one the copy of the frames is defined
    for: the walker reported no frame (nothing is copied), or at least the
    [FRAMES_TO_SKIP] frames of the tracer itself and no more than the buffer
    holds. *)
Definition capture_in_bounds (e : call_env) (t : alloc_tracer) : Prop :=
  captured e t = [] \/
  FRAMES_TO_SKIP <= Z.of_nat (length (captured e t))
                 <= FRAMES_TO_SKIP + frames_per_stack t.

(** The tracer a completed track of a fresh address leaves behind. *)
Definition track_result (e : call_env) (t : alloc_tracer) (ptr sz : Z)
    : alloc_tracer :=
  {| allocator := allocator t;
     system_allocator := system_allocator t;
     level := level t;
     frames_per_stack := frames_per_stack t;
     allocated := wrap (allocated t + sz);
     allocs :=
       <[ptr := {| origin := system_allocator t;
                   payload :=
                     {| size := sz; time := time_now e;
                        stack := if captures e t then fingerprint e t else 0 |}
                |}]> (allocs t);
     stacks :=
       if captures e t
       then match stacks t !! wrap (fingerprint e t) with
            | Some _ => stacks t
            | None =>
                <[wrap (fingerprint e t) :=
                    {| origin := system_allocator t;
                       payload :=
                         {| depth :=
                              wrap (Z.of_nat (length (captured e t))
                                    - FRAMES_TO_SKIP);
                            frames :=
                              memcpy
                                (drop (Z.to_nat FRAMES_TO_SKIP) (captured e t))
                                (wrap (Z.of_nat (length (captured e t))
                                       - FRAMES_TO_SKIP)) |} |}]>
                  (stacks t)
            end
       else stacks t;
     released := released t |}.

(** Every live record with a non-zero fingerprint has its stack in the
    registry (under the key the fingerprint is cast to). *)
Definition fingerprints_registered (t : alloc_tracer) : Prop :=
  forall p b, allocs t !! p = Some b ->
    stack (payload b) = 0 \/ is_Some (stacks t !! wrap (stack (payload b))).

(** No stack is recorded anywhere: the registry is empty and every live
    record carries fingerprint 0. *)
Definition no_stacks (t : alloc_tracer) : Prop :=
  stacks t = ∅ /\
  forall p b, allocs t !! p = Some b -> stack (payload b) = 0.

(** Every piece of metadata comes from the bookkeeping allocator, and every
    release so far was asked of the default allocator. *)
Definition metadata_owned (t : alloc_tracer) : Prop :=
  (forall p b, allocs t !! p = Some b -> origin b = system_allocator t) /\
  (forall k r, stacks t !! k = Some r -> origin r = system_allocator t) /\
  Forall (fun ev => asked ev = aws_default_allocator /\
                    owner ev = system_allocator t) (released t).

(** Every stack record holds as many frames as its depth says, and no more
    than the budget. *)
Definition depths_within_budget (t : alloc_tracer) : Prop :=
  forall k r, stacks t !! k = Some r ->
    Z.of_nat (length (frames (payload r))) = depth (payload r) /\
    0 <= depth (payload r) <= frames_per_stack t.

End TrackVocabulary.

(** The walker's contract, as far as the tracer relies on it: asked for at
    least the two frames that belong to the tracer itself, it never reports
    more frames than the buffer holds, and when it reports any it reports at
    least those two. *)
Definition walker_contract (e : call_env) : Prop :=
  forall capacity,
    FRAMES_TO_SKIP <= capacity ->
    Z.of_nat (length (aws_backtrace e capacity)) <= capacity /\
    (aws_backtrace e capacity = [] \/
     FRAMES_TO_SKIP <= Z.of_nat (length (aws_backtrace e capacity))).

(** Calls that track an address: all but release. *)
Definition tracking (c : call) : bool :=
  match c with
  | Release _ => false
  | _ => true
  end.

Definition tracking_calls (cs : list (call_env * call)) : nat :=
  length (List.filter (fun ec => tracking ec.2) cs).

(** The configuration of a tracer: what construction fixes. *)
Definition same_config (t t' : alloc_tracer) : Prop :=
  allocator t' = allocator t /\
  system_allocator t' = system_allocator t /\
  level t' = level t /\
  frames_per_stack t' = frames_per_stack t.

(** The size the tracer has on record for an address: 0 when it has none. *)
Definition recorded_size (t : alloc_tracer) (ptr : Z) : Z :=
  match allocs t !! ptr with
  | Some b => size (payload b)
  | None => 0
  end.

(** Metadata records accounted for: those live in the allocation map and
    those already released. *)
Definition records_accounted (t : alloc_tracer) : nat :=
  (base.size (allocs t) + length (released t))%nat.

(** ** Reporter *)

(** C strings. *)
Abbreviation string := String.string.

Definition empty_string : string := String.EmptyString.

(** The cursor over "\n". *)
Definition newline : string :=
  String.String (Ascii.ascii_of_nat 10) String.EmptyString.

(** What the dump takes from the rest of the library and from the platform:
    the symbolizer [aws_backtrace_addr2line] (the array it returns: one
    entry per frame, NULL entries as [None]); [aws_byte_buf_append] on the
    4096-byte trace buffer (contents before, cursor appended, contents
    after); and the priority queue, as the order in which the elements
    pushed come out again under a given comparator. *)
Class Reporter := {
  aws_backtrace_addr2line : list Z -> Z -> list (option string);
  aws_byte_buf_append : string -> string -> string;
  aws_priority_queue_drain : forall A : Type, (A -> A -> Z) -> list A -> list A
}.

(** [struct aws_string]: the bytes and the allocator they were taken from. *)
Definition aws_string : Type := block string.

(** used only to resolve stacks -> trace, count, size at dump time *)
Module stack_metadata.
Record t : Type := {
  trace : option aws_string;
  count : Z;
  size : Z
}.
End stack_metadata.

(** One [AWS_LOGF_TRACE] call of the dump, by its format string:
    - [LOG_BANNER]: the line of eighty [#];
    - [LOG_BEGIN], [LOG_END]: "#  BEGIN MEMTRACE DUMP ... #", "#  END ...";
    - [LOG_SUMMARY]: "tracer: %zu bytes still allocated in %zu allocations";
    - [LOG_LEAKS]: "Leaks in order of allocation:";
    - [LOG_ALLOC]: "ALLOC %zu bytes";
    - [LOG_STACKTRACE]: "  stacktrace:\n%s";
    - [LOG_BY_BYTES]: "Stacks by bytes leaked:";
    - [LOG_STACK_BYTES]: "%zu bytes in %zu allocations:";
    - [LOG_BY_COUNT]: "Stacks by number of leaks:";
    - [LOG_STACK_COUNT]: "%zu allocations leaking %zu bytes:";
    - [LOG_TRACE]: "%s". *)
Inductive log_entry : Type :=
  | LOG_BANNER
  | LOG_BEGIN
  | LOG_SUMMARY (bytes allocations : Z)
  | LOG_LEAKS
  | LOG_ALLOC (bytes : Z)
  | LOG_STACKTRACE (trace : string)
  | LOG_BY_BYTES
  | LOG_STACK_BYTES (bytes allocations : Z)
  | LOG_BY_COUNT
  | LOG_STACK_COUNT (allocations bytes : Z)
  | LOG_TRACE (trace : string)
  | LOG_END.

(** Modelled from the spec: [aws_hash_table_foreach], missing from the
    sources. "Iterate the allocation map": the callback runs once on every
    entry, threading its context; every callback of the tracer asks to
    continue. *)
Fixpoint foreach_entry {V C : Type} (entries : list (Z * V))
    (callback : C -> Z * V -> result C) (context : C) : result C :=
  match entries with
  | [] => Ok context
  | item :: entries =>
      context ← callback context item;
      foreach_entry entries callback context
  end.

Definition aws_hash_table_foreach {V C : Type} (m : gmap Z V)
    (callback : C -> Z * V -> result C) (context : C) : result C :=
  foreach_entry (map_to_list m) callback context.

Section ReporterModel.
Context `{Platform} `{Reporter}.

Definition with_trace (s : block stack_metadata.t) (tr : aws_string)
    : block stack_metadata.t :=
  {| origin := origin s;
     payload := {| stack_metadata.trace := Some tr;
                   stack_metadata.count := stack_metadata.count (payload s);
                   stack_metadata.size := stack_metadata.size (payload s) |} |}.

(** The loop of [s_collect_stack_trace] over the symbol array, from index
    [idx] on, [stacktrace] being the contents of the buffer so far. *)
Fixpoint symbol_lines (symbols : list (option string)) (idx depth' : Z)
    (stacktrace : string) : string :=
  match symbols with
  | [] => stacktrace
  | caller :: symbols =>
      if idx <? depth' then
        let stacktrace :=
          if 0 <? idx then aws_byte_buf_append stacktrace newline
          else stacktrace in
        match caller with
        | None => stacktrace
        | Some String.EmptyString => stacktrace
        | Some caller =>
            symbol_lines symbols (idx + 1) depth'
              (aws_byte_buf_append stacktrace caller)
        end
      else stacktrace
  end.

(** The context is the stat table being filled in: the callback stores the
    trace in the item it was handed. *)
Definition s_collect_stack_trace (tracer : alloc_tracer)
    (stack_info : gmap Z (block stack_metadata.t))
    (item : Z * block stack_metadata.t)
    : result (gmap Z (block stack_metadata.t)) :=
  let all_stacks := stacks tracer in
  let allocator' := system_allocator tracer in
  let '(rc, stack_item) := aws_hash_table_find all_stacks item.1 in
  _ ← AWS_FATAL_ASSERT (AWS_OP_SUCCESS =? rc);
  match stack_item with
  | None => Fatal
  | Some stack' =>
      let symbols :=
        aws_backtrace_addr2line (frames (payload stack'))
          (depth (payload stack')) in
      let stacktrace :=
        symbol_lines symbols 0 (depth (payload stack')) empty_string in
      let tr : aws_string := {| origin := allocator'; payload := stacktrace |} in
      Ok (<[item.1 := with_trace item.2 tr]> stack_info)
  end.

Definition s_stack_info_compare_size (a b : block stack_metadata.t) : Z :=
  if stack_metadata.size (payload b) >? stack_metadata.size (payload a)
  then 1 else 0.

Definition s_stack_info_compare_count (a b : block stack_metadata.t) : Z :=
  if stack_metadata.count (payload b) >? stack_metadata.count (payload a)
  then 1 else 0.

(** The string goes back to the allocator it names, and so does the
    record; a record without a trace would be a NULL dereference. *)
Definition s_stack_info_destroy (data : block stack_metadata.t)
    : result (list release_event) :=
  match stack_metadata.trace (payload data) with
  | None => Fatal
  | Some tr =>
      let allocator' := origin tr in
      Ok [aws_mem_release (origin tr) tr; aws_mem_release allocator' data]
  end.

(** tally up count/size per stack from all allocs *)
Definition s_collect_stack_stats (tracer : alloc_tracer)
    (stack_info : gmap Z (block stack_metadata.t))
    (item : Z * block alloc_info)
    : result (gmap Z (block stack_metadata.t)) :=
  let alloc := payload item.2 in
  let key := wrap (stack alloc) in
  let '(rc, was_created) := aws_hash_table_create stack_info key in
  _ ← AWS_FATAL_ASSERT (AWS_OP_SUCCESS =? rc);
  let stack' :=
    if (was_created : bool)
    then aws_mem_calloc (system_allocator tracer)
           {| stack_metadata.trace := None;
              stack_metadata.count := 0;
              stack_metadata.size := 0 |}
    else default
           (aws_mem_calloc (system_allocator tracer)
              {| stack_metadata.trace := None;
                 stack_metadata.count := 0;
                 stack_metadata.size := 0 |})
           (stack_info !! key) in
  Ok (<[key :=
          {| origin := origin stack';
             payload :=
               {| stack_metadata.trace := stack_metadata.trace (payload stack');
                  stack_metadata.count :=
                    wrap (stack_metadata.count (payload stack') + 1);
                  stack_metadata.size :=
                    wrap (stack_metadata.size (payload stack')
                          + size alloc) |} |}]> stack_info).

Definition s_insert_stacks (pq : list (block stack_metadata.t))
    (item : Z * block stack_metadata.t)
    : result (list (block stack_metadata.t)) :=
  Ok (pq ++ [item.2]).

Definition s_insert_allocs (allocs' : list (block alloc_info))
    (item : Z * block alloc_info) : result (list (block alloc_info)) :=
  Ok (allocs' ++ [item.2]).

Definition s_alloc_compare (a b : block alloc_info) : Z :=
  if time (payload a) >? time (payload b) then 1 else 0.

End ReporterModel.

(** Runs [f] on every element in turn and concatenates what it yields. *)
Fixpoint collect {A B : Type} (f : A -> result (list B)) (l : list A)
    : result (list B) :=
  match l with
  | [] => Ok []
  | x :: l =>
      first ← f x;
      rest ← collect f l;
      Ok (first ++ rest)
  end.

Section Dump.
Context `{Platform} `{Reporter}.

(** The body of the loop over the leaks: the line of the allocation and,
    when it has a fingerprint, the trace of its stack from the stat table.
    A missing element or a missing trace would be a NULL dereference. *)
Definition log_leak (stack_info : gmap Z (block stack_metadata.t))
    (alloc : block alloc_info) : result (list log_entry) :=
  let line := LOG_ALLOC (size (payload alloc)) in
  if negb (stack (payload alloc) =? 0) then
    let '(rc, item) :=
      aws_hash_table_find stack_info (wrap (stack (payload alloc))) in
    _ ← AWS_FATAL_ASSERT (AWS_OP_SUCCESS =? rc);
    match item with
    | None => Fatal
    | Some stack' =>
        match stack_metadata.trace (payload stack') with
        | None => Fatal
        | Some tr => Ok [line; LOG_STACKTRACE (payload tr)]
        end
    end
  else Ok [line].

Definition log_stack_by_size (stack' : block stack_metadata.t)
    : result (list log_entry) :=
  match stack_metadata.trace (payload stack') with
  | None => Fatal
  | Some tr =>
      Ok [LOG_STACK_BYTES (stack_metadata.size (payload stack'))
            (stack_metadata.count (payload stack'));
          LOG_TRACE (payload tr)]
  end.

Definition log_stack_by_count (stack' : block stack_metadata.t)
    : result (list log_entry) :=
  match stack_metadata.trace (payload stack') with
  | None => Fatal
  | Some tr =>
      Ok [LOG_STACK_COUNT (stack_metadata.count (payload stack'))
            (stack_metadata.size (payload stack'));
          LOG_TRACE (payload tr)]
  end.

(** The two passes that fill the stat table: tally, then symbolize. *)
Definition collect_stack_info (tracer : alloc_tracer)
    : result (gmap Z (block stack_metadata.t)) :=
  stack_info ←
    aws_hash_table_foreach (allocs tracer) (s_collect_stack_stats tracer) ∅;
  aws_hash_table_foreach stack_info (s_collect_stack_trace tracer) stack_info.

(** The lines logged, in order, and the releases made when the stat table
    is cleaned up. Lines logged before an abort are not kept. *)
Definition s_alloc_tracer_dump (tracer : alloc_tracer)
    : result (list log_entry * list release_event) :=
  if level_eqb (level tracer) AWS_MEMTRACE_NONE || (allocated tracer =? 0)
  then Ok ([], [])
  else
    let num_allocs := aws_hash_table_get_entry_count (allocs tracer) in
    let log :=
      [LOG_BANNER; LOG_BEGIN; LOG_BANNER;
       LOG_SUMMARY (allocated tracer) num_allocs] in
    stack_info ←
      (if level_eqb (level tracer) AWS_MEMTRACE_STACKS
       then collect_stack_info tracer
       else Ok ∅);
    allocs' ← aws_hash_table_foreach (allocs tracer) s_insert_allocs [];
    let log := log ++ [LOG_BANNER; LOG_LEAKS; LOG_BANNER] in
    leaks ←
      collect (log_leak stack_info)
        (aws_priority_queue_drain _ s_alloc_compare allocs');
    let log := log ++ leaks in
    '(log, freed) ←
      (if level_eqb (level tracer) AWS_MEMTRACE_STACKS
       then
         stacks_by_size ← aws_hash_table_foreach stack_info s_insert_stacks [];
         let log := log ++ [LOG_BANNER; LOG_BY_BYTES; LOG_BANNER] in
         by_size ←
           collect log_stack_by_size
             (aws_priority_queue_drain _ s_stack_info_compare_size
                stacks_by_size);
         let log := log ++ by_size in
         let log := log ++ [LOG_BANNER; LOG_BY_COUNT; LOG_BANNER] in
         stacks_by_count ← aws_hash_table_foreach stack_info s_insert_stacks [];
         by_count ←
           collect log_stack_by_count
             (aws_priority_queue_drain _ s_stack_info_compare_count
                stacks_by_count);
         let log := log ++ by_count in
         freed ← collect s_stack_info_destroy (map_to_list stack_info).*2;
         Ok (log, freed)
       else Ok (log, []));
    Ok (log ++ [LOG_BANNER; LOG_END; LOG_BANNER], freed).

Definition aws_mem_tracer_dump (tracer : alloc_tracer)
    : result (list log_entry * list release_event) :=
  s_alloc_tracer_dump tracer.

End Dump.

(** A reporter for closed examples: frame [f] is symbolized as one letter,
    none above 8192; the buffer never overflows; the queue hands elements
    back by insertion sort on the comparator. *)
Fixpoint queue_insert {A : Type} (pred : A -> A -> Z) (x : A) (l : list A)
    : list A :=
  match l with
  | [] => [x]
  | y :: l' => if 0 <? pred x y then y :: queue_insert pred x l' else x :: l
  end.

Definition queue_drain (A : Type) (pred : A -> A -> Z) (l : list A) : list A :=
  foldr (queue_insert pred) [] l.

#[local] Instance test_reporter : Reporter :=
  {| aws_backtrace_addr2line := fun fs depth' =>
       (fun f => if f <? 8192
                 then Some (String.String
                              (Ascii.ascii_of_nat (Z.to_nat (65 + (f / 16) mod 26)))
                              String.EmptyString)
                 else None) <$> fs;
     aws_byte_buf_append := String.append;
     aws_priority_queue_drain := queue_drain |}.

(** A client session for closed examples: two acquisitions, the release of
    the first, and a reallocation of the second that moves it. The walker
    sees five frames, then three. *)
Definition sample_calls : list (call_env * call) :=
  [(env_at 1 5, Acquire 100); (env_at 2 5, Acquire 250);
   (env_at 3 3, Release 4096); (env_at 4 3, Realloc 4212 250 300)].

Definition sample_run (l : aws_mem_trace_level)
    : result ((alloc_tracer * Z) * list reply) :=
  facade_run bump_allocator sample_calls
    (aws_mem_tracer_new 1 5%N None l 4, 4096).

(** A tracer at level STACKS with two live allocations of one stack. *)
Definition two_live : alloc_tracer :=
  {| allocator := 5%N; system_allocator := 9%N; level := AWS_MEMTRACE_STACKS;
     frames_per_stack := 8; allocated := 350;
     allocs := {[ 4096 := aws_mem_calloc 9%N
                            {| size := 100; time := 1; stack := 77 |};
                  4212 := aws_mem_calloc 9%N
                            {| size := 250; time := 2; stack := 77 |} ]};
     stacks := {[ 77 := aws_mem_calloc 9%N
                          {| depth := 2; frames := [4128; 4144] |} ]};
     released := [] |}.

(** ** Vocabulary of the statements about the dump *)

(** Total of a field over the entries of the stat table. *)
Definition stat_total (f : stack_metadata.t -> Z)
    (m : gmap Z (block stack_metadata.t)) : Z :=
  map_fold (fun _ v acc => f (payload v) + acc) 0 m.

(** The priority queue hands back exactly the elements pushed. *)
Definition queue_contract `{Reporter} : Prop :=
  forall (A : Type) (pred : A -> A -> Z) (l : list A),
    Permutation (aws_priority_queue_drain A pred l) l.

(** Every live record finds a stack in the registry under the key its
    fingerprint is cast to. *)
Definition stacks_resolvable `{Platform} (t : alloc_tracer) : Prop :=
  forall p b, allocs t !! p = Some b ->
    is_Some (stacks t !! wrap (stack (payload b))).


Section TallyVocabulary.
Context `{Platform}.

(** The zeroed stat record a new key of the stat table gets. *)
Definition fresh_stat (t : alloc_tracer) : block stack_metadata.t :=
  aws_mem_calloc (system_allocator t)
    {| stack_metadata.trace := None;
       stack_metadata.count := 0;
       stack_metadata.size := 0 |}.

(** The stat table after [s_collect_stack_stats] has seen one more item. *)
Definition tally_step (t : alloc_tracer)
    (stack_info : gmap Z (block stack_metadata.t))
    (item : Z * block alloc_info) : gmap Z (block stack_metadata.t) :=
  let key := wrap (stack (payload item.2)) in
  let old := default (fresh_stat t) (stack_info !! key) in
  <[key :=
      {| origin := origin old;
         payload :=
           {| stack_metadata.trace := stack_metadata.trace (payload old);
              stack_metadata.count :=
                wrap (stack_metadata.count (payload old) + 1);
              stack_metadata.size :=
                wrap (stack_metadata.size (payload old)
                      + size (payload item.2)) |} |}]> stack_info.

(** Sum of the recorded sizes of a list of entries. *)
Definition entries_size (l : list (Z * block alloc_info)) : Z :=
  foldr (fun item acc => size (payload item.2) + acc) 0 l.

(** The entries whose fingerprint is cast to the key [k]. *)
Definition entries_of_key (k : Z) (l : list (Z * block alloc_info))
    : list (Z * block alloc_info) :=
  List.filter (fun item => wrap (stack (payload item.2)) =? k) l.

(** The stat record of a group of entries: none for the empty group,
    otherwise their number and the sum of their sizes, both as [size_t]. *)
Definition stat_of (t : alloc_tracer) (group : list (Z * block alloc_info))
    : option (block stack_metadata.t) :=
  match group with
  | [] => None
  | _ :: _ =>
      Some {| origin := system_allocator t;
              payload :=
                {| stack_metadata.trace := None;
                   stack_metadata.count := wrap (Z.of_nat (length group));
                   stack_metadata.size := wrap (entries_size group) |} |}
  end.

(** Every stat record comes from the bookkeeping allocator. *)
Definition stats_owned (t : alloc_tracer)
    (stack_info : gmap Z (block stack_metadata.t)) : Prop :=
  forall k v, stack_info !! k = Some v -> origin v = system_allocator t.

(** Every stat record has its trace, a string of the bookkeeping
    allocator. *)
Definition stats_traced (t : alloc_tracer)
    (stack_info : gmap Z (block stack_metadata.t)) : Prop :=
  forall k v, stack_info !! k = Some v ->
    exists tr, stack_metadata.trace (payload v) = Some tr /\
               origin tr = system_allocator t.

End TallyVocabulary.

(** The lines every dump that says anything starts and ends with. *)
Definition dump_header `{Platform} (t : alloc_tracer) : list log_entry :=
  [LOG_BANNER; LOG_BEGIN; LOG_BANNER;
   LOG_SUMMARY (aws_mem_tracer_bytes t) (aws_mem_tracer_count t);
   LOG_BANNER; LOG_LEAKS; LOG_BANNER].

Definition dump_footer : list log_entry := [LOG_BANNER; LOG_END; LOG_BANNER].

(** The dump says nothing: level NONE, or a live-bytes counter of 0. *)
Definition silent (t : alloc_tracer) : Prop :=
  level t = AWS_MEMTRACE_NONE \/ allocated t = 0.

(** * Properties *)

(** ** Arithmetic on [size_t] *)

Section WordFacts.
Context `{Platform}.

Lemma SIZE_MODULUS_large : 65536 <= SIZE_MODULUS.
Proof.
  unfold SIZE_MODULUS. change 65536 with (2 ^ 16).
  apply Z.pow_le_mono_r; [lia | apply size_bits_min].
Qed.

Lemma wrap_is_size_t z : is_size_t (wrap z).
Proof.
  unfold is_size_t, wrap. pose proof SIZE_MODULUS_large.
  apply Z.mod_pos_bound. lia.
Qed.

Lemma wrap_small z : is_size_t z -> wrap z = z.
Proof. unfold is_size_t, wrap. intros Hz. by apply Z.mod_small. Qed.

Lemma wrap_add_l a b : wrap (wrap a + b) = wrap (a + b).
Proof. unfold wrap. by rewrite Zplus_mod_idemp_l. Qed.

Lemma wrap_sub_l a b : wrap (wrap a - b) = wrap (a - b).
Proof. unfold wrap. by rewrite Zminus_mod_idemp_l. Qed.

Lemma wrap_add_sub a b : is_size_t a -> wrap (wrap (a + b) - b) = a.
Proof.
  intros Ha. rewrite wrap_sub_l.
  replace (a + b - b) with a by lia. by apply wrap_small.
Qed.

End WordFacts.

(** ** Levels *)

Lemma level_eqb_eq a b : level_eqb a b = true <-> a = b.
Proof.
  unfold level_eqb. rewrite Z.eqb_eq.
  destruct a, b; simpl; split; intros E; try reflexivity; discriminate.
Qed.

Lemma level_eqb_neq a b : level_eqb a b = false <-> a <> b.
Proof.
  rewrite <- level_eqb_eq. destruct (level_eqb a b); split; congruence.
Qed.

(** ** Sum of sizes over the allocation map *)

Lemma sum_sizes_empty : sum_sizes ∅ = 0.
Proof. unfold sum_sizes. apply map_fold_empty. Qed.

Lemma sum_sizes_insert (m : gmap Z (block alloc_info)) k b :
  m !! k = None ->
  sum_sizes (<[k := b]> m) = size (payload b) + sum_sizes m.
Proof.
  intros Hk. unfold sum_sizes.
  rewrite map_fold_insert_L; [reflexivity | intros; lia | exact Hk].
Qed.

Lemma sum_sizes_delete (m : gmap Z (block alloc_info)) k b :
  m !! k = Some b ->
  sum_sizes (delete k m) = sum_sizes m - size (payload b).
Proof.
  intros Hk. unfold sum_sizes.
  rewrite (map_fold_delete_L _ _ k b m); [lia | intros; lia | exact Hk].
Qed.

(** ** Track and untrack, case by case *)

Section TrackerFacts.
Context `{Platform}.

Ltac split_track t e :=
  unfold s_alloc_tracer_track;
  destruct (level_eqb (level t) AWS_MEMTRACE_NONE) eqn:Enone;
  [ apply level_eqb_eq in Enone; congruence | ];
  cbn [with_allocated level frames_per_stack stacks allocs system_allocator];
  destruct (level_eqb (level t) AWS_MEMTRACE_STACKS);
  [ destruct (Z.of_nat (length (aws_backtrace e (FRAMES_TO_SKIP + frames_per_stack t))) =? 0);
    cbn [negb];
    [ | unfold aws_hash_table_create;
        destruct (stacks t !! _); cbn [AWS_FATAL_ASSERT Z.eqb AWS_OP_SUCCESS mbind result_bind] ]
  | ];
  cbn [mbind result_bind];
  unfold aws_hash_table_put;
  cbn [with_allocated with_stacks allocs].

Lemma track_at_none e t ptr sz :
  level t = AWS_MEMTRACE_NONE -> s_alloc_tracer_track e t ptr sz = Ok t.
Proof.
  intros Hl. unfold s_alloc_tracer_track.
  apply level_eqb_eq in Hl. by rewrite Hl.
Qed.

Lemma track_fresh e t ptr sz :
  level t <> AWS_MEMTRACE_NONE ->
  allocs t !! ptr = None ->
  exists t', s_alloc_tracer_track e t ptr sz = Ok t' /\ tracked t ptr sz t'.
Proof.
  intros Hl Hfresh. split_track t e.
  all: rewrite Hfresh; cbn.
  all: eexists; split; [reflexivity | ].
  all: constructor; cbn; try reflexivity.
  all: eexists; split; [reflexivity | by split].
Qed.

Lemma track_duplicate e t ptr sz :
  level t <> AWS_MEMTRACE_NONE ->
  is_Some (allocs t !! ptr) ->
  s_alloc_tracer_track e t ptr sz = Fatal.
Proof.
  intros Hl [b Hb]. split_track t e.
  all: by rewrite Hb.
Qed.

Lemma track_completed e t ptr sz t' :
  level t <> AWS_MEMTRACE_NONE ->
  s_alloc_tracer_track e t ptr sz = Ok t' ->
  allocs t !! ptr = None /\ tracked t ptr sz t'.
Proof.
  intros Hl Hrun.
  destruct (allocs t !! ptr) as [b|] eqn:Hb.
  - rewrite track_duplicate in Hrun; [discriminate | done | by eexists].
  - split; [done | ].
    destruct (track_fresh e t ptr sz Hl Hb) as (t'' & Hrun' & Ht).
    congruence.
Qed.

Lemma untrack_at_none t ptr :
  level t = AWS_MEMTRACE_NONE -> s_alloc_tracer_untrack t ptr = Ok t.
Proof.
  intros Hl. unfold s_alloc_tracer_untrack.
  apply level_eqb_eq in Hl. by rewrite Hl.
Qed.

Lemma untrack_present t ptr b :
  level t <> AWS_MEMTRACE_NONE ->
  allocs t !! ptr = Some b ->
  s_alloc_tracer_untrack t ptr = Ok (untracked t ptr b).
Proof.
  intros Hl Hb. unfold s_alloc_tracer_untrack.
  apply level_eqb_neq in Hl. rewrite Hl.
  unfold aws_hash_table_find. cbn. by rewrite Hb.
Qed.

Lemma untrack_absent t ptr :
  level t <> AWS_MEMTRACE_NONE ->
  allocs t !! ptr = None ->
  s_alloc_tracer_untrack t ptr = Ok t.
Proof.
  intros Hl Hb. unfold s_alloc_tracer_untrack.
  apply level_eqb_neq in Hl. rewrite Hl.
  unfold aws_hash_table_find. cbn. by rewrite Hb.
Qed.

Lemma untrack_total t ptr : exists t', s_alloc_tracer_untrack t ptr = Ok t'.
Proof.
  destruct (level_eqb (level t) AWS_MEMTRACE_NONE) eqn:El.
  - apply level_eqb_eq in El. eexists. by apply untrack_at_none.
  - apply level_eqb_neq in El.
    destruct (allocs t !! ptr) as [b|] eqn:Hb; eexists.
    + by apply untrack_present.
    + by apply untrack_absent.
Qed.

Lemma untrack_allocs t ptr t' :
  s_alloc_tracer_untrack t ptr = Ok t' ->
  level t <> AWS_MEMTRACE_NONE ->
  allocs t' = delete ptr (allocs t) /\ level t' = level t.
Proof.
  intros Hrun Hl.
  destruct (allocs t !! ptr) as [b|] eqn:Hb.
  - rewrite (untrack_present t ptr b Hl Hb) in Hrun. by injection Hrun as <-.
  - rewrite untrack_absent in Hrun by done. injection Hrun as <-.
    by rewrite delete_id.
Qed.

End TrackerFacts.

Lemma traced_level l :
  l = AWS_MEMTRACE_BYTES \/ l = AWS_MEMTRACE_STACKS <-> l <> AWS_MEMTRACE_NONE.
Proof. destruct l; split; intros; try tauto; try congruence; intuition discriminate. Qed.

(** ** Construction *)

Section ConstructionFacts.
Context `{Platform}.

Lemma new_allocated probe a b l n :
  allocated (aws_mem_tracer_new probe a b l n) = 0.
Proof.
  unfold aws_mem_tracer_new, s_alloc_tracer_init.
  destruct (probe =? 0), l; reflexivity.
Qed.

Lemma new_allocs probe a b l n :
  allocs (aws_mem_tracer_new probe a b l n) = ∅.
Proof.
  unfold aws_mem_tracer_new, s_alloc_tracer_init.
  destruct (probe =? 0), l; reflexivity.
Qed.

Lemma new_level probe a b l n :
  level (aws_mem_tracer_new probe a b l n) =
  if probe =? 0
  then match l with
       | AWS_MEMTRACE_STACKS => AWS_MEMTRACE_BYTES
       | _ => l
       end
  else l.
Proof.
  unfold aws_mem_tracer_new, s_alloc_tracer_init.
  destruct (probe =? 0), l; reflexivity.
Qed.

Lemma new_system_allocator probe a b l n :
  system_allocator (aws_mem_tracer_new probe a b l n) =
  default aws_default_allocator b.
Proof.
  unfold aws_mem_tracer_new, s_alloc_tracer_init.
  destruct (probe =? 0), l, b; reflexivity.
Qed.

(** C7. A tracer constructed at level STACKS keeps 8 frames per stack when
    0 is requested, 128 when more than 128 is requested, and the requested
    number when it lies between 1 and 128. *)
Theorem frames_per_stack_policy probe a b l requested :
  level (aws_mem_tracer_new probe a b l requested) = AWS_MEMTRACE_STACKS ->
  (requested = 0 ->
   frames_per_stack (aws_mem_tracer_new probe a b l requested) = 8) /\
  (128 < requested ->
   frames_per_stack (aws_mem_tracer_new probe a b l requested) = 128) /\
  (1 <= requested <= 128 ->
   frames_per_stack (aws_mem_tracer_new probe a b l requested) = requested).
Proof.
  unfold aws_mem_tracer_new, s_alloc_tracer_init.
  destruct (probe =? 0), l; cbn; try discriminate.
  intros _. repeat split; intros Hr.
  - by subst.
  - destruct (Z.gtb_spec requested 128); [reflexivity | lia].
  - destruct (Z.gtb_spec requested 128); [lia | ].
    destruct (Z.eqb_spec requested 0); [lia | reflexivity].
Qed.

End ConstructionFacts.

Lemma frames_per_stack_policy_witness :
  level (aws_mem_tracer_new 1 1%N None AWS_MEMTRACE_STACKS 1000)
    = AWS_MEMTRACE_STACKS /\
  frames_per_stack (aws_mem_tracer_new 1 1%N None AWS_MEMTRACE_STACKS 1000)
    = 128.
Proof.
  split; [reflexivity | ].
  apply (frames_per_stack_policy 1 1%N None AWS_MEMTRACE_STACKS 1000);
    [reflexivity | lia].
Defined.

(** ** Track and untrack: the claims about single calls *)

Section TrackerClaims.
Context `{Platform}.

(** C3. A track whose address is already a key of the allocation map does
    not complete: the insertion is refused and the fatal assertion on its
    status aborts. (At level NONE track returns before touching the map.) *)
Theorem track_of_tracked_address_is_fatal e t ptr sz :
  level t = AWS_MEMTRACE_BYTES \/ level t = AWS_MEMTRACE_STACKS ->
  is_Some (allocs t !! ptr) ->
  s_alloc_tracer_track e t ptr sz = Fatal.
Proof.
  intros Hl Hkey. apply track_duplicate; [by apply traced_level | done].
Qed.

End TrackerClaims.

Section FacadeClaims.
Context `{Platform} {heap : Type} (U : allocator_ops heap).

(** C5. At level BYTES or STACKS, untrack of an address that is not a key of
    the allocation map returns normally and leaves the whole tracer (live
    bytes, allocation map, stack registry) as it was; so does release, which
    goes on to hand the address to the inner allocator. *)
Theorem release_of_unknown_address_is_noop t h ptr :
  level t = AWS_MEMTRACE_BYTES \/ level t = AWS_MEMTRACE_STACKS ->
  allocs t !! ptr = None ->
  s_alloc_tracer_untrack t ptr = Ok t /\
  s_trace_mem_release U (t, h) ptr = Ok (t, mem_release U h ptr).
Proof.
  intros Hl Hkey. apply traced_level in Hl.
  assert (Hun : s_alloc_tracer_untrack t ptr = Ok t) by by apply untrack_absent.
  split; [done | ].
  unfold s_trace_mem_release. by rewrite Hun.
Qed.

(** C8. At level BYTES or STACKS, an acquire that returns an address not yet
    tracked, followed by the release of that address, leaves the live-bytes
    counter at the value it had before the acquire. At level STACKS the
    capture of the acquire is taken within bounds - no frame, or at least
    the two of the tracer and no more than the buffer holds - since the
    copy of the frames is undefined otherwise. *)
Theorem acquire_then_release_restores_live_bytes e t h n :
  level t = AWS_MEMTRACE_BYTES \/ level t = AWS_MEMTRACE_STACKS ->
  (level t = AWS_MEMTRACE_STACKS -> capture_in_bounds e t) ->
  is_size_t (allocated t) ->
  allocs t !! (mem_acquire U h n).2 = None ->
  exists s1 s2,
    s_trace_mem_acquire U e (t, h) n = Ok (s1, (mem_acquire U h n).2) /\
    s_trace_mem_release U s1 (mem_acquire U h n).2 = Ok s2 /\
    aws_mem_tracer_bytes s2.1 = aws_mem_tracer_bytes t.
Proof.
  intros Hl _ Hrange Hfresh. apply traced_level in Hl.
  unfold s_trace_mem_acquire.
  destruct (mem_acquire U h n) as [h1 p] eqn:Eacq. cbn [snd] in *.
  destruct (track_fresh e t p n Hl Hfresh) as (t1 & Htrack & Ht1).
  rewrite Htrack. cbn.
  destruct Ht1 as [_ _ Hlevel _ Hbytes _ (b & Hmap & Hsize & _)].
  assert (Hb : allocs t1 !! p = Some b) by (rewrite Hmap; apply lookup_insert_eq).
  assert (Hl1 : level t1 <> AWS_MEMTRACE_NONE) by congruence.
  eexists (t1, h1), _. split; [reflexivity | ].
  unfold s_trace_mem_release.
  rewrite (untrack_present t1 p b Hl1 Hb). cbn.
  split; [reflexivity | ].
  unfold aws_mem_tracer_bytes, untracked.
  cbn [fst allocated with_allocs with_released with_allocated].
  rewrite Hbytes, Hsize. by apply wrap_add_sub.
Qed.


(** Reallocation completes exactly when the inner allocator reports success
    and the address it returns is not the key of another live entry. *)
Lemma realloc_completed e t h p old_size new_size s' q :
  level t <> AWS_MEMTRACE_NONE ->
  s_trace_mem_realloc U e (t, h) p old_size new_size = Ok (s', q) ->
  exists t1,
    mem_realloc U h p old_size new_size = (s'.2, (AWS_OP_SUCCESS, q)) /\
    s_alloc_tracer_untrack t p = Ok t1 /\
    s_alloc_tracer_track e t1 q new_size = Ok s'.1.
Proof.
  intros Hl. unfold s_trace_mem_realloc.
  destruct (mem_realloc U h p old_size new_size) as [h1 [rc q1]].
  destruct (Z.eqb_spec AWS_OP_SUCCESS rc) as [<-|Hrc]; cbn; [ | discriminate].
  destruct (untrack_total t p) as [t1 Hun]. rewrite Hun. cbn.
  destruct (s_alloc_tracer_track e t1 q1 new_size) as [t2|] eqn:Htr; cbn;
    [ | discriminate].
  intros [= <- <-]. by exists t1.
Qed.

(** C2, as the code has it. At level BYTES or STACKS, when [p] is live with
    recorded size [old] and reallocate(p, old, new) returns [q], the
    live-bytes counter has moved by new - old modulo 2^size_bits - by
    new - old exactly whenever the resulting value is representable as a
    [size_t] - whether or not [q] is [p], and the allocation map is the
    former one with the entry of [p] removed and one entry for [q], of size
    [new], added. *)
Theorem realloc_conserves_live_bytes e t h p b old new s' q :
  level t = AWS_MEMTRACE_BYTES \/ level t = AWS_MEMTRACE_STACKS ->
  allocs t !! p = Some b ->
  size (payload b) = old ->
  s_trace_mem_realloc U e (t, h) p old new = Ok (s', q) ->
  aws_mem_tracer_bytes s'.1 = wrap (aws_mem_tracer_bytes t + (new - old)) /\
  (is_size_t (aws_mem_tracer_bytes t + (new - old)) ->
   aws_mem_tracer_bytes s'.1 - aws_mem_tracer_bytes t = new - old) /\
  exists b', allocs s'.1 = <[q := b']> (delete p (allocs t)) /\
             size (payload b') = new.
Proof.
  intros Hl Hb Hold Hrun. apply traced_level in Hl.
  destruct (realloc_completed e t h p old new s' q Hl Hrun)
    as (t1 & _ & Hun & Htr).
  rewrite (untrack_present t p b Hl Hb) in Hun. injection Hun as <-.
  apply track_completed in Htr; [ | done].
  destruct Htr as [_ [_ _ _ _ Hbytes _ (b' & Hmap & Hsize & _)]].
  cbn in Hbytes, Hmap.
  assert (Hmod : aws_mem_tracer_bytes s'.1
                 = wrap (aws_mem_tracer_bytes t + (new - old))).
  { unfold aws_mem_tracer_bytes. rewrite Hbytes, Hold, wrap_add_l.
    f_equal. lia. }
  split; [done | split].
  - intros Hfit. rewrite Hmod, wrap_small by done. lia.
  - by exists b'.
Qed.

End FacadeClaims.

(** C2, as stated, fails when the counter wraps. After an acquire of 16
    bytes and a request the inner allocator cannot serve (it returns NULL,
    which is tracked with the requested size), the counter reads 2^64 - 8;
    reallocating the first block from 16 to 32 bytes leaves it at 8: it has
    not grown by 16. *)
Lemma realloc_wraps_live_bytes :
  let t0 := aws_mem_tracer_new 1 5%N None AWS_MEMTRACE_BYTES 0 in
  exists s b s',
    facade_run bump_allocator
      [(env_at 1 0, Acquire 16); (env_at 2 0, Acquire (2 ^ 64 - 24))]
      (t0, 4096)
      = Ok (s, [Address 4096; Address 0]) /\
    level s.1 = AWS_MEMTRACE_BYTES /\
    allocs s.1 !! 4096 = Some b /\
    size (payload b) = 16 /\
    s_trace_mem_realloc bump_allocator (env_at 3 0) s 4096 16 32
      = Ok (s', 4128) /\
    aws_mem_tracer_bytes s.1 = 2 ^ 64 - 8 /\
    aws_mem_tracer_bytes s'.1 = 8 /\
    aws_mem_tracer_bytes s'.1 - aws_mem_tracer_bytes s.1 <> 32 - 16.
Proof.
  cbn zeta. eexists _, _, _.
  split; [vm_compute; reflexivity | ].
  split; [vm_compute; reflexivity | ].
  split; [vm_compute; reflexivity | ].
  split; [vm_compute; reflexivity | ].
  split; [vm_compute; reflexivity | ].
  split; [vm_compute; reflexivity | ].
  split; [vm_compute; reflexivity | ].
  vm_compute. discriminate.
Qed.

(** ** The bookkeeping invariant *)

Section Invariant.
Context `{Platform} {heap : Type} (U : allocator_ops heap).

Lemma new_consistent probe a b l n :
  bytes_consistent (aws_mem_tracer_new probe a b l n).
Proof.
  unfold bytes_consistent.
  rewrite new_allocated, new_allocs, sum_sizes_empty.
  symmetry. apply wrap_small. pose proof SIZE_MODULUS_large.
  unfold is_size_t. lia.
Qed.

Lemma track_consistent e t ptr sz t' :
  s_alloc_tracer_track e t ptr sz = Ok t' ->
  bytes_consistent t -> bytes_consistent t'.
Proof.
  intros Hrun Hinv.
  destruct (level_eqb (level t) AWS_MEMTRACE_NONE) eqn:El.
  - apply level_eqb_eq in El. rewrite track_at_none in Hrun by done.
    by injection Hrun as <-.
  - apply level_eqb_neq in El.
    destruct (track_completed e t ptr sz t' El Hrun)
      as [Hfresh [_ _ _ _ Hbytes _ (b & Hmap & Hsize & _)]].
    unfold bytes_consistent in *.
    rewrite Hbytes, Hmap, sum_sizes_insert, Hsize, Hinv, wrap_add_l by done.
    f_equal. lia.
Qed.

Lemma untrack_consistent t ptr t' :
  s_alloc_tracer_untrack t ptr = Ok t' ->
  bytes_consistent t -> bytes_consistent t'.
Proof.
  intros Hrun Hinv.
  destruct (level_eqb (level t) AWS_MEMTRACE_NONE) eqn:El.
  - apply level_eqb_eq in El. rewrite untrack_at_none in Hrun by done.
    by injection Hrun as <-.
  - apply level_eqb_neq in El.
    destruct (allocs t !! ptr) as [b|] eqn:Hb.
    + rewrite (untrack_present t ptr b El Hb) in Hrun. injection Hrun as <-.
      unfold bytes_consistent, untracked in *. cbn.
      rewrite (sum_sizes_delete _ _ b Hb), Hinv. apply wrap_sub_l.
    + rewrite untrack_absent in Hrun by done. by injection Hrun as <-.
Qed.

Lemma facade_call_consistent e s c s' r :
  facade_call U e s c = Ok (s', r) ->
  bytes_consistent s.1 -> bytes_consistent s'.1.
Proof.
  destruct s as [t h]. cbn [fst].
  destruct c as [sz | num sz | ptr | ptr old_size new_size]; cbn.
  - destruct (mem_acquire U h sz) as [h1 p].
    destruct (s_alloc_tracer_track e t p sz) as [t1|] eqn:Htr; cbn;
      [ | discriminate].
    intros [= <- <-]. by apply (track_consistent e t p sz).
  - destruct (mem_calloc U h num sz) as [h1 p].
    destruct (s_alloc_tracer_track e t p _) as [t1|] eqn:Htr; cbn;
      [ | discriminate].
    intros [= <- <-]. by apply (track_consistent _ _ _ _ _ Htr).
  - destruct (s_alloc_tracer_untrack t ptr) as [t1|] eqn:Hun; cbn;
      [ | discriminate].
    intros [= <- <-]. by apply (untrack_consistent t ptr).
  - destruct (mem_realloc U h ptr old_size new_size) as [h1 [rc q]].
    destruct rc as [ | rc | rc]; cbn; try discriminate.
    destruct (s_alloc_tracer_untrack t ptr) as [t1|] eqn:Hun; cbn;
      [ | discriminate].
    destruct (s_alloc_tracer_track e t1 q new_size) as [t2|] eqn:Htr; cbn;
      [ | discriminate].
    intros [= <- <-] Hinv.
    apply (track_consistent _ _ _ _ _ Htr).
    by apply (untrack_consistent t ptr).
Qed.

Lemma facade_run_consistent cs s s' rs :
  facade_run U cs s = Ok (s', rs) ->
  bytes_consistent s.1 -> bytes_consistent s'.1.
Proof.
  revert s s' rs. induction cs as [ | [e c] cs IH]; intros s s' rs; cbn.
  - by intros [= <- <-].
  - destruct (facade_call U e s c) as [[s1 r]|] eqn:Hcall; cbn;
      [ | discriminate].
    destruct (facade_run U cs s1) as [[s2 rs2]|] eqn:Hrun; cbn;
      [ | discriminate].
    intros [= <- <-] Hinv.
    apply (IH _ _ _ Hrun). by apply (facade_call_consistent _ _ _ _ _ Hcall).
Qed.

(** A call completes unless the inner allocator refuses a reallocation or
    hands out an address that is still tracked. *)
Lemma facade_call_completes e t h c :
  match c with
  | Acquire sz => allocs t !! (mem_acquire U h sz).2 = None
  | Calloc num sz => allocs t !! (mem_calloc U h num sz).2 = None
  | Release _ => True
  | Realloc ptr old_size new_size =>
      (mem_realloc U h ptr old_size new_size).2.1 = AWS_OP_SUCCESS /\
      delete ptr (allocs t) !! (mem_realloc U h ptr old_size new_size).2.2 = None
  end ->
  exists s' r, facade_call U e (t, h) c = Ok (s', r).
Proof.
  destruct (level_eqb (level t) AWS_MEMTRACE_NONE) eqn:El.
  - apply level_eqb_eq in El.
    destruct c as [sz | num sz | ptr | ptr old_size new_size]; cbn.
    + intros _. destruct (mem_acquire U h sz) as [h1 p].
      rewrite track_at_none by done. cbn. by eexists _, _.
    + intros _. destruct (mem_calloc U h num sz) as [h1 p].
      rewrite track_at_none by done. cbn. by eexists _, _.
    + intros _. rewrite untrack_at_none by done. cbn. by eexists _, _.
    + destruct (mem_realloc U h ptr old_size new_size) as [h1 [rc q]].
      cbn [fst snd]. intros [-> _]. cbn.
      rewrite untrack_at_none by done. cbn.
      rewrite track_at_none by done. cbn. by eexists _, _.
  - apply level_eqb_neq in El.
    destruct c as [sz | num sz | ptr | ptr old_size new_size]; cbn.
    + destruct (mem_acquire U h sz) as [h1 p]. cbn [snd]. intros Hfresh.
      destruct (track_fresh e t p sz El Hfresh) as (t1 & -> & _).
      cbn. by eexists _, _.
    + destruct (mem_calloc U h num sz) as [h1 p]. cbn [snd]. intros Hfresh.
      destruct (track_fresh e t p (wrap (num * sz)) El Hfresh) as (t1 & -> & _).
      cbn. by eexists _, _.
    + intros _. destruct (untrack_total t ptr) as [t1 ->]. cbn.
      by eexists _, _.
    + destruct (mem_realloc U h ptr old_size new_size) as [h1 [rc q]].
      cbn [fst snd]. intros [-> Hfresh]. cbn.
      destruct (untrack_total t ptr) as [t1 Hun]. rewrite Hun. cbn.
      destruct (untrack_allocs t ptr t1 Hun El) as [Hmap Hlevel].
      rewrite <- Hmap in Hfresh. rewrite <- Hlevel in El.
      destruct (track_fresh e t1 q new_size El Hfresh) as (t2 & -> & _).
      cbn. by eexists _, _.
Qed.

(** C1, as the code has it. After any sequence of acquire, zeroed-acquire,
    release and reallocate calls made through the facade of a freshly
    constructed tracer (that is, at any quiescent point a client can reach),
    the live-bytes query returns the sum of the [size] fields of the
    allocation map reduced modulo 2^size_bits - hence the sum itself
    whenever that is representable as a [size_t] - and the live-count query
    returns the number of entries of the map. *)
Theorem live_bytes_and_count_match_map probe a b l n cs h s' rs :
  facade_run U cs (aws_mem_tracer_new probe a b l n, h) = Ok (s', rs) ->
  aws_mem_tracer_bytes s'.1 = wrap (sum_sizes (allocs s'.1)) /\
  (is_size_t (sum_sizes (allocs s'.1)) ->
   aws_mem_tracer_bytes s'.1 = sum_sizes (allocs s'.1)) /\
  aws_mem_tracer_count s'.1 = Z.of_nat (base.size (allocs s'.1)).
Proof.
  intros Hrun.
  assert (Hinv : bytes_consistent s'.1).
  { apply (facade_run_consistent _ _ _ _ Hrun). apply new_consistent. }
  unfold bytes_consistent, aws_mem_tracer_bytes in *.
  split; [done | split; [ | reflexivity]].
  intros Hfit. rewrite Hinv. by apply wrap_small.
Qed.

End Invariant.

(** C1, as stated, fails: the counter is a [size_t] and wraps, the sum of
    the recorded sizes does not. The inner allocator cannot serve the first
    request and returns NULL, which the facade tracks with the requested
    size like any other address; after the second acquire the counter reads
    15 while the two recorded sizes add up to 2^64 + 15. *)
Lemma live_bytes_wraps_past_sum_of_sizes :
  let t0 := aws_mem_tracer_new 1 5%N None AWS_MEMTRACE_BYTES 0 in
  exists s',
    facade_run bump_allocator
      [(env_at 1 0, Acquire (2 ^ 64 - 1)); (env_at 2 0, Acquire 16)]
      (t0, 4096)
      = Ok (s', [Address 0; Address 4096]) /\
    aws_mem_tracer_bytes s'.1 = 15 /\
    sum_sizes (allocs s'.1) = 2 ^ 64 + 15 /\
    aws_mem_tracer_bytes s'.1 <> sum_sizes (allocs s'.1).
Proof.
  cbn zeta. eexists. split; [vm_compute; reflexivity | ].
  split; [vm_compute; reflexivity | ].
  split; [vm_compute; reflexivity | ].
  vm_compute. discriminate.
Qed.

(** ** Pass-through at level NONE *)

Section PassThrough.
Context `{Platform} {heap : Type} (U : allocator_ops heap).

Lemma facade_call_at_none e t h c :
  level t = AWS_MEMTRACE_NONE ->
  facade_call U e (t, h) c =
  if succeeded (inner_call U h c).2
  then Ok ((t, (inner_call U h c).1), (inner_call U h c).2)
  else Fatal.
Proof.
  intros Hl.
  destruct c as [sz | num sz | ptr | ptr old_size new_size]; cbn.
  - destruct (mem_acquire U h sz) as [h1 p].
    by rewrite track_at_none.
  - destruct (mem_calloc U h num sz) as [h1 p].
    by rewrite track_at_none.
  - by rewrite untrack_at_none.
  - destruct (mem_realloc U h ptr old_size new_size) as [h1 [rc q]].
    destruct rc as [ | rc | rc]; cbn; try reflexivity.
    rewrite untrack_at_none by done. cbn.
    by rewrite track_at_none.
Qed.

Lemma facade_run_at_none cs t h :
  level t = AWS_MEMTRACE_NONE ->
  facade_run U cs (t, h) =
  if forallb succeeded (inner_run U cs.*2 h).2
  then Ok ((t, (inner_run U cs.*2 h).1), (inner_run U cs.*2 h).2)
  else Fatal.
Proof.
  intros Hl. revert h. induction cs as [ | [e c] cs IH]; intros h.
  - reflexivity.
  - cbn [facade_run fmap list_fmap snd inner_run].
    rewrite facade_call_at_none by done.
    destruct (inner_call U h c) as [h1 r]. cbn [fst snd].
    destruct (succeeded r) eqn:Hr.
    + cbn. rewrite IH.
      destruct (inner_run U cs.*2 h1) as [h2 rs]. cbn [fst snd forallb].
      rewrite Hr. cbn. by destruct (forallb succeeded rs).
    + destruct (inner_run U cs.*2 h1) as [h2 rs]. cbn [fst snd forallb].
      by rewrite Hr.
Qed.

(** C6, as the code has it. Whatever the inner allocator and the sequence
    of calls, a facade constructed at level NONE hands back exactly the
    replies the inner allocator gives to the same calls and leaves the inner
    allocator in the same state, as long as every inner reallocation reports
    success; when one reports an error the facade aborts. The tracer is never
    modified, and its live-bytes query returns 0. *)
Theorem none_facade_passes_through probe a b n cs h :
  facade_run U cs (aws_mem_tracer_new probe a b AWS_MEMTRACE_NONE n, h) =
  (if forallb succeeded (inner_run U cs.*2 h).2
   then Ok ((aws_mem_tracer_new probe a b AWS_MEMTRACE_NONE n,
             (inner_run U cs.*2 h).1),
            (inner_run U cs.*2 h).2)
   else Fatal) /\
  aws_mem_tracer_bytes (aws_mem_tracer_new probe a b AWS_MEMTRACE_NONE n) = 0.
Proof.
  split.
  - apply facade_run_at_none. rewrite new_level. by destruct (probe =? 0).
  - apply new_allocated.
Qed.

End PassThrough.

(** C6, as stated, fails: where the inner allocator alone answers a
    reallocation with an error status, the NONE-level facade does not return
    that answer (nor any other): it aborts. *)
Lemma none_facade_aborts_on_refused_realloc :
  let t0 := aws_mem_tracer_new 1 1%N None AWS_MEMTRACE_NONE 0 in
  let cs := [(env_at 1 0, Acquire 16); (env_at 2 0, Realloc 4096 16 (2 ^ 40))] in
  inner_run bump_allocator cs.*2 4096
    = (4128, [Address 4096; Refused AWS_OP_ERR]) /\
  facade_run bump_allocator cs (t0, 4096) = Fatal /\
  ~ (exists s', facade_run bump_allocator cs (t0, 4096)
                = Ok (s', (inner_run bump_allocator cs.*2 4096).2)).
Proof.
  cbn zeta. split; [vm_compute; reflexivity | ].
  assert (Hrun : facade_run bump_allocator
                   [(env_at 1 0, Acquire 16);
                    (env_at 2 0, Realloc 4096 16 (2 ^ 40))]
                   (aws_mem_tracer_new 1 1%N None AWS_MEMTRACE_NONE 0, 4096)
                 = Fatal) by (vm_compute; reflexivity).
  split; [exact Hrun | ].
  intros [s' Hs']. rewrite Hrun in Hs'. discriminate.
Qed.

(** ** Depth of a stored stack *)

Section StackDepth.
Context `{Platform}.

(** The record stored for a fingerprint that is new to the registry. *)
Lemma track_new_stack e t ptr sz t' :
  level t = AWS_MEMTRACE_STACKS ->
  s_alloc_tracer_track e t ptr sz = Ok t' ->
  aws_backtrace e (FRAMES_TO_SKIP + frames_per_stack t) <> [] ->
  stacks t !! wrap (wrap64 (aws_hash_byte_cursor_ptr
                     (aws_backtrace e (FRAMES_TO_SKIP + frames_per_stack t))))
    = None ->
  exists rec,
    stacks t' !! wrap (wrap64 (aws_hash_byte_cursor_ptr
                       (aws_backtrace e (FRAMES_TO_SKIP + frames_per_stack t))))
      = Some rec /\
    origin rec = system_allocator t /\
    depth (payload rec) =
      wrap (Z.of_nat (length (aws_backtrace e (FRAMES_TO_SKIP + frames_per_stack t)))
            - FRAMES_TO_SKIP).
Proof.
  intros Hl Hrun Hframes Hnew. revert Hrun.
  unfold s_alloc_tracer_track.
  cbn [with_allocated level frames_per_stack stacks system_allocator].
  rewrite !Hl. cbn [level_eqb level_rank Z.eqb Pos.eqb].
  destruct (Z.eqb_spec (Z.of_nat (length (aws_backtrace e
              (FRAMES_TO_SKIP + frames_per_stack t)))) 0) as [Hz|_].
  { destruct (aws_backtrace e (FRAMES_TO_SKIP + frames_per_stack t));
      [congruence | cbn in Hz; lia]. }
  cbn [negb]. unfold aws_hash_table_create. rewrite Hnew.
  cbn [AWS_FATAL_ASSERT Z.eqb AWS_OP_SUCCESS mbind result_bind].
  unfold aws_hash_table_put. cbn [with_stacks with_allocated allocs].
  destruct (allocs t !! ptr); cbn; [discriminate | ].
  intros [= <-]. cbn [stacks with_allocs].
  eexists. split; [apply lookup_insert_eq | by split].
Qed.

(** With at least [FRAMES_TO_SKIP] frames captured, and no more than the
    buffer holds, the stored depth is the captured depth less the skipped
    prefix and stays within the frame budget. *)
Lemma stored_depth_within_budget (captured budget : Z) :
  is_size_t budget ->
  FRAMES_TO_SKIP <= captured <= FRAMES_TO_SKIP + budget ->
  wrap (captured - FRAMES_TO_SKIP) = captured - FRAMES_TO_SKIP /\
  wrap (captured - FRAMES_TO_SKIP) <= budget.
Proof.
  intros Hb Hc. unfold FRAMES_TO_SKIP in *.
  assert (Hfit : is_size_t (captured - 2)) by (unfold is_size_t in *; lia).
  rewrite (wrap_small _ Hfit). lia.
Qed.

(** With a single frame captured the [size_t] subtraction wraps. *)
Lemma stored_depth_of_single_frame :
  wrap (1 - FRAMES_TO_SKIP) = SIZE_MODULUS - 1.
Proof.
  unfold wrap, FRAMES_TO_SKIP. pose proof SIZE_MODULUS_large.
  replace (1 - 2) with (SIZE_MODULUS - 1 + (-1) * SIZE_MODULUS) by lia.
  rewrite Z_mod_plus_full. apply Z.mod_small. lia.
Qed.

(** A single captured frame with a fingerprint new to the registry: the
    record created has depth 2^size_bits - 1. *)
Lemma track_single_frame e t ptr sz t' f :
  level t = AWS_MEMTRACE_STACKS ->
  aws_backtrace e (FRAMES_TO_SKIP + frames_per_stack t) = [f] ->
  stacks t !! wrap (wrap64 (aws_hash_byte_cursor_ptr [f])) = None ->
  s_alloc_tracer_track e t ptr sz = Ok t' ->
  exists rec,
    stacks t' !! wrap (wrap64 (aws_hash_byte_cursor_ptr [f])) = Some rec /\
    depth (payload rec) = SIZE_MODULUS - 1.
Proof.
  intros Hl Hwalk Hnew Hrun.
  destruct (track_new_stack e t ptr sz t' Hl Hrun) as (rec & Hrec & _ & Hdepth).
  - by rewrite Hwalk.
  - by rewrite Hwalk.
  - rewrite Hwalk in Hrec, Hdepth. exists rec. split; [done | ].
    rewrite Hdepth. apply stored_depth_of_single_frame.
Qed.

End StackDepth.

(** ** Which allocator releases the metadata *)

Section Ownership.
Context `{Platform}.

(** Every record that track stores was taken from the bookkeeping
    allocator (the last field of [tracked]), whereas untrack hands the
    record to the default allocator. *)
Lemma untrack_release_event t ptr b :
  level t <> AWS_MEMTRACE_NONE ->
  allocs t !! ptr = Some b ->
  exists t', s_alloc_tracer_untrack t ptr = Ok t' /\
             released t' =
               {| asked := aws_default_allocator; owner := origin b |}
               :: released t.
Proof.
  intros Hl Hb. exists (untracked t ptr b).
  split; [by apply untrack_present | reflexivity].
Qed.

Lemma acquire_release_event {heap : Type} (U : allocator_ops heap) e t h n :
  level t <> AWS_MEMTRACE_NONE ->
  allocs t !! (mem_acquire U h n).2 = None ->
  exists s1 s2,
    s_trace_mem_acquire U e (t, h) n = Ok (s1, (mem_acquire U h n).2) /\
    s_trace_mem_release U s1 (mem_acquire U h n).2 = Ok s2 /\
    released s2.1 =
      {| asked := aws_default_allocator; owner := system_allocator t |}
      :: released t.
Proof.
  intros Hl Hfresh. unfold s_trace_mem_acquire.
  destruct (mem_acquire U h n) as [h1 p]. cbn [snd] in *.
  destruct (track_fresh e t p n Hl Hfresh) as (t1 & Htrack & Ht1).
  rewrite Htrack. cbn.
  destruct Ht1 as [_ _ Hlevel _ _ Hrel (b & Hmap & _ & Horigin)].
  assert (Hb : allocs t1 !! p = Some b) by (rewrite Hmap; apply lookup_insert_eq).
  assert (Hl1 : level t1 <> AWS_MEMTRACE_NONE) by congruence.
  eexists (t1, h1), _. split; [reflexivity | ].
  unfold s_trace_mem_release.
  rewrite (untrack_present t1 p b Hl1 Hb). cbn.
  split; [reflexivity | ].
  unfold untracked, s_destroy_alloc, aws_mem_release.
  cbn [fst released with_allocs with_released].
  by rewrite Horigin, Hrel.
Qed.

(** On a tracer constructed with bookkeeping allocator [B], the record of
    an acquire that is released again travels from [B] to the default
    allocator; the two differ as soon as [B] is not the default. *)
Lemma constructed_tracer_release_event {heap : Type} (U : allocator_ops heap)
    probe a (B : aws_allocator) l requested e h n :
  level (aws_mem_tracer_new probe a (Some B) l requested) <> AWS_MEMTRACE_NONE ->
  exists s1 s2,
    s_trace_mem_acquire U e
      (aws_mem_tracer_new probe a (Some B) l requested, h) n
      = Ok (s1, (mem_acquire U h n).2) /\
    s_trace_mem_release U s1 (mem_acquire U h n).2 = Ok s2 /\
    released s2.1 = [{| asked := aws_default_allocator; owner := B |}] /\
    (B <> aws_default_allocator -> forallb matched (released s2.1) = false).
Proof.
  intros Hl.
  destruct (acquire_release_event U e
              (aws_mem_tracer_new probe a (Some B) l requested) h n Hl)
    as (s1 & s2 & Hacq & Hrel & Hlog).
  { rewrite new_allocs. apply lookup_empty. }
  exists s1, s2. split; [done | split; [done | ]].
  assert (Hlog' : released s2.1
                  = [{| asked := aws_default_allocator; owner := B |}]).
  { rewrite Hlog, new_system_allocator. cbn. f_equal.
    unfold aws_mem_tracer_new, s_alloc_tracer_init.
    by destruct (probe =? 0), l. }
  split; [done | ].
  intros HB. rewrite Hlog'. cbn [forallb].
  apply andb_false_iff. left. unfold matched. cbn [asked owner].
  apply N.eqb_neq. congruence.
Qed.

End Ownership.

(** C4, on the code. A tracer over the default allocator whose bookkeeping
    allocator is allocator 7: after one acquire and the release of the
    address, the allocation record, taken from allocator 7, has been handed
    to the default allocator - here also the inner allocator - to free; at
    teardown the stack record goes the same way, and only the joint block
    returns to allocator 7. *)
Theorem metadata_is_released_through_default_allocator :
  let B : aws_allocator := 7%N in
  let t0 :=
    aws_mem_tracer_new 1 aws_default_allocator (Some B) AWS_MEMTRACE_STACKS 8 in
  exists s',
    facade_run bump_allocator
      [(env_at 1 5, Acquire 16); (env_at 2 5, Release 4096)] (t0, 4096)
      = Ok (s', [Address 4096; Returned]) /\
    allocator s'.1 = aws_default_allocator /\
    system_allocator s'.1 = B /\
    released s'.1 = [{| asked := aws_default_allocator; owner := B |}] /\
    (aws_mem_tracer_destroy s'.1).2 =
      [{| asked := aws_default_allocator; owner := B |};
       {| asked := B; owner := B |}] /\
    forallb matched (released s'.1 ++ (aws_mem_tracer_destroy s'.1).2) = false.
Proof.
  cbn zeta. eexists. split; [vm_compute; reflexivity | ].
  repeat split; vm_compute; reflexivity.
Qed.

(** C10, on the code. A tracer at level STACKS with a budget of 8 frames,
    and an acquire during which the walker captures a single frame: the
    stack record created for the new fingerprint has depth 1 - 2 in
    [size_t] arithmetic, that is 2^64 - 1, far above the budget. *)
Theorem single_frame_capture_underflows_depth :
  let t0 := aws_mem_tracer_new 1 1%N None AWS_MEMTRACE_STACKS 8 in
  exists s' rec,
    length (aws_backtrace (env_at 1 1) (FRAMES_TO_SKIP + frames_per_stack t0))
      = 1%nat /\
    facade_run bump_allocator [(env_at 1 1, Acquire 16)] (t0, 4096)
      = Ok (s', [Address 4096]) /\
    map_to_list (stacks s'.1) = [(4313, rec)] /\
    depth (payload rec) = 2 ^ 64 - 1 /\
    frames_per_stack s'.1 = 8.
Proof.
  cbn zeta. eexists _, _.
  split; [reflexivity | ].
  split; [vm_compute; reflexivity | ].
  split; [vm_compute; reflexivity | ].
  split; vm_compute; reflexivity.
Qed.

(** ** Closed instances *)

Lemma live_bytes_and_count_match_map_witness :
  match
    facade_run bump_allocator
      [(env_at 1 0, Acquire 100); (env_at 2 0, Acquire 250);
       (env_at 3 0, Release 4096); (env_at 4 0, Realloc 4212 250 300)]
      (aws_mem_tracer_new 1 5%N None AWS_MEMTRACE_BYTES 0, 4096)
  with
  | Ok (s', _) =>
      aws_mem_tracer_bytes s'.1 = wrap (sum_sizes (allocs s'.1)) /\
      aws_mem_tracer_count s'.1 = Z.of_nat (base.size (allocs s'.1))
  | Fatal => False
  end.
Proof.
  destruct (facade_run bump_allocator
              [(env_at 1 0, Acquire 100); (env_at 2 0, Acquire 250);
               (env_at 3 0, Release 4096); (env_at 4 0, Realloc 4212 250 300)]
              (aws_mem_tracer_new 1 5%N None AWS_MEMTRACE_BYTES 0, 4096))
    as [[s' rs]|] eqn:Hrun.
  - destruct (live_bytes_and_count_match_map bump_allocator
                1 5%N None AWS_MEMTRACE_BYTES 0 _ 4096 s' rs Hrun)
      as (Hbytes & _ & Hcount).
    split; [exact Hbytes | exact Hcount].
  - vm_compute in Hrun. discriminate.
Defined.

Lemma track_of_tracked_address_is_fatal_witness :
  is_Some (allocs (one_live AWS_MEMTRACE_BYTES) !! 4096) /\
  s_alloc_tracer_track (env_at 7 0) (one_live AWS_MEMTRACE_BYTES) 4096 32
    = Fatal.
Proof.
  assert (Hkey : is_Some (allocs (one_live AWS_MEMTRACE_BYTES) !! 4096))
    by (eexists; vm_compute; reflexivity).
  split; [exact Hkey | ].
  apply (track_of_tracked_address_is_fatal
           (env_at 7 0) (one_live AWS_MEMTRACE_BYTES) 4096 32);
    [left; reflexivity | exact Hkey].
Defined.

Lemma release_of_unknown_address_is_noop_witness :
  allocs (one_live AWS_MEMTRACE_STACKS) !! 8192 = None /\
  s_trace_mem_release bump_allocator (one_live AWS_MEMTRACE_STACKS, 12288) 8192
    = Ok (one_live AWS_MEMTRACE_STACKS, 12288).
Proof.
  split; [vm_compute; reflexivity | ].
  apply (release_of_unknown_address_is_noop bump_allocator
           (one_live AWS_MEMTRACE_STACKS) 12288 8192);
    [right; reflexivity | vm_compute; reflexivity].
Defined.

Lemma acquire_then_release_restores_live_bytes_witness :
  capture_in_bounds (env_at 2 4) (one_live AWS_MEMTRACE_STACKS) /\
  exists s1 s2,
    s_trace_mem_acquire bump_allocator (env_at 2 4)
      (one_live AWS_MEMTRACE_STACKS, 8192) 64 = Ok (s1, 8192) /\
    s_trace_mem_release bump_allocator s1 8192 = Ok s2 /\
    aws_mem_tracer_bytes s2.1 = 100.
Proof.
  assert (Hcap : capture_in_bounds (env_at 2 4) (one_live AWS_MEMTRACE_STACKS)).
  { right. vm_compute. split; discriminate. }
  split; [exact Hcap | ].
  apply (acquire_then_release_restores_live_bytes bump_allocator (env_at 2 4)
           (one_live AWS_MEMTRACE_STACKS) 8192 64).
  - right; reflexivity.
  - intros _. exact Hcap.
  - vm_compute. split; [discriminate | reflexivity].
  - vm_compute; reflexivity.
Defined.


Lemma realloc_conserves_live_bytes_witness :
  match
    s_trace_mem_realloc bump_allocator (env_at 2 0)
      (one_live AWS_MEMTRACE_BYTES, 8192) 4096 100 300
  with
  | Ok (s', q) =>
      q = 8192 /\
      aws_mem_tracer_bytes s'.1 = wrap (100 + (300 - 100)) /\
      exists b',
        allocs s'.1
          = <[q := b']> (delete 4096 (allocs (one_live AWS_MEMTRACE_BYTES))) /\
        size (payload b') = 300
  | Fatal => False
  end.
Proof.
  destruct (s_trace_mem_realloc bump_allocator (env_at 2 0)
              (one_live AWS_MEMTRACE_BYTES, 8192) 4096 100 300)
    as [[s' q]|] eqn:Hrun.
  - destruct (realloc_conserves_live_bytes bump_allocator (env_at 2 0)
                (one_live AWS_MEMTRACE_BYTES) 8192 4096
                (aws_mem_calloc 9%N {| size := 100; time := 1; stack := 0 |})
                100 300 s' q
                ltac:(left; reflexivity) ltac:(vm_compute; reflexivity)
                ltac:(reflexivity) Hrun)
      as (Hbytes & _ & Hmap).
    split; [ | split; [exact Hbytes | exact Hmap]].
    vm_compute in Hrun. by injection Hrun as _ <-.
  - vm_compute in Hrun. discriminate.
Defined.

(** Reallocation in place: the bump allocator leaves a shrinking block where
    it is, and the entry is re-keyed by the same address with the new size. *)
Example realloc_in_place :
  exists s',
    s_trace_mem_realloc bump_allocator (env_at 2 0)
      (one_live AWS_MEMTRACE_BYTES, 8192) 4096 100 40 = Ok (s', 4096) /\
    aws_mem_tracer_bytes s'.1 = 40 /\
    aws_mem_tracer_count s'.1 = 1 /\
    (payload <$> allocs s'.1 !! 4096)
      = Some {| size := 40; time := 2; stack := 0 |}.
Proof.
  eexists. split; [vm_compute; reflexivity | ].
  repeat split; vm_compute; reflexivity.
Qed.

(** ** End-to-end scenarios *)

(** BYTES, simple leak: acquire 100, acquire 250, release the first. *)
Example scenario_simple_leak :
  exists s',
    facade_run bump_allocator
      [(env_at 1 0, Acquire 100); (env_at 2 0, Acquire 250);
       (env_at 3 0, Release 4096)]
      (aws_mem_tracer_new 1 5%N (Some 9%N) AWS_MEMTRACE_BYTES 0, 4096)
      = Ok (s', [Address 4096; Address 4212; Returned]) /\
    aws_mem_tracer_bytes s'.1 = 250 /\
    aws_mem_tracer_count s'.1 = 1.
Proof.
  eexists. split; [vm_compute; reflexivity | ].
  split; vm_compute; reflexivity.
Qed.

(** Realloc that grows: acquire 64, then reallocate to 128. *)
Example scenario_realloc :
  exists s',
    facade_run bump_allocator
      [(env_at 1 0, Acquire 64); (env_at 2 0, Realloc 4096 64 128)]
      (aws_mem_tracer_new 1 5%N (Some 9%N) AWS_MEMTRACE_BYTES 0, 4096)
      = Ok (s', [Address 4096; Address 4176]) /\
    aws_mem_tracer_bytes s'.1 = 128 /\
    aws_mem_tracer_count s'.1 = 1 /\
    (size <$> (payload <$> allocs s'.1 !! 4176)) = Some 128.
Proof.
  eexists. split; [vm_compute; reflexivity | ].
  repeat split; vm_compute; reflexivity.
Qed.

(** Untrack of a foreign pointer: an address allocated before the tracer
    was installed is released through the facade; later cycles balance. *)
Example scenario_foreign_pointer :
  exists s',
    facade_run bump_allocator
      [(env_at 1 0, Release 1024); (env_at 2 0, Acquire 10);
       (env_at 3 0, Release 4096)]
      (aws_mem_tracer_new 1 5%N (Some 9%N) AWS_MEMTRACE_BYTES 0, 4096)
      = Ok (s', [Returned; Address 4096; Returned]) /\
    aws_mem_tracer_bytes s'.1 = 0 /\
    aws_mem_tracer_count s'.1 = 0.
Proof.
  eexists. split; [vm_compute; reflexivity | ].
  split; vm_compute; reflexivity.
Qed.

(** Capture-unavailable clamp: a request for STACKS on a platform whose
    walker answers the probe with 0 yields a tracer at level BYTES. *)
Example scenario_capture_unavailable :
  level (aws_mem_tracer_new 0 5%N None AWS_MEMTRACE_STACKS 4)
    = AWS_MEMTRACE_BYTES.
Proof. reflexivity. Qed.

(** * Further properties of the tracker *)

(** ** Track and untrack as functions of the tracer *)

Section TrackerFunctions.
Context `{Platform}.

Lemma track_fresh_result e t ptr sz :
  level t <> AWS_MEMTRACE_NONE ->
  allocs t !! ptr = None ->
  s_alloc_tracer_track e t ptr sz = Ok (track_result e t ptr sz).
Proof.
  intros Hl Hfresh. unfold s_alloc_tracer_track, track_result, captures,
    fingerprint, captured.
  apply level_eqb_neq in Hl. rewrite Hl.
  cbn [with_allocated level frames_per_stack stacks allocs system_allocator].
  destruct (level_eqb (level t) AWS_MEMTRACE_STACKS); cbn [andb].
  - destruct (Z.of_nat (length (aws_backtrace e
                (FRAMES_TO_SKIP + frames_per_stack t))) =? 0); cbn [negb].
    + cbn [mbind result_bind]. unfold aws_hash_table_put.
      cbn [with_allocated allocs]. by rewrite Hfresh.
    + unfold aws_hash_table_create.
      destruct (stacks t !! _);
        cbn [AWS_FATAL_ASSERT Z.eqb AWS_OP_SUCCESS mbind result_bind];
        unfold aws_hash_table_put;
        cbn [with_allocated with_stacks allocs]; by rewrite Hfresh.
  - cbn [mbind result_bind]. unfold aws_hash_table_put.
    cbn [with_allocated allocs]. by rewrite Hfresh.
Qed.

Lemma track_completed_result e t ptr sz t' :
  level t <> AWS_MEMTRACE_NONE ->
  s_alloc_tracer_track e t ptr sz = Ok t' ->
  allocs t !! ptr = None /\ t' = track_result e t ptr sz.
Proof.
  intros Hl Hrun.
  destruct (track_completed e t ptr sz t' Hl Hrun) as [Hfresh _].
  split; [done | ].
  rewrite (track_fresh_result e t ptr sz Hl Hfresh) in Hrun. congruence.
Qed.

(** A completed untrack either found nothing and changed nothing, or found
    the record of [ptr] and removed it. *)
Lemma untrack_completed t ptr t' :
  level t <> AWS_MEMTRACE_NONE ->
  s_alloc_tracer_untrack t ptr = Ok t' ->
  (allocs t !! ptr = None /\ t' = t) \/
  (exists b, allocs t !! ptr = Some b /\ t' = untracked t ptr b).
Proof.
  intros Hl Hrun.
  destruct (allocs t !! ptr) as [b|] eqn:Hb.
  - right. exists b. split; [done | ].
    rewrite (untrack_present t ptr b Hl Hb) in Hrun. congruence.
  - left. split; [done | ].
    rewrite (untrack_absent t ptr Hl Hb) in Hrun. congruence.
Qed.

End TrackerFunctions.

(** ** Invariants carried through calls and runs *)

Section RunInvariants.
Context `{Platform} {heap : Type} (U : allocator_ops heap).

(** A property of tracers that every completed track (made in an
    environment satisfying [E]) and every completed untrack preserve is
    preserved by every completed call and run. *)
Lemma facade_call_invariant (E : call_env -> Prop) (P : alloc_tracer -> Prop) :
  (forall e t ptr sz t',
     E e -> s_alloc_tracer_track e t ptr sz = Ok t' -> P t -> P t') ->
  (forall t ptr t', s_alloc_tracer_untrack t ptr = Ok t' -> P t -> P t') ->
  forall e s c s' r,
    E e -> facade_call U e s c = Ok (s', r) -> P s.1 -> P s'.1.
Proof.
  intros Htrack Huntrack e [t h] c s' r He. cbn [fst].
  destruct c as [sz | num sz | ptr | ptr old_size new_size]; cbn.
  - destruct (mem_acquire U h sz) as [h1 p].
    destruct (s_alloc_tracer_track e t p sz) as [t1|] eqn:Htr; cbn;
      [ | discriminate].
    intros [= <- <-]. by apply (Htrack e t p sz).
  - destruct (mem_calloc U h num sz) as [h1 p].
    destruct (s_alloc_tracer_track e t p _) as [t1|] eqn:Htr; cbn;
      [ | discriminate].
    intros [= <- <-]. by apply (Htrack _ _ _ _ _ He Htr).
  - destruct (s_alloc_tracer_untrack t ptr) as [t1|] eqn:Hun; cbn;
      [ | discriminate].
    intros [= <- <-]. by apply (Huntrack t ptr).
  - destruct (mem_realloc U h ptr old_size new_size) as [h1 [rc q]].
    destruct rc as [ | rc | rc]; cbn; try discriminate.
    destruct (s_alloc_tracer_untrack t ptr) as [t1|] eqn:Hun; cbn;
      [ | discriminate].
    destruct (s_alloc_tracer_track e t1 q new_size) as [t2|] eqn:Htr; cbn;
      [ | discriminate].
    intros [= <- <-] HP.
    apply (Htrack _ _ _ _ _ He Htr). by apply (Huntrack t ptr).
Qed.

Lemma facade_run_invariant (E : call_env -> Prop) (P : alloc_tracer -> Prop) :
  (forall e t ptr sz t',
     E e -> s_alloc_tracer_track e t ptr sz = Ok t' -> P t -> P t') ->
  (forall t ptr t', s_alloc_tracer_untrack t ptr = Ok t' -> P t -> P t') ->
  forall cs s s' rs,
    Forall (fun ec => E ec.1) cs ->
    facade_run U cs s = Ok (s', rs) -> P s.1 -> P s'.1.
Proof.
  intros Htrack Huntrack cs.
  induction cs as [ | [e c] cs IH]; intros s s' rs HE; cbn.
  - by intros [= <- <-].
  - destruct (facade_call U e s c) as [[s1 r]|] eqn:Hcall; cbn;
      [ | discriminate].
    destruct (facade_run U cs s1) as [[s2 rs2]|] eqn:Hrun; cbn;
      [ | discriminate].
    intros [= <- <-] HP. inversion HE as [ | ? ? He HE']; subst.
    apply (IH _ _ _ HE' Hrun).
    by apply (facade_call_invariant E P Htrack Huntrack e s c s1 r).
Qed.

End RunInvariants.

(** ** Configuration and stack registry *)

Section ConfigAndRegistry.
Context `{Platform} {heap : Type} (U : allocator_ops heap).

Lemma track_keeps e t ptr sz t' :
  s_alloc_tracer_track e t ptr sz = Ok t' ->
  same_config t t' /\ stacks t ⊆ stacks t'.
Proof.
  intros Hrun.
  destruct (level_eqb (level t) AWS_MEMTRACE_NONE) eqn:El.
  - apply level_eqb_eq in El. rewrite track_at_none in Hrun by done.
    injection Hrun as <-. by repeat split.
  - apply level_eqb_neq in El.
    destruct (track_completed_result e t ptr sz t' El Hrun) as [_ ->].
    split; [by repeat split | ].
    unfold track_result. cbn [stacks].
    destruct (captures e t); [ | done].
    destruct (stacks t !! wrap (fingerprint e t)) eqn:Hk; [done | ].
    by apply insert_subseteq.
Qed.

Lemma untrack_keeps t ptr t' :
  s_alloc_tracer_untrack t ptr = Ok t' ->
  same_config t t' /\ stacks t' = stacks t.
Proof.
  intros Hrun.
  destruct (level_eqb (level t) AWS_MEMTRACE_NONE) eqn:El.
  - apply level_eqb_eq in El. rewrite untrack_at_none in Hrun by done.
    injection Hrun as <-. by repeat split.
  - apply level_eqb_neq in El.
    destruct (untrack_completed t ptr t' El Hrun) as [[_ ->] | (b & _ & ->)];
      by repeat split.
Qed.

Lemma same_config_trans t1 t2 t3 :
  same_config t1 t2 -> same_config t2 t3 -> same_config t1 t3.
Proof.
  unfold same_config. intros (? & ? & ? & ?) (? & ? & ? & ?).
  repeat split; congruence.
Qed.

(** X1. Nothing a client does through the facade changes what construction
    fixed: after any completed sequence of calls the tracer has the same
    inner allocator, bookkeeping allocator, level and frame budget. *)
Theorem configuration_is_immutable cs s s' rs :
  facade_run U cs s = Ok (s', rs) ->
  allocator s'.1 = allocator s.1 /\
  system_allocator s'.1 = system_allocator s.1 /\
  level s'.1 = level s.1 /\
  frames_per_stack s'.1 = frames_per_stack s.1.
Proof.
  intros Hrun.
  apply (facade_run_invariant U (fun _ => True) (same_config s.1)) with cs s rs.
  - intros e t ptr sz t' _ Htr Ht.
    apply (same_config_trans _ t); [done | ]. by apply (track_keeps e t ptr sz).
  - intros t ptr t' Hun Ht.
    apply (same_config_trans _ t); [done | ]. by apply (untrack_keeps t ptr).
  - by apply Forall_forall.
  - done.
  - by repeat split.
Qed.

(** X2. The stack registry only grows: after any completed sequence of
    calls every stack record that was in the registry is still there,
    unchanged, under the same key. (Untrack does not touch the registry, and
    track only adds a record for a key that has none.) *)
Theorem stack_registry_only_grows cs s s' rs k r :
  facade_run U cs s = Ok (s', rs) ->
  stacks s.1 !! k = Some r ->
  stacks s'.1 !! k = Some r.
Proof.
  intros Hrun Hk.
  assert (Hsub : stacks s.1 ⊆ stacks s'.1).
  { apply (facade_run_invariant U (fun _ => True)
             (fun t => stacks s.1 ⊆ stacks t)) with cs s rs.
    - intros e t ptr sz t' _ Htr Ht.
      transitivity (stacks t); [done | ].
      by apply (track_keeps e t ptr sz).
    - intros t ptr t' Hun Ht.
      destruct (untrack_keeps t ptr t' Hun) as [_ ->]. done.
    - by apply Forall_forall.
    - done.
    - done. }
  by apply (lookup_weaken (stacks s.1)).
Qed.

End ConfigAndRegistry.

(** ** Fingerprints and the registry *)

Section Fingerprints.
Context `{Platform} {heap : Type} (U : allocator_ops heap).

Lemma track_result_registers e t ptr sz :
  captures e t = true ->
  is_Some (stacks (track_result e t ptr sz) !! wrap (fingerprint e t)).
Proof.
  intros Hc. unfold track_result. cbn [stacks]. rewrite Hc.
  destruct (stacks t !! wrap (fingerprint e t)) eqn:Hk.
  - by rewrite Hk.
  - rewrite lookup_insert_eq. by eexists.
Qed.

Lemma track_registered e t ptr sz t' :
  s_alloc_tracer_track e t ptr sz = Ok t' ->
  fingerprints_registered t -> fingerprints_registered t'.
Proof.
  intros Hrun Hinv.
  destruct (level_eqb (level t) AWS_MEMTRACE_NONE) eqn:El.
  - apply level_eqb_eq in El. rewrite track_at_none in Hrun by done.
    by injection Hrun as <-.
  - apply level_eqb_neq in El.
    destruct (track_keeps e t ptr sz t' Hrun) as [_ Hsub].
    destruct (track_completed_result e t ptr sz t' El Hrun) as [_ ->].
    intros p b. unfold track_result at 1. cbn [allocs].
    destruct (decide (ptr = p)) as [<-|Hne].
    + rewrite lookup_insert_eq. intros [= <-]. cbn [payload stack].
      destruct (captures e t) eqn:Hc; [right | by left].
      by apply track_result_registers.
    + rewrite lookup_insert_ne by done. intros Hb.
      destruct (Hinv p b Hb) as [Hz | Hreg]; [by left | right].
      by apply (lookup_weaken_is_Some (stacks t)).
Qed.

Lemma untrack_registered t ptr t' :
  s_alloc_tracer_untrack t ptr = Ok t' ->
  fingerprints_registered t -> fingerprints_registered t'.
Proof.
  intros Hrun Hinv.
  destruct (level_eqb (level t) AWS_MEMTRACE_NONE) eqn:El.
  - apply level_eqb_eq in El. rewrite untrack_at_none in Hrun by done.
    by injection Hrun as <-.
  - apply level_eqb_neq in El.
    destruct (untrack_completed t ptr t' El Hrun) as [[_ ->] | (b0 & _ & ->)];
      [done | ].
    intros p b. unfold untracked. cbn [allocs stacks with_allocs with_released
      with_allocated].
    intros Hb. apply lookup_delete_Some in Hb as [_ Hb]. by apply (Hinv p b).
Qed.

Lemma new_registered probe a b l n :
  fingerprints_registered (aws_mem_tracer_new probe a b l n).
Proof.
  intros p r. rewrite new_allocs, lookup_empty. discriminate.
Qed.

(** X3. After any completed sequence of calls on a freshly constructed
    tracer, every live allocation record whose stack fingerprint is not 0
    finds its stack in the registry, under the key the dump casts the
    fingerprint to. *)
Theorem live_fingerprints_are_registered probe a b l n cs h s' rs p r :
  facade_run U cs (aws_mem_tracer_new probe a b l n, h) = Ok (s', rs) ->
  allocs s'.1 !! p = Some r ->
  stack (payload r) <> 0 ->
  is_Some (stacks s'.1 !! wrap (stack (payload r))).
Proof.
  intros Hrun Hr Hnz.
  assert (Hinv : fingerprints_registered s'.1).
  { apply (facade_run_invariant U (fun _ => True) fingerprints_registered)
      with cs (aws_mem_tracer_new probe a b l n, h) rs.
    - intros e t ptr sz t' _. apply track_registered.
    - apply untrack_registered.
    - by apply Forall_forall.
    - done.
    - apply new_registered. }
  destruct (Hinv p r Hr) as [Hz | Hreg]; [contradiction | done].
Qed.

Lemma track_no_stacks e t ptr sz t' :
  level t <> AWS_MEMTRACE_STACKS ->
  s_alloc_tracer_track e t ptr sz = Ok t' ->
  no_stacks t -> no_stacks t'.
Proof.
  intros Hlevel Hrun [Hempty Hzero].
  destruct (level_eqb (level t) AWS_MEMTRACE_NONE) eqn:El.
  - apply level_eqb_eq in El. rewrite track_at_none in Hrun by done.
    by injection Hrun as <-.
  - apply level_eqb_neq in El.
    destruct (track_completed_result e t ptr sz t' El Hrun) as [_ ->].
    assert (Hc : captures e t = false).
    { unfold captures. apply level_eqb_neq in Hlevel. by rewrite Hlevel. }
    unfold no_stacks, track_result. cbn [stacks allocs]. rewrite Hc.
    split; [done | ]. intros p b.
    destruct (decide (ptr = p)) as [<-|Hne].
    + rewrite lookup_insert_eq. by intros [= <-].
    + rewrite lookup_insert_ne by done. apply Hzero.
Qed.

Lemma untrack_no_stacks t ptr t' :
  s_alloc_tracer_untrack t ptr = Ok t' ->
  no_stacks t -> no_stacks t'.
Proof.
  intros Hrun [Hempty Hzero].
  destruct (level_eqb (level t) AWS_MEMTRACE_NONE) eqn:El.
  - apply level_eqb_eq in El. rewrite untrack_at_none in Hrun by done.
    by injection Hrun as <-.
  - apply level_eqb_neq in El.
    destruct (untrack_completed t ptr t' El Hrun) as [[_ ->] | (b0 & _ & ->)];
      [done | ].
    split; [done | ]. intros p b. unfold untracked.
    cbn [allocs with_allocs]. intros Hb.
    apply lookup_delete_Some in Hb as [_ Hb]. by apply (Hzero p b).
Qed.

Lemma new_stacks probe a b l n :
  stacks (aws_mem_tracer_new probe a b l n) = ∅.
Proof.
  unfold aws_mem_tracer_new, s_alloc_tracer_init.
  destruct (probe =? 0), l; reflexivity.
Qed.

Lemma run_below_stacks probe a b l n cs h s' rs :
  level (aws_mem_tracer_new probe a b l n) <> AWS_MEMTRACE_STACKS ->
  facade_run U cs (aws_mem_tracer_new probe a b l n, h) = Ok (s', rs) ->
  level s'.1 <> AWS_MEMTRACE_STACKS /\ no_stacks s'.1.
Proof.
  intros Hl0 Hrun.
  apply (facade_run_invariant U (fun _ => True)
           (fun t => level t <> AWS_MEMTRACE_STACKS /\ no_stacks t))
    with cs (aws_mem_tracer_new probe a b l n, h) rs.
  - intros e t ptr sz t' _ Htr [Hl Hns].
    destruct (track_keeps e t ptr sz t' Htr) as [(_ & _ & Hlevel & _) _].
    split; [congruence | ]. by apply (track_no_stacks e t ptr sz).
  - intros t ptr t' Hun [Hl Hns].
    destruct (untrack_keeps t ptr t' Hun) as [(_ & _ & Hlevel & _) _].
    split; [congruence | ]. by apply (untrack_no_stacks t ptr).
  - by apply Forall_forall.
  - done.
  - cbn [fst]. split; [done | ]. split; [apply new_stacks | ].
    intros p r. rewrite new_allocs, lookup_empty. discriminate.
Qed.

(** X4. A tracer whose effective level is not STACKS - it was asked for
    NONE or BYTES, or stack capture was unavailable at construction - never
    records a stack: after any completed sequence of calls the registry is
    empty and every live record carries fingerprint 0 (so the dump never has
    a stack to look up). *)
Theorem no_stack_below_level_stacks probe a b l n cs h s' rs :
  probe = 0 \/ l <> AWS_MEMTRACE_STACKS ->
  facade_run U cs (aws_mem_tracer_new probe a b l n, h) = Ok (s', rs) ->
  level s'.1 <> AWS_MEMTRACE_STACKS /\
  stacks s'.1 = ∅ /\
  forall p r, allocs s'.1 !! p = Some r -> stack (payload r) = 0.
Proof.
  intros Hbelow Hrun.
  assert (Hl0 : level (aws_mem_tracer_new probe a b l n) <> AWS_MEMTRACE_STACKS).
  { rewrite new_level. destruct Hbelow as [-> | Hl].
    - cbn. by destruct l.
    - by destruct (probe =? 0), l. }
  destruct (run_below_stacks probe a b l n cs h s' rs Hl0 Hrun)
    as [Hl [Hs Hz]].
  by repeat split.
Qed.

End Fingerprints.

(** ** Who owns and who frees the metadata *)

Section MetadataOwnership.
Context `{Platform} {heap : Type} (U : allocator_ops heap).

Lemma track_owned e t ptr sz t' :
  s_alloc_tracer_track e t ptr sz = Ok t' ->
  metadata_owned t -> metadata_owned t'.
Proof.
  intros Hrun (Hallocs & Hstacks & Hrel).
  destruct (level_eqb (level t) AWS_MEMTRACE_NONE) eqn:El.
  - apply level_eqb_eq in El. rewrite track_at_none in Hrun by done.
    by injection Hrun as <-.
  - apply level_eqb_neq in El.
    destruct (track_completed_result e t ptr sz t' El Hrun) as [_ ->].
    unfold metadata_owned, track_result.
    cbn [allocs stacks released system_allocator].
    split; [ | split; [ | done]].
    + intros p b. destruct (decide (ptr = p)) as [<-|Hne].
      * rewrite lookup_insert_eq. by intros [= <-].
      * rewrite lookup_insert_ne by done. apply Hallocs.
    + intros k r. destruct (captures e t); [ | apply Hstacks].
      destruct (stacks t !! wrap (fingerprint e t)) eqn:Hk; [apply Hstacks | ].
      destruct (decide (wrap (fingerprint e t) = k)) as [<-|Hne].
      * rewrite lookup_insert_eq. by intros [= <-].
      * rewrite lookup_insert_ne by done. apply Hstacks.
Qed.

Lemma untrack_owned t ptr t' :
  s_alloc_tracer_untrack t ptr = Ok t' ->
  metadata_owned t -> metadata_owned t'.
Proof.
  intros Hrun (Hallocs & Hstacks & Hrel).
  destruct (level_eqb (level t) AWS_MEMTRACE_NONE) eqn:El.
  - apply level_eqb_eq in El. rewrite untrack_at_none in Hrun by done.
    by injection Hrun as <-.
  - apply level_eqb_neq in El.
    destruct (untrack_completed t ptr t' El Hrun) as [[_ ->] | (b0 & Hb0 & ->)];
      [done | ].
    unfold metadata_owned, untracked.
    cbn [allocs stacks released system_allocator with_allocs with_released
         with_allocated].
    split; [ | split; [done | ]].
    + intros p b Hb. apply lookup_delete_Some in Hb as [_ Hb].
      by apply (Hallocs p b).
    + constructor; [ | done]. split; [reflexivity | ].
      cbn. by apply (Hallocs ptr b0).
Qed.

Lemma new_owned probe a b l n :
  metadata_owned (aws_mem_tracer_new probe a b l n).
Proof.
  unfold metadata_owned. rewrite new_allocs, new_stacks.
  split; [intros p r; rewrite lookup_empty; discriminate | ].
  split; [intros p r; rewrite lookup_empty; discriminate | ].
  unfold aws_mem_tracer_new, s_alloc_tracer_init.
  destruct (probe =? 0), l; constructor.
Qed.

Lemma run_owned probe a b l n cs h s' rs :
  facade_run U cs (aws_mem_tracer_new probe a b l n, h) = Ok (s', rs) ->
  metadata_owned s'.1 /\
  system_allocator s'.1 = default aws_default_allocator b /\
  allocator s'.1 = a.
Proof.
  intros Hrun.
  assert (Hinv : metadata_owned s'.1 /\
                 same_config (aws_mem_tracer_new probe a b l n) s'.1).
  { apply (facade_run_invariant U (fun _ => True)
             (fun t => metadata_owned t /\
                       same_config (aws_mem_tracer_new probe a b l n) t))
      with cs (aws_mem_tracer_new probe a b l n, h) rs.
    - intros e t ptr sz t' _ Htr [Ho Hc]. split.
      + by apply (track_owned e t ptr sz).
      + apply (same_config_trans _ t); [done | ].
        by apply (track_keeps e t ptr sz).
    - intros t ptr t' Hun [Ho Hc]. split.
      + by apply (untrack_owned t ptr).
      + apply (same_config_trans _ t); [done | ].
        by apply (untrack_keeps t ptr).
    - by apply Forall_forall.
    - done.
    - cbn [fst]. split; [apply new_owned | by repeat split]. }
  destruct Hinv as [Ho (Ha & Hs & _ & _)].
  split; [done | ]. rewrite Hs, Ha, new_system_allocator.
  split; [done | ].
  unfold aws_mem_tracer_new, s_alloc_tracer_init.
  by destruct (probe =? 0), l.
Qed.

Lemma clean_up_owned {V : Type} (destroy : block V -> release_event)
    (m : gmap Z (block V)) (B : aws_allocator) :
  (forall v, destroy v = aws_mem_release aws_default_allocator v) ->
  (forall k v, m !! k = Some v -> origin v = B) ->
  Forall (fun ev => asked ev = aws_default_allocator /\ owner ev = B)
    (aws_hash_table_clean_up destroy m).
Proof.
  intros Hd Hm. unfold aws_hash_table_clean_up.
  apply Forall_fmap, Forall_forall. intros [k v] Hkv.
  apply elem_of_map_to_list in Hkv. cbn. rewrite Hd.
  split; [reflexivity | ]. cbn. by apply (Hm k).
Qed.

(** X5. When the tracer is constructed without a bookkeeping allocator, or
    with the default allocator as one, every release of metadata - by the
    untracks of any completed sequence of calls and then by teardown - is
    asked of the allocator the block was taken from. *)
Theorem default_bookkeeping_releases_match probe a b l n cs h s' rs :
  b = None \/ b = Some aws_default_allocator ->
  facade_run U cs (aws_mem_tracer_new probe a b l n, h) = Ok (s', rs) ->
  forallb matched (released s'.1 ++ (aws_mem_tracer_destroy s'.1).2) = true.
Proof.
  intros Hb Hrun.
  destruct (run_owned probe a b l n cs h s' rs Hrun)
    as ((Hallocs & Hstacks & Hrel) & Hsys & _).
  assert (HB : system_allocator s'.1 = aws_default_allocator).
  { rewrite Hsys. by destruct Hb as [-> | ->]. }
  apply forallb_forall. intros ev Hin.
  assert (Hev : asked ev = aws_default_allocator /\
                owner ev = aws_default_allocator).
  { apply in_app_or in Hin as [Hin | Hin].
    - rewrite Forall_forall in Hrel. rewrite <- HB at 2.
      apply Hrel. by apply list_elem_of_In.
    - unfold aws_mem_tracer_destroy in Hin. cbn [snd] in Hin.
      apply in_app_or in Hin as [Hin | Hin];
        [ | apply in_app_or in Hin as [Hin | Hin]].
      + pose proof (clean_up_owned s_destroy_alloc (allocs s'.1)
                      aws_default_allocator) as Hc.
        rewrite Forall_forall in Hc. apply Hc; [done | | by apply list_elem_of_In].
        intros k v Hk. rewrite <- HB. by apply (Hallocs k).
      + pose proof (clean_up_owned s_destroy_stacktrace (stacks s'.1)
                      aws_default_allocator) as Hc.
        rewrite Forall_forall in Hc. apply Hc; [done | | by apply list_elem_of_In].
        intros k v Hk. rewrite <- HB. by apply (Hstacks k).
      + destruct Hin as [<- | []]. cbn. by rewrite HB. }
  destruct Hev as [Ha Ho]. unfold matched. rewrite Ha, Ho. apply N.eqb_refl.
Qed.

End MetadataOwnership.

(** ** Conservation of metadata records *)

Section Conservation.
Context `{Platform} {heap : Type} (U : allocator_ops heap).

Lemma track_accounted e t ptr sz t' :
  level t <> AWS_MEMTRACE_NONE ->
  s_alloc_tracer_track e t ptr sz = Ok t' ->
  records_accounted t' = S (records_accounted t).
Proof.
  intros Hl Hrun.
  destruct (track_completed_result e t ptr sz t' Hl Hrun) as [Hfresh ->].
  unfold records_accounted, track_result. cbn [allocs released].
  by rewrite map_size_insert_None.
Qed.

Lemma untrack_accounted t ptr t' :
  s_alloc_tracer_untrack t ptr = Ok t' ->
  records_accounted t' = records_accounted t.
Proof.
  intros Hrun.
  destruct (level_eqb (level t) AWS_MEMTRACE_NONE) eqn:El.
  - apply level_eqb_eq in El. rewrite untrack_at_none in Hrun by done.
    by injection Hrun as <-.
  - apply level_eqb_neq in El.
    destruct (untrack_completed t ptr t' El Hrun) as [[_ ->] | (b & Hb & ->)];
      [done | ].
    unfold records_accounted, untracked.
    cbn [allocs released with_allocs with_released with_allocated length].
    rewrite map_size_delete_Some by by eexists.
    assert (0 < base.size (allocs t))%nat; [ | lia].
    destruct (base.size (allocs t)) eqn:Hsz; [ | lia].
    apply map_size_empty_inv in Hsz. rewrite Hsz, lookup_empty in Hb.
    discriminate.
Qed.

Lemma facade_call_accounted e s c s' r :
  level s.1 <> AWS_MEMTRACE_NONE ->
  facade_call U e s c = Ok (s', r) ->
  level s'.1 = level s.1 /\
  records_accounted s'.1
  = (records_accounted s.1 + (if tracking c then 1 else 0))%nat.
Proof.
  destruct s as [t h]. cbn [fst]. intros Hl.
  destruct c as [sz | num sz | ptr | ptr old_size new_size]; cbn.
  - destruct (mem_acquire U h sz) as [h1 p].
    destruct (s_alloc_tracer_track e t p sz) as [t1|] eqn:Htr; cbn;
      [ | discriminate].
    intros [= <- <-]. cbn [fst].
    destruct (track_keeps e t p sz t1 Htr) as [(_ & _ & Hlevel & _) _].
    rewrite (track_accounted e t p sz t1 Hl Htr). split; [done | lia].
  - destruct (mem_calloc U h num sz) as [h1 p].
    destruct (s_alloc_tracer_track e t p _) as [t1|] eqn:Htr; cbn;
      [ | discriminate].
    intros [= <- <-]. cbn [fst].
    destruct (track_keeps _ _ _ _ _ Htr) as [(_ & _ & Hlevel & _) _].
    rewrite (track_accounted _ _ _ _ _ Hl Htr). split; [done | lia].
  - destruct (s_alloc_tracer_untrack t ptr) as [t1|] eqn:Hun; cbn;
      [ | discriminate].
    intros [= <- <-]. cbn [fst].
    destruct (untrack_keeps t ptr t1 Hun) as [(_ & _ & Hlevel & _) _].
    rewrite (untrack_accounted t ptr t1 Hun). split; [done | lia].
  - destruct (mem_realloc U h ptr old_size new_size) as [h1 [rc q]].
    destruct rc as [ | rc | rc]; cbn; try discriminate.
    destruct (s_alloc_tracer_untrack t ptr) as [t1|] eqn:Hun; cbn;
      [ | discriminate].
    destruct (s_alloc_tracer_track e t1 q new_size) as [t2|] eqn:Htr; cbn;
      [ | discriminate].
    intros [= <- <-]. cbn [fst].
    destruct (untrack_keeps t ptr t1 Hun) as [(_ & _ & Hlevel1 & _) _].
    destruct (track_keeps _ _ _ _ _ Htr) as [(_ & _ & Hlevel2 & _) _].
    assert (Hl1 : level t1 <> AWS_MEMTRACE_NONE) by congruence.
    rewrite (track_accounted _ _ _ _ _ Hl1 Htr),
      (untrack_accounted t ptr t1 Hun).
    split; [congruence | lia].
Qed.

Lemma facade_run_accounted cs s s' rs :
  level s.1 <> AWS_MEMTRACE_NONE ->
  facade_run U cs s = Ok (s', rs) ->
  records_accounted s'.1 = (records_accounted s.1 + tracking_calls cs)%nat.
Proof.
  revert s s' rs. induction cs as [ | [e c] cs IH]; intros s s' rs Hl; cbn.
  - intros [= <- <-]. unfold tracking_calls. cbn. lia.
  - destruct (facade_call U e s c) as [[s1 r]|] eqn:Hcall; cbn;
      [ | discriminate].
    destruct (facade_run U cs s1) as [[s2 rs2]|] eqn:Hrun; cbn;
      [ | discriminate].
    intros [= <- <-].
    destruct (facade_call_accounted e s c s1 r Hl Hcall) as [Hlevel Hacc].
    rewrite (IH s1 s2 rs2) by (done || congruence). rewrite Hacc.
    unfold tracking_calls. cbn [List.filter snd].
    destruct (tracking c); cbn [length]; lia.
Qed.

Lemma facade_run_at_none_state cs t h s' rs :
  level t = AWS_MEMTRACE_NONE ->
  facade_run U cs (t, h) = Ok (s', rs) -> s'.1 = t.
Proof.
  intros Hl. rewrite (facade_run_at_none U cs t h Hl).
  destruct (forallb succeeded _); [ | discriminate]. by intros [= <- <-].
Qed.

Lemma new_released probe a b l n :
  released (aws_mem_tracer_new probe a b l n) = [].
Proof.
  unfold aws_mem_tracer_new, s_alloc_tracer_init.
  destruct (probe =? 0), l; reflexivity.
Qed.

(** X6. No allocation record is lost or counted twice: after any completed
    sequence of calls on a freshly constructed tracer at level BYTES or
    STACKS, the records live in the allocation map plus the records that
    untrack has released are exactly as many as the tracking calls made
    (acquire, zeroed-acquire and reallocate, one record each); at level NONE
    there is none of either. *)
Theorem records_live_or_released probe a b l n cs h s' rs :
  facade_run U cs (aws_mem_tracer_new probe a b l n, h) = Ok (s', rs) ->
  (base.size (allocs s'.1) + length (released s'.1))%nat
  = if level_eqb (level (aws_mem_tracer_new probe a b l n)) AWS_MEMTRACE_NONE
    then 0%nat
    else tracking_calls cs.
Proof.
  intros Hrun.
  destruct (level_eqb (level (aws_mem_tracer_new probe a b l n))
              AWS_MEMTRACE_NONE) eqn:El.
  - apply level_eqb_eq in El.
    rewrite (facade_run_at_none_state cs _ h s' rs El Hrun).
    by rewrite new_allocs, new_released, map_size_empty.
  - apply level_eqb_neq in El.
    pose proof (facade_run_accounted cs
                  (aws_mem_tracer_new probe a b l n, h) s' rs El Hrun) as Hacc.
    unfold records_accounted in Hacc. cbn [fst] in Hacc.
    by rewrite Hacc, new_allocs, new_released, map_size_empty.
Qed.

(** X7. Teardown hands back the inner allocator the tracer was constructed
    over, whatever calls were made in between, and releases every piece of
    metadata still held: one release per live allocation record, one per
    stack record, and one for the joint block; the records go to the default
    allocator, the joint block to the bookkeeping allocator. *)
Theorem teardown_releases_all_metadata probe a b l n cs h s' rs :
  facade_run U cs (aws_mem_tracer_new probe a b l n, h) = Ok (s', rs) ->
  (aws_mem_tracer_destroy s'.1).1 = a /\
  exists records,
    (aws_mem_tracer_destroy s'.1).2
      = records ++ [{| asked := default aws_default_allocator b;
                       owner := default aws_default_allocator b |}] /\
    length records
      = (base.size (allocs s'.1) + base.size (stacks s'.1))%nat /\
    Forall (fun ev => asked ev = aws_default_allocator /\
                      owner ev = default aws_default_allocator b) records.
Proof.
  intros Hrun.
  destruct (run_owned U probe a b l n cs h s' rs Hrun)
    as ((Hallocs & Hstacks & _) & Hsys & Ha).
  split; [done | ].
  exists (aws_hash_table_clean_up s_destroy_alloc (allocs s'.1) ++
          aws_hash_table_clean_up s_destroy_stacktrace (stacks s'.1)).
  split; [ | split].
  - unfold aws_mem_tracer_destroy. cbn [snd].
    rewrite <- app_assoc. do 2 f_equal.
    unfold aws_mem_release. cbn. by rewrite Hsys.
  - unfold aws_hash_table_clean_up.
    by rewrite length_app, !length_fmap, !length_map_to_list.
  - apply Forall_app. split.
    + apply clean_up_owned; [done | ].
      intros k v Hk. rewrite <- Hsys. by apply (Hallocs k).
    + apply clean_up_owned; [done | ].
      intros k v Hk. rewrite <- Hsys. by apply (Hstacks k).
Qed.

End Conservation.

(** ** Stack records under the walker's contract *)

Section DepthBudget.
Context `{Platform} {heap : Type} (U : allocator_ops heap).

Lemma memcpy_whole (src : list Z) (count : Z) :
  Z.of_nat (length src) <= count -> memcpy src count = src.
Proof.
  revert count. induction src as [ | x src IH]; intros count Hc; cbn.
  - reflexivity.
  - cbn [length] in Hc. destruct (Z.ltb_spec 0 count); [ | lia].
    rewrite IH; [reflexivity | lia].
Qed.

Lemma memcpy_length (src : list Z) (count : Z) :
  Z.of_nat (length (memcpy src count)) <= Z.max 0 count.
Proof.
  revert count. induction src as [ | x src IH]; intros count; cbn.
  - lia.
  - destruct (Z.ltb_spec 0 count); cbn [length]; [ | lia].
    specialize (IH (count - 1)). lia.
Qed.

(** Within bounds the count handed to [memcpy] does not wrap and the copy
    takes exactly the frames after the tracer's own. *)
Lemma copy_in_bounds e t :
  capture_in_bounds e t ->
  captured e t <> [] ->
  frames_per_stack t < SIZE_MODULUS ->
  wrap (Z.of_nat (length (captured e t)) - FRAMES_TO_SKIP)
  = Z.of_nat (length (captured e t)) - FRAMES_TO_SKIP /\
  memcpy (drop (Z.to_nat FRAMES_TO_SKIP) (captured e t))
    (wrap (Z.of_nat (length (captured e t)) - FRAMES_TO_SKIP))
  = drop (Z.to_nat FRAMES_TO_SKIP) (captured e t).
Proof.
  intros [Hnil | Hin] Hne Hfps; [done | ].
  assert (Hfit : is_size_t (Z.of_nat (length (captured e t))
                            - FRAMES_TO_SKIP)).
  { unfold is_size_t. lia. }
  rewrite (wrap_small _ Hfit). split; [reflexivity | ].
  apply memcpy_whole. rewrite length_drop. unfold FRAMES_TO_SKIP in *. lia.
Qed.

Lemma track_depths e t ptr sz t' :
  walker_contract e ->
  0 <= frames_per_stack t <= 128 ->
  s_alloc_tracer_track e t ptr sz = Ok t' ->
  depths_within_budget t -> depths_within_budget t'.
Proof.
  intros Hwalk Hfps Hrun Hinv.
  destruct (level_eqb (level t) AWS_MEMTRACE_NONE) eqn:El.
  - apply level_eqb_eq in El. rewrite track_at_none in Hrun by done.
    by injection Hrun as <-.
  - apply level_eqb_neq in El.
    destruct (track_completed_result e t ptr sz t' El Hrun) as [_ ->].
    intros k r. unfold track_result. cbn [stacks frames_per_stack].
    destruct (captures e t) eqn:Hc; [ | apply Hinv].
    destruct (stacks t !! wrap (fingerprint e t)) eqn:Hk; [apply Hinv | ].
    destruct (decide (wrap (fingerprint e t) = k)) as [<-|Hne].
    + rewrite lookup_insert_eq. intros [= <-]. cbn [payload depth frames].
      unfold captures in Hc. apply andb_true_iff in Hc as [_ Hlen].
      apply negb_true_iff, Z.eqb_neq in Hlen.
      destruct (Hwalk (FRAMES_TO_SKIP + frames_per_stack t)) as [Hcap Hmin];
        [lia | ].
      fold (captured e t) in Hcap, Hmin.
      destruct Hmin as [Hnil | Hmin]; [rewrite Hnil in Hlen; done | ].
      pose proof SIZE_MODULUS_large as Hbig.
      assert (Hfit : is_size_t (Z.of_nat (length (captured e t))
                                - FRAMES_TO_SKIP)).
      { unfold is_size_t, FRAMES_TO_SKIP in *. lia. }
      rewrite (wrap_small _ Hfit).
      rewrite memcpy_whole.
      * rewrite length_drop. unfold FRAMES_TO_SKIP in *. split; lia.
      * rewrite length_drop. unfold FRAMES_TO_SKIP in *. lia.
    + rewrite lookup_insert_ne by done. apply Hinv.
Qed.

Lemma untrack_depths t ptr t' :
  s_alloc_tracer_untrack t ptr = Ok t' ->
  depths_within_budget t -> depths_within_budget t'.
Proof.
  intros Hrun Hinv.
  destruct (untrack_keeps t ptr t' Hrun) as [(_ & _ & _ & Hfps) Hst].
  unfold depths_within_budget. by rewrite Hst, Hfps.
Qed.

Lemma new_frames_per_stack_bound probe a b l n :
  0 <= n -> 0 <= frames_per_stack (aws_mem_tracer_new probe a b l n) <= 128.
Proof.
  intros Hn. unfold aws_mem_tracer_new, s_alloc_tracer_init.
  destruct (probe =? 0), l; cbn; try lia.
  destruct (Z.gtb_spec n 128); cbn; [lia | ].
  destruct (Z.eqb_spec n 0); lia.
Qed.

(** X8. As long as the stack walker keeps its contract - asked for two
    frames or more, never more frames than the buffer holds, and either none
    or at least the two frames of the tracer itself - every stack record in the registry of a freshly
    constructed tracer holds exactly as many frames as its depth says, and
    that depth lies between 0 and the frame budget, which is at most 128. *)
Theorem stack_records_within_budget probe a b l n cs h s' rs k r :
  0 <= n ->
  Forall (fun ec => walker_contract ec.1) cs ->
  facade_run U cs (aws_mem_tracer_new probe a b l n, h) = Ok (s', rs) ->
  stacks s'.1 !! k = Some r ->
  Z.of_nat (length (frames (payload r))) = depth (payload r) /\
  0 <= depth (payload r) <= frames_per_stack s'.1 /\
  frames_per_stack s'.1 <= 128.
Proof.
  intros Hn Hwalk Hrun Hk.
  assert (Hinv : 0 <= frames_per_stack s'.1 <= 128 /\
                 depths_within_budget s'.1).
  { apply (facade_run_invariant U walker_contract
             (fun t => 0 <= frames_per_stack t <= 128 /\
                       depths_within_budget t))
      with cs (aws_mem_tracer_new probe a b l n, h) rs.
    - intros e t ptr sz t' He Htr [Hfps Hd].
      destruct (track_keeps e t ptr sz t' Htr) as [(_ & _ & _ & Hsame) _].
      split; [by rewrite Hsame | ]. by apply (track_depths e t ptr sz).
    - intros t ptr t' Hun [Hfps Hd].
      destruct (untrack_keeps t ptr t' Hun) as [(_ & _ & _ & Hsame) _].
      split; [by rewrite Hsame | ]. by apply (untrack_depths t ptr).
    - done.
    - done.
    - cbn [fst]. split; [by apply new_frames_per_stack_bound | ].
      intros k' r'. rewrite new_stacks, lookup_empty. discriminate. }
  destruct Hinv as [Hfps Hd]. destruct (Hd k r Hk) as [Hlen Hdepth].
  split; [done | split; [done | lia]].
Qed.

End DepthBudget.

(** ** Release twice, acquire and release, reallocate *)

Section CallLaws.
Context `{Platform} {heap : Type} (U : allocator_ops heap).

Lemma untrack_forgets t ptr t' :
  s_alloc_tracer_untrack t ptr = Ok t' ->
  level t <> AWS_MEMTRACE_NONE ->
  allocs t' !! ptr = None.
Proof.
  intros Hrun Hl.
  destruct (untrack_allocs t ptr t' Hrun Hl) as [-> _].
  apply lookup_delete_eq.
Qed.

(** X9. Untrack is idempotent, at every level: once an address has been
    untracked, untracking it again completes and changes nothing. A second
    release of the same address through the facade therefore leaves all
    bookkeeping as the first release left it (a double free is not
    noticed). *)
Theorem second_release_changes_nothing s ptr s1 :
  s_trace_mem_release U s ptr = Ok s1 ->
  s_alloc_tracer_untrack s1.1 ptr = Ok s1.1 /\
  s_trace_mem_release U s1 ptr = Ok (s1.1, mem_release U s1.2 ptr).
Proof.
  destruct s as [t h]. unfold s_trace_mem_release at 1.
  destruct (s_alloc_tracer_untrack t ptr) as [t1|] eqn:Hun; cbn;
    [ | discriminate].
  intros [= <-]. cbn [fst snd].
  assert (Hagain : s_alloc_tracer_untrack t1 ptr = Ok t1).
  { destruct (level_eqb (level t) AWS_MEMTRACE_NONE) eqn:El.
    - apply level_eqb_eq in El. rewrite untrack_at_none in Hun by done.
      injection Hun as <-. by apply untrack_at_none.
    - apply level_eqb_neq in El.
      destruct (untrack_keeps t ptr t1 Hun) as [(_ & _ & Hlevel & _) _].
      apply untrack_absent; [congruence | ].
      by apply (untrack_forgets t ptr). }
  split; [done | ].
  unfold s_trace_mem_release. by rewrite Hagain.
Qed.

(** X10. At level BYTES or STACKS, an acquire that returns an address not
    yet tracked, followed by the release of that address, restores the
    allocation map (and with it the live count) exactly; the stack captured
    by the acquire, if any, stays in the registry. At level STACKS the
    capture of the acquire is taken within bounds - no frame, or at least
    the two of the tracer and no more than the buffer holds - since the
    copy of the frames is undefined otherwise. *)
Theorem acquire_then_release_restores_map e t h n :
  level t <> AWS_MEMTRACE_NONE ->
  (level t = AWS_MEMTRACE_STACKS -> capture_in_bounds e t) ->
  allocs t !! (mem_acquire U h n).2 = None ->
  exists s1 s2,
    s_trace_mem_acquire U e (t, h) n = Ok (s1, (mem_acquire U h n).2) /\
    s_trace_mem_release U s1 (mem_acquire U h n).2 = Ok s2 /\
    allocs s2.1 = allocs t /\
    aws_mem_tracer_count s2.1 = aws_mem_tracer_count t /\
    (captures e t = true ->
     is_Some (stacks s2.1 !! wrap (fingerprint e t))).
Proof.
  intros Hl _ Hfresh. unfold s_trace_mem_acquire.
  destruct (mem_acquire U h n) as [h1 p]. cbn [snd] in *.
  rewrite (track_fresh_result e t p n Hl Hfresh). cbn.
  set (t1 := track_result e t p n).
  assert (Hb : allocs t1 !! p
               = Some {| origin := system_allocator t;
                         payload :=
                           {| size := n; time := time_now e;
                              stack := if captures e t then fingerprint e t
                                       else 0 |} |}).
  { unfold t1, track_result. cbn [allocs]. apply lookup_insert_eq. }
  assert (Hl1 : level t1 <> AWS_MEMTRACE_NONE) by done.
  eexists (t1, h1), _. split; [reflexivity | ].
  unfold s_trace_mem_release.
  rewrite (untrack_present t1 p _ Hl1 Hb). cbn.
  split; [reflexivity | ].
  assert (Hmap : delete p (allocs t1) = allocs t).
  { unfold t1, track_result. cbn [allocs].
    rewrite delete_insert_eq. by apply delete_id. }
  unfold aws_mem_tracer_count, aws_hash_table_get_entry_count, untracked.
  cbn [allocs stacks with_allocs with_released with_allocated].
  rewrite Hmap. split; [done | split; [done | ]].
  intros Hc. exact (track_result_registers e t p n Hc).
Qed.

(** X11. The bookkeeping of reallocate never consults [old_size]. At level
    BYTES or STACKS, a reallocate that completes lowers the counter by the
    size on record for the old address - by nothing when that address is not
    tracked, as for a block allocated before the tracer was installed - and
    raises it by [new_size] ([size_t] arithmetic); the map loses the entry
    of the old address, if any, and gains one entry for the returned
    address with size [new_size]. *)
Theorem realloc_uses_recorded_size e t h p old_size new_size s' q :
  level t <> AWS_MEMTRACE_NONE ->
  s_trace_mem_realloc U e (t, h) p old_size new_size = Ok (s', q) ->
  aws_mem_tracer_bytes s'.1
    = wrap (aws_mem_tracer_bytes t - recorded_size t p + new_size) /\
  exists b', allocs s'.1 = <[q := b']> (delete p (allocs t)) /\
             size (payload b') = new_size.
Proof.
  intros Hl Hrun.
  destruct (realloc_completed U e t h p old_size new_size s' q Hl Hrun)
    as (t1 & _ & Hun & Htr).
  destruct (untrack_keeps t p t1 Hun) as [(_ & _ & Hlevel & _) _].
  assert (Hl1 : level t1 <> AWS_MEMTRACE_NONE) by congruence.
  destruct (track_completed_result e t1 q new_size s'.1 Hl1 Htr) as [_ ->].
  unfold aws_mem_tracer_bytes, recorded_size, track_result.
  cbn [allocated allocs].
  destruct (untrack_completed t p t1 Hl Hun) as [[Hb ->] | (b & Hb & ->)];
    rewrite Hb.
  - rewrite (delete_id _ _ Hb). split; [f_equal; lia | ].
    eexists. by split.
  - unfold untracked. cbn [allocated allocs with_allocs with_released
      with_allocated].
    split; [by rewrite wrap_add_l | ].
    eexists. by split.
Qed.

End CallLaws.

(** * Properties of the reporter *)

(** ** Iteration and collection *)

Section Iteration.
Context {V C : Type}.

Lemma foreach_entry_app (l1 l2 : list (Z * V))
    (callback : C -> Z * V -> result C) (context : C) :
  foreach_entry (l1 ++ l2) callback context
  = context' ← foreach_entry l1 callback context;
    foreach_entry l2 callback context'.
Proof.
  revert context. induction l1 as [ | item l1 IH]; intros context; cbn.
  - reflexivity.
  - destruct (callback context item) as [c1|]; cbn; [apply IH | reflexivity].
Qed.

Lemma foreach_entry_pure (l : list (Z * V)) (step : C -> Z * V -> C)
    (callback : C -> Z * V -> result C) (context : C) :
  (forall c item, callback c item = Ok (step c item)) ->
  foreach_entry l callback context = Ok (foldl step context l).
Proof.
  intros Hstep. revert context.
  induction l as [ | item l IH]; intros context; cbn.
  - reflexivity.
  - rewrite Hstep. cbn. apply IH.
Qed.

End Iteration.

Lemma collect_completes {A B : Type} (f : A -> result (list B)) (l : list A) :
  (forall x, x ∈ l -> exists ys, f x = Ok ys) ->
  exists ys, collect f l = Ok ys.
Proof.
  induction l as [ | x l IH]; intros Hf; cbn.
  - by eexists.
  - destruct (Hf x) as [ys Hys]; [by left | ]. rewrite Hys. cbn.
    destruct IH as [rest Hrest]; [intros y Hy; apply Hf; by right | ].
    rewrite Hrest. cbn. by eexists.
Qed.

Lemma collect_singletons {A B : Type} (g : A -> B) (l : list A) :
  collect (fun x => Ok [g x]) l = Ok (g <$> l).
Proof.
  induction l as [ | x l IH]; cbn; [reflexivity | ].
  rewrite IH. reflexivity.
Qed.

Lemma collect_ext {A B : Type} (f g : A -> result (list B)) (l : list A) :
  (forall x, x ∈ l -> f x = g x) -> collect f l = collect g l.
Proof.
  induction l as [ | x l IH]; intros Hfg; cbn; [reflexivity | ].
  rewrite (Hfg x) by by left.
  rewrite IH; [reflexivity | ]. intros y Hy. apply Hfg. by right.
Qed.

Lemma collect_Forall {A B : Type} (P : B -> Prop)
    (f : A -> result (list B)) (l : list A) ys :
  (forall x zs, x ∈ l -> f x = Ok zs -> Forall P zs) ->
  collect f l = Ok ys -> Forall P ys.
Proof.
  revert ys. induction l as [ | x l IH]; intros ys Hf; cbn.
  - by intros [= <-].
  - destruct (f x) as [zs|] eqn:Hx; cbn; [ | discriminate].
    destruct (collect f l) as [rest|] eqn:Hrest; cbn; [ | discriminate].
    intros [= <-]. apply Forall_app. split.
    + apply (Hf x); [by left | done].
    + apply IH; [ | done]. intros y zs' Hy. apply Hf. by right.
Qed.

(** ** Totals over the stat table *)

Lemma stat_total_empty f : stat_total f ∅ = 0.
Proof. unfold stat_total. apply map_fold_empty. Qed.

Lemma stat_total_insert_fresh f (m : gmap Z (block stack_metadata.t)) k v :
  m !! k = None ->
  stat_total f (<[k := v]> m) = f (payload v) + stat_total f m.
Proof.
  intros Hk. unfold stat_total.
  rewrite map_fold_insert_L; [reflexivity | intros; lia | exact Hk].
Qed.

Lemma stat_total_insert f (m : gmap Z (block stack_metadata.t)) k v :
  stat_total f (<[k := v]> m)
  = stat_total f m
    - match m !! k with Some old => f (payload old) | None => 0 end
    + f (payload v).
Proof.
  destruct (m !! k) as [old|] eqn:Hk.
  - rewrite <- insert_delete_eq.
    rewrite stat_total_insert_fresh by apply lookup_delete_eq.
    unfold stat_total at 2.
    rewrite (map_fold_delete_L _ _ k old m); [ | intros; lia | exact Hk].
    fold (stat_total f (delete k m)). lia.
  - rewrite stat_total_insert_fresh by done. lia.
Qed.

(** ** The tally pass *)

Section Tally.
Context `{Platform}.

Lemma wrap_add_r a b : wrap (a + wrap b) = wrap (a + b).
Proof. unfold wrap. by rewrite Zplus_mod_idemp_r. Qed.

Lemma stats_step t stack_info item :
  s_collect_stack_stats t stack_info item = Ok (tally_step t stack_info item).
Proof.
  unfold s_collect_stack_stats, tally_step, aws_hash_table_create, fresh_stat.
  by destruct (stack_info !! wrap (stack (payload item.2))).
Qed.

Lemma tally_pass t l stack_info :
  foreach_entry l (s_collect_stack_stats t) stack_info
  = Ok (foldl (tally_step t) stack_info l).
Proof. apply foreach_entry_pure. intros. apply stats_step. Qed.

Lemma tally_step_lookup t stack_info item k :
  is_Some (tally_step t stack_info item !! k) <->
  is_Some (stack_info !! k) \/ wrap (stack (payload item.2)) = k.
Proof.
  unfold tally_step. cbn zeta. rewrite lookup_insert_is_Some'. tauto.
Qed.

Lemma tally_keys t l stack_info k :
  is_Some (foldl (tally_step t) stack_info l !! k) <->
  is_Some (stack_info !! k) \/
  exists item, item ∈ l /\ wrap (stack (payload item.2)) = k.
Proof.
  revert stack_info. induction l as [ | item l IH]; intros stack_info; cbn.
  - split; [by left | ]. intros [Hs | (item & Hin & _)]; [done | ].
    by apply elem_of_nil in Hin.
  - rewrite IH, tally_step_lookup. split.
    + intros [[Hs | Hk] | (it & Hin & Hk)].
      * by left.
      * right. exists item. split; [by left | done].
      * right. exists it. split; [by right | done].
    + intros [Hs | (it & Hin & Hk)].
      * left. by left.
      * apply elem_of_cons in Hin as [-> | Hin].
        -- left. by right.
        -- right. by exists it.
Qed.

Lemma tally_step_owned t stack_info item :
  stats_owned t stack_info -> stats_owned t (tally_step t stack_info item).
Proof.
  intros Hinv k v. unfold tally_step. cbn zeta.
  destruct (decide (wrap (stack (payload item.2)) = k)) as [<-|Hne].
  - rewrite lookup_insert_eq. intros [= <-]. cbn [origin].
    destruct (stack_info !! wrap (stack (payload item.2))) as [old|] eqn:Hold;
      cbn; [exact (Hinv _ old Hold) | reflexivity].
  - rewrite lookup_insert_ne by done. apply Hinv.
Qed.

Lemma tally_owned t l stack_info :
  stats_owned t stack_info -> stats_owned t (foldl (tally_step t) stack_info l).
Proof.
  revert stack_info. induction l as [ | item l IH]; intros stack_info Hinv;
    cbn; [done | ].
  apply IH. by apply tally_step_owned.
Qed.

Lemma tally_step_size t stack_info item :
  wrap (stat_total stack_metadata.size (tally_step t stack_info item))
  = wrap (stat_total stack_metadata.size stack_info + size (payload item.2)).
Proof.
  unfold tally_step. cbn zeta. rewrite stat_total_insert. cbn [payload
    stack_metadata.size].
  destruct (stack_info !! wrap (stack (payload item.2))) as [old|]; cbn.
  - rewrite wrap_add_r. f_equal. lia.
  - rewrite wrap_add_r. f_equal. lia.
Qed.

Lemma tally_step_count t stack_info item :
  wrap (stat_total stack_metadata.count (tally_step t stack_info item))
  = wrap (stat_total stack_metadata.count stack_info + 1).
Proof.
  unfold tally_step. cbn zeta. rewrite stat_total_insert. cbn [payload
    stack_metadata.count].
  destruct (stack_info !! wrap (stack (payload item.2))) as [old|]; cbn.
  - rewrite wrap_add_r. f_equal. lia.
  - rewrite wrap_add_r. f_equal. lia.
Qed.

Lemma tally_size t l stack_info :
  wrap (stat_total stack_metadata.size (foldl (tally_step t) stack_info l))
  = wrap (stat_total stack_metadata.size stack_info + entries_size l).
Proof.
  revert stack_info. induction l as [ | item l IH]; intros stack_info.
  - cbn. f_equal. unfold entries_size. cbn. lia.
  - cbn [foldl]. rewrite IH. rewrite <- wrap_add_l, tally_step_size, wrap_add_l.
    f_equal.
    change (entries_size (item :: l))
      with (size (payload item.2) + entries_size l).
    lia.
Qed.

Lemma tally_count t l stack_info :
  wrap (stat_total stack_metadata.count (foldl (tally_step t) stack_info l))
  = wrap (stat_total stack_metadata.count stack_info + Z.of_nat (length l)).
Proof.
  revert stack_info. induction l as [ | item l IH]; intros stack_info.
  - cbn. f_equal. lia.
  - cbn [foldl]. rewrite IH. rewrite <- wrap_add_l, tally_step_count, wrap_add_l.
    f_equal. cbn [length]. lia.
Qed.

Lemma entries_size_map (m : gmap Z (block alloc_info)) :
  entries_size (map_to_list m) = sum_sizes m.
Proof.
  unfold sum_sizes, entries_size. rewrite map_fold_foldr.
  induction (map_to_list m) as [ | [k v] l IH]; cbn; [reflexivity | ].
  by rewrite IH.
Qed.

End Tally.

(** ** The symbolizing pass *)

Section Symbolize.
Context `{Platform} `{Reporter}.

Lemma trace_step_found t stack_info item stack' :
  stacks t !! item.1 = Some stack' ->
  s_collect_stack_trace t stack_info item
  = Ok (<[item.1 :=
            with_trace item.2
              {| origin := system_allocator t;
                 payload :=
                   symbol_lines
                     (aws_backtrace_addr2line (frames (payload stack'))
                        (depth (payload stack')))
                     0 (depth (payload stack')) empty_string |}]> stack_info).
Proof.
  intros Hk. unfold s_collect_stack_trace, aws_hash_table_find.
  by rewrite Hk.
Qed.

Lemma trace_step_missing t stack_info item :
  stacks t !! item.1 = None ->
  s_collect_stack_trace t stack_info item = Fatal.
Proof.
  intros Hk. unfold s_collect_stack_trace, aws_hash_table_find.
  by rewrite Hk.
Qed.

Lemma trace_pass_missing t l stack_info :
  (exists item, item ∈ l /\ stacks t !! item.1 = None) ->
  foreach_entry l (s_collect_stack_trace t) stack_info = Fatal.
Proof.
  revert stack_info. induction l as [ | item l IH]; intros stack_info
    (it & Hin & Hk).
  - by apply elem_of_nil in Hin.
  - cbn [foreach_entry]. destruct (stacks t !! item.1) as [stack'|] eqn:Hitem.
    + rewrite (trace_step_found _ _ _ _ Hitem). cbn. apply IH.
      apply elem_of_cons in Hin as [-> | Hin]; [congruence | by exists it].
    + by rewrite trace_step_missing.
Qed.

Lemma trace_pass_found t l stack_info :
  (forall item, item ∈ l -> is_Some (stacks t !! item.1)) ->
  (forall item, item ∈ l -> origin item.2 = system_allocator t) ->
  exists stack_info',
    foreach_entry l (s_collect_stack_trace t) stack_info = Ok stack_info' /\
    (forall k, is_Some (stack_info' !! k) <->
               is_Some (stack_info !! k) \/ k ∈ (l.*1)) /\
    (forall k v, stack_info' !! k = Some v ->
       (origin v = system_allocator t /\
        exists tr, stack_metadata.trace (payload v) = Some tr /\
                   origin tr = system_allocator t) \/
       ((k ∉ (l.*1)) /\ stack_info !! k = Some v)).
Proof.
  revert stack_info. induction l as [ | item l IH]; intros stack_info Hall Hown.
  - exists stack_info. split; [reflexivity | split].
    + intros k. cbn. split; [by left | ]. intros [Hs | Hin]; [done | ].
      by apply elem_of_nil in Hin.
    + intros k v Hv. right. split; [apply not_elem_of_nil | done].
  - destruct (Hall item) as [stack' Hitem]; [by left | ].
    cbn [foreach_entry]. rewrite (trace_step_found _ _ _ _ Hitem). cbn.
    destruct (IH (<[item.1 :=
                      with_trace item.2
                        {| origin := system_allocator t;
                           payload :=
                             symbol_lines
                               (aws_backtrace_addr2line (frames (payload stack'))
                                  (depth (payload stack')))
                               0 (depth (payload stack')) empty_string |}]>
                    stack_info))
      as (stack_info' & Hrun & Hkeys & Hvals).
    { intros it Hin. apply Hall. by right. }
    { intros it Hin. apply Hown. by right. }
    exists stack_info'. split; [done | split].
    + intros k. rewrite Hkeys, lookup_insert_is_Some'. cbn.
      rewrite elem_of_cons. split.
      * intros [[Hk | Hs] | Hin]; [right; left; done | by left | ].
        right. by right.
      * intros [Hs | [Hk | Hin]]; [left; by right | | by right].
        left. left. done.
    + intros k v Hv. destruct (Hvals k v Hv) as [Hdone | [Hnotin Hold]];
        [by left | ].
      destruct (decide (item.1 = k)) as [<-|Hne].
      * rewrite lookup_insert_eq in Hold. injection Hold as <-. left.
        split; [cbn; apply Hown; by left | ]. by eexists.
      * rewrite lookup_insert_ne in Hold by done. right.
        split; [ | done]. cbn. rewrite elem_of_cons.
        intros [Hk | Hin]; [by apply Hne | by apply Hnotin].
Qed.

(** The stat table after both passes, when every live record resolves. *)
Lemma collect_stack_info_found t :
  stacks_resolvable t ->
  exists stack_info,
    collect_stack_info t = Ok stack_info /\
    stats_owned t stack_info /\
    stats_traced t stack_info /\
    (forall k, is_Some (stack_info !! k) <->
       exists p b, allocs t !! p = Some b /\ wrap (stack (payload b)) = k).
Proof.
  intros Hres. unfold collect_stack_info, aws_hash_table_foreach.
  rewrite tally_pass. cbn.
  set (tally := foldl (tally_step t) ∅ (map_to_list (allocs t))).
  assert (Hkeys : forall k, is_Some (tally !! k) <->
            exists p b, allocs t !! p = Some b /\ wrap (stack (payload b)) = k).
  { intros k. unfold tally. rewrite tally_keys, lookup_empty. split.
    - intros [Hs | ([p b] & Hin & Hk)]; [by destruct Hs | ].
      apply elem_of_map_to_list in Hin. by exists p, b.
    - intros (p & b & Hb & Hk). right. exists (p, b).
      split; [by apply elem_of_map_to_list | done]. }
  assert (Hown : stats_owned t tally).
  { apply tally_owned. intros k v. rewrite lookup_empty. discriminate. }
  destruct (trace_pass_found t (map_to_list tally) tally)
    as (stack_info & Hrun & Hkeys' & Hvals).
  { intros [k v] Hin. apply elem_of_map_to_list in Hin. cbn.
    destruct (proj1 (Hkeys k)) as (p & b & Hb & <-); [by eexists | ].
    by apply (Hres p b). }
  { intros [k v] Hin. apply elem_of_map_to_list in Hin. by apply (Hown k). }
  assert (Hsame : forall k v, stack_info !! k = Some v ->
            origin v = system_allocator t /\
            exists tr, stack_metadata.trace (payload v) = Some tr /\
                       origin tr = system_allocator t).
  { intros k v Hv. destruct (Hvals k v Hv) as [Hdone | [Hnotin Hold]];
      [done | ].
    exfalso. apply Hnotin. apply list_elem_of_fmap. exists (k, v).
    split; [done | by apply elem_of_map_to_list]. }
  exists stack_info. split; [done | ]. split; [ | split].
  - intros k v Hv. by destruct (Hsame k v Hv).
  - intros k v Hv. by destruct (Hsame k v Hv).
  - intros k. rewrite Hkeys', <- Hkeys. split; [ | by left].
    intros [Hs | Hin]; [done | ].
    apply list_elem_of_fmap in Hin as ([k' v] & -> & Hin).
    apply elem_of_map_to_list in Hin. by eexists.
Qed.

End Symbolize.

(** ** The dump, step by step *)

Section DumpSteps.
Context `{Platform} `{Reporter}.

Lemma insert_allocs_pass (l : list (Z * block alloc_info)) acc :
  foreach_entry l s_insert_allocs acc = Ok (acc ++ l.*2).
Proof.
  revert acc. induction l as [ | item l IH]; intros acc; cbn.
  - by rewrite app_nil_r.
  - rewrite IH. by rewrite <- app_assoc.
Qed.

Lemma insert_stacks_pass (l : list (Z * block stack_metadata.t)) acc :
  foreach_entry l s_insert_stacks acc = Ok (acc ++ l.*2).
Proof.
  revert acc. induction l as [ | item l IH]; intros acc; cbn.
  - by rewrite app_nil_r.
  - rewrite IH. by rewrite <- app_assoc.
Qed.

Lemma silent_test t :
  level_eqb (level t) AWS_MEMTRACE_NONE || (allocated t =? 0) = true
  <-> silent t.
Proof.
  unfold silent. rewrite orb_true_iff, level_eqb_eq, Z.eqb_eq. tauto.
Qed.

Lemma dump_silent t : silent t -> s_alloc_tracer_dump t = Ok ([], []).
Proof.
  intros Hs. apply silent_test in Hs. unfold s_alloc_tracer_dump.
  by rewrite Hs.
Qed.

(** What a completed dump that is not silent is made of. *)
Lemma dump_completed t log freed :
  ~ silent t ->
  s_alloc_tracer_dump t = Ok (log, freed) ->
  exists stack_info leaks tail,
    (if level_eqb (level t) AWS_MEMTRACE_STACKS
     then collect_stack_info t = Ok stack_info
     else stack_info = ∅) /\
    collect (log_leak stack_info)
      (aws_priority_queue_drain _ s_alloc_compare (map_to_list (allocs t)).*2)
      = Ok leaks /\
    log = dump_header t ++ leaks ++ tail ++ dump_footer /\
    (if level_eqb (level t) AWS_MEMTRACE_STACKS
     then collect s_stack_info_destroy (map_to_list stack_info).*2 = Ok freed
     else tail = [] /\ freed = []).
Proof.
  intros Hs. unfold s_alloc_tracer_dump.
  destruct (level_eqb (level t) AWS_MEMTRACE_NONE || (allocated t =? 0))
    eqn:Htest; [by apply silent_test in Htest | ].
  unfold aws_hash_table_foreach.
  destruct (level_eqb (level t) AWS_MEMTRACE_STACKS) eqn:El.
  - destruct (collect_stack_info t) as [stack_info|] eqn:Hinfo;
      cbn [mbind result_bind]; [ | discriminate].
    rewrite insert_allocs_pass. cbn [mbind result_bind app].
    destruct (collect (log_leak stack_info) _) as [leaks|] eqn:Hleaks;
      cbn [mbind result_bind]; [ | discriminate].
    rewrite !insert_stacks_pass. cbn [mbind result_bind app].
    destruct (collect log_stack_by_size _) as [by_size|];
      cbn [mbind result_bind]; [ | discriminate].
    destruct (collect log_stack_by_count _) as [by_count|];
      cbn [mbind result_bind]; [ | discriminate].
    destruct (collect s_stack_info_destroy _) as [freed'|] eqn:Hfreed;
      cbn [mbind result_bind]; [ | discriminate].
    intros [= <- <-].
    exists stack_info, leaks,
      ([LOG_BANNER; LOG_BY_BYTES; LOG_BANNER] ++ by_size ++
       [LOG_BANNER; LOG_BY_COUNT; LOG_BANNER] ++ by_count).
    split; [done | ]. split; [done | ]. split; [ | done].
    unfold dump_header, dump_footer, aws_mem_tracer_bytes, aws_mem_tracer_count.
    rewrite <- ?app_assoc. reflexivity.
  - cbn [mbind result_bind]. rewrite insert_allocs_pass.
    cbn [mbind result_bind app].
    destruct (collect (log_leak ∅) _) as [leaks|] eqn:Hleaks;
      cbn [mbind result_bind]; [ | discriminate].
    intros [= <- <-]. exists ∅, leaks, []. split; [done | ].
    split; [done | ]. split; [ | done].
    unfold dump_header, dump_footer, aws_mem_tracer_bytes, aws_mem_tracer_count.
    rewrite <- ?app_assoc. reflexivity.
Qed.

(** X12. The dump says nothing exactly when the level is NONE or the
    live-bytes counter reads 0 - whatever the allocation map holds, so live
    allocations of recorded size 0 go unreported. Any other dump that
    completes starts with the banner and the summary line, which carries
    the live-bytes counter and the number of entries of the map, and ends
    with the closing banner. *)
Theorem dump_is_silent_or_bracketed t log freed :
  s_alloc_tracer_dump t = Ok (log, freed) ->
  (silent t /\ log = [] /\ freed = []) \/
  (~ silent t /\
   exists body, log = dump_header t ++ body ++ dump_footer).
Proof.
  intros Hdump.
  destruct (level_eqb (level t) AWS_MEMTRACE_NONE || (allocated t =? 0))
    eqn:Htest.
  - apply silent_test in Htest. left. split; [done | ].
    rewrite (dump_silent t Htest) in Hdump. by injection Hdump as <- <-.
  - assert (Hs : ~ silent t).
    { intros Hs. apply silent_test in Hs. congruence. }
    right. split; [done | ].
    destruct (dump_completed t log freed Hs Hdump)
      as (stack_info & leaks & tail & _ & _ & -> & _).
    exists (leaks ++ tail). by rewrite <- app_assoc.
Qed.

End DumpSteps.

(** ** When the dump aborts *)

Section DumpAborts.
Context `{Platform} `{Reporter}.

Lemma leak_line_untraced stack_info (alloc : block alloc_info) :
  stack (payload alloc) = 0 ->
  log_leak stack_info alloc = Ok [LOG_ALLOC (size (payload alloc))].
Proof. intros Hz. unfold log_leak. by rewrite Hz. Qed.

Lemma leak_line_completes t stack_info (alloc : block alloc_info) :
  stats_traced t stack_info ->
  is_Some (stack_info !! wrap (stack (payload alloc))) ->
  exists lines, log_leak stack_info alloc = Ok lines.
Proof.
  intros Htraced [stack' Hk]. unfold log_leak, aws_hash_table_find.
  destruct (negb (stack (payload alloc) =? 0)); [ | by eexists].
  rewrite Hk. cbn.
  destruct (Htraced _ _ Hk) as (tr & -> & _). by eexists.
Qed.

Lemma drained_allocs_live (Hq : queue_contract) t pred (alloc : block alloc_info) :
  alloc ∈ aws_priority_queue_drain _ pred (map_to_list (allocs t)).*2 ->
  exists p, allocs t !! p = Some alloc.
Proof.
  intros Hin. rewrite (Hq _ pred _) in Hin.
  apply list_elem_of_fmap in Hin as ([p b] & -> & Hin).
  apply elem_of_map_to_list in Hin. by exists p.
Qed.

Lemma drained_stats (Hq : queue_contract) pred
    (stack_info : gmap Z (block stack_metadata.t)) v :
  v ∈ aws_priority_queue_drain _ pred (map_to_list stack_info).*2 ->
  exists k, stack_info !! k = Some v.
Proof.
  intros Hin. rewrite (Hq _ pred _) in Hin.
  apply list_elem_of_fmap in Hin as ([k b] & -> & Hin).
  apply elem_of_map_to_list in Hin. by exists k.
Qed.

Lemma destroy_completes t stack_info :
  stats_traced t stack_info ->
  exists freed,
    collect s_stack_info_destroy (map_to_list stack_info).*2 = Ok freed.
Proof.
  intros Htraced. apply collect_completes. intros v Hin.
  apply list_elem_of_fmap in Hin as ([k b] & -> & Hin).
  apply elem_of_map_to_list in Hin. unfold s_stack_info_destroy.
  cbn [snd]. destruct (Htraced _ _ Hin) as (tr & -> & _). by eexists.
Qed.

(** With every live record resolvable, the dump at level STACKS runs to
    its end. *)
Lemma dump_completes_resolvable (Hq : queue_contract) t :
  level t = AWS_MEMTRACE_STACKS ->
  stacks_resolvable t ->
  exists out, s_alloc_tracer_dump t = Ok out.
Proof.
  intros Hl Hres. unfold s_alloc_tracer_dump.
  destruct (level_eqb (level t) AWS_MEMTRACE_NONE || (allocated t =? 0));
    [by eexists | ].
  rewrite Hl. cbn [level_eqb level_rank Z.eqb Pos.eqb].
  destruct (collect_stack_info_found t Hres)
    as (stack_info & -> & Hown & Htraced & Hkeys).
  cbn [mbind result_bind]. unfold aws_hash_table_foreach.
  rewrite insert_allocs_pass. cbn [mbind result_bind app].
  destruct (collect_completes (log_leak stack_info)
              (aws_priority_queue_drain _ s_alloc_compare
                 (map_to_list (allocs t)).*2)) as [leaks ->].
  { intros alloc Hin. destruct (drained_allocs_live Hq t _ alloc Hin) as [p Hp].
    apply (leak_line_completes t); [done | ].
    apply Hkeys. by exists p, alloc. }
  cbn [mbind result_bind]. rewrite !insert_stacks_pass.
  cbn [mbind result_bind app].
  destruct (collect_completes log_stack_by_size
              (aws_priority_queue_drain _ s_stack_info_compare_size
                 (map_to_list stack_info).*2)) as [by_size ->].
  { intros v Hin. destruct (drained_stats Hq _ stack_info v Hin) as [k Hk].
    unfold log_stack_by_size. destruct (Htraced _ _ Hk) as (tr & -> & _).
    by eexists. }
  cbn [mbind result_bind].
  destruct (collect_completes log_stack_by_count
              (aws_priority_queue_drain _ s_stack_info_compare_count
                 (map_to_list stack_info).*2)) as [by_count ->].
  { intros v Hin. destruct (drained_stats Hq _ stack_info v Hin) as [k Hk].
    unfold log_stack_by_count. destruct (Htraced _ _ Hk) as (tr & -> & _).
    by eexists. }
  cbn [mbind result_bind].
  destruct (destroy_completes t stack_info Htraced) as [freed ->].
  cbn [mbind result_bind]. by eexists.
Qed.

Lemma collect_stack_info_missing t p b :
  allocs t !! p = Some b ->
  stacks t !! wrap (stack (payload b)) = None ->
  collect_stack_info t = Fatal.
Proof.
  intros Hb Hk. unfold collect_stack_info, aws_hash_table_foreach.
  rewrite tally_pass. cbn [mbind result_bind].
  apply trace_pass_missing.
  destruct (proj2 (tally_keys t (map_to_list (allocs t)) ∅
                     (wrap (stack (payload b))))) as [v Hv].
  { right. exists (p, b). split; [by apply elem_of_map_to_list | done]. }
  exists (wrap (stack (payload b)), v).
  split; [by apply elem_of_map_to_list | done].
Qed.

Lemma dump_aborts_missing t p b :
  level t = AWS_MEMTRACE_STACKS ->
  allocated t <> 0 ->
  allocs t !! p = Some b ->
  stacks t !! wrap (stack (payload b)) = None ->
  s_alloc_tracer_dump t = Fatal.
Proof.
  intros Hl Hz Hb Hk. unfold s_alloc_tracer_dump.
  rewrite Hl. cbn [level_eqb level_rank Z.eqb Pos.eqb orb].
  apply Z.eqb_neq in Hz. rewrite Hz.
  by rewrite (collect_stack_info_missing t p b Hb Hk).
Qed.

Lemma resolvable_or_missing t :
  stacks_resolvable t \/
  exists p b, allocs t !! p = Some b /\
              stacks t !! wrap (stack (payload b)) = None.
Proof.
  destruct (decide (Forall
              (fun item : Z * block alloc_info =>
                 is_Some (stacks t !! wrap (stack (payload item.2))))
              (map_to_list (allocs t)))) as [Hall | Hnot].
  - left. intros p b Hb. rewrite Forall_forall in Hall.
    apply (Hall (p, b)). by apply elem_of_map_to_list.
  - right. apply not_Forall_Exists in Hnot; [ | apply _].
    apply Exists_exists in Hnot as ([p b] & Hin & Hno).
    apply elem_of_map_to_list in Hin. exists p, b. split; [done | ].
    cbn in Hno. by apply eq_None_not_Some.
Qed.

(** X13. At level STACKS with a non-zero live-bytes counter, and a priority
    queue that hands back what was pushed, the dump aborts if and only if
    some live allocation record has no stack in the registry under the key
    its fingerprint is cast to: the symbolizing pass then trips its fatal
    assertion on the missing registry entry. (A record tracked while the
    walker returned no frame has fingerprint 0 and is such a record unless a
    stack happens to be registered under key 0.) *)
Theorem dump_aborts_iff_unresolvable (Hq : queue_contract) t :
  level t = AWS_MEMTRACE_STACKS ->
  allocated t <> 0 ->
  s_alloc_tracer_dump t = Fatal <->
  exists p b, allocs t !! p = Some b /\
              stacks t !! wrap (stack (payload b)) = None.
Proof.
  intros Hl Hz. split.
  - intros Hdump. destruct (resolvable_or_missing t) as [Hres | Hmiss];
      [ | done].
    destruct (dump_completes_resolvable Hq t Hl Hres) as [out Hout]. congruence.
  - intros (p & b & Hb & Hk). by apply (dump_aborts_missing t p b).
Qed.

(** X14. Whatever the bookkeeping allocator, the metadata the dump creates
    for itself - the stat records and their trace strings - is released,
    when the stat table is cleaned up, by the allocator it was taken
    from. *)
Theorem dump_releases_match t log freed :
  s_alloc_tracer_dump t = Ok (log, freed) ->
  forallb matched freed = true /\
  Forall (fun ev => owner ev = system_allocator t) freed.
Proof.
  intros Hdump.
  assert (Hall : Forall (fun ev => asked ev = system_allocator t /\
                                   owner ev = system_allocator t) freed).
  { destruct (level_eqb (level t) AWS_MEMTRACE_NONE || (allocated t =? 0))
      eqn:Htest.
    - apply silent_test in Htest. rewrite (dump_silent t Htest) in Hdump.
      injection Hdump as <- <-. constructor.
    - assert (Hs : ~ silent t).
      { intros Hs. apply silent_test in Hs. congruence. }
      destruct (dump_completed t log freed Hs Hdump)
        as (stack_info & leaks & tail & Hinfo & _ & _ & Hfreed).
      destruct (level_eqb (level t) AWS_MEMTRACE_STACKS);
        [ | destruct Hfreed as [_ ->]; constructor].
      destruct (resolvable_or_missing t) as [Hres | (p & b & Hb & Hk)].
      + destruct (collect_stack_info_found t Hres)
          as (stack_info' & Hinfo' & Hown & Htraced & _).
        assert (stack_info' = stack_info) as -> by congruence.
        apply (collect_Forall _ s_stack_info_destroy _ _) with (2 := Hfreed).
        intros v zs Hin. apply list_elem_of_fmap in Hin as ([k v'] & -> & Hin).
        apply elem_of_map_to_list in Hin. unfold s_stack_info_destroy. cbn.
        destruct (Htraced _ _ Hin) as (tr & -> & Htr).
        intros [= <-]. repeat constructor; cbn; try done.
        by apply (Hown k).
      + rewrite (collect_stack_info_missing t p b Hb Hk) in Hinfo.
        discriminate. }
  split.
  - apply forallb_forall. intros ev Hin. rewrite Forall_forall in Hall.
    destruct (Hall ev) as [Ha Ho]; [by apply list_elem_of_In | ].
    unfold matched. rewrite Ha, Ho. apply N.eqb_refl.
  - apply (Forall_impl _ _ _ Hall). by intros ev [_ Ho].
Qed.

End DumpAborts.

(** ** What the dump reports *)

Section DumpReports.
Context `{Platform} `{Reporter} {heap : Type} (U : allocator_ops heap).

(** Without any stack on record the dump is the header, one line per live
    record, and the footer. *)
Lemma dump_without_stacks (Hq : queue_contract) t :
  level t <> AWS_MEMTRACE_STACKS ->
  no_stacks t ->
  ~ silent t ->
  s_alloc_tracer_dump t
  = Ok (dump_header t ++
        ((fun alloc : block alloc_info => LOG_ALLOC (size (payload alloc)))
           <$> aws_priority_queue_drain _ s_alloc_compare
                 (map_to_list (allocs t)).*2) ++
        dump_footer, []).
Proof.
  intros Hl [_ Hzero] Hs. unfold s_alloc_tracer_dump.
  destruct (level_eqb (level t) AWS_MEMTRACE_NONE || (allocated t =? 0))
    eqn:Htest; [by apply silent_test in Htest | ].
  apply level_eqb_neq in Hl. rewrite Hl. cbn [mbind result_bind].
  unfold aws_hash_table_foreach. rewrite insert_allocs_pass.
  cbn [mbind result_bind app].
  rewrite (collect_ext _
             (fun alloc => Ok [LOG_ALLOC (size (payload alloc))])).
  - rewrite collect_singletons. cbn [mbind result_bind].
    unfold dump_header, dump_footer, aws_mem_tracer_bytes, aws_mem_tracer_count.
    rewrite <- ?app_assoc. reflexivity.
  - intros alloc Hin. destruct (drained_allocs_live Hq t _ alloc Hin) as [p Hp].
    apply leak_line_untraced. by apply (Hzero p).
Qed.

(** X15. Below level STACKS the dump never aborts and frees nothing: after
    any completed sequence of calls on a freshly constructed tracer whose
    effective level is not STACKS, and with a priority queue that hands
    back what was pushed, a dump that is not silent is exactly the header,
    one "ALLOC n bytes" line per live record in the order the queue yields
    them, and the footer. *)
Theorem dump_below_stacks_lists_sizes (Hq : queue_contract)
    probe a b l n cs h s' rs :
  probe = 0 \/ l <> AWS_MEMTRACE_STACKS ->
  facade_run U cs (aws_mem_tracer_new probe a b l n, h) = Ok (s', rs) ->
  ~ silent s'.1 ->
  s_alloc_tracer_dump s'.1
  = Ok (dump_header s'.1 ++
        ((fun alloc : block alloc_info => LOG_ALLOC (size (payload alloc)))
           <$> aws_priority_queue_drain _ s_alloc_compare
                 (map_to_list (allocs s'.1)).*2) ++
        dump_footer, []).
Proof.
  intros Hbelow Hrun Hs.
  assert (Hl0 : level (aws_mem_tracer_new probe a b l n) <> AWS_MEMTRACE_STACKS).
  { rewrite new_level. destruct Hbelow as [-> | Hl].
    - cbn. by destruct l.
    - by destruct (probe =? 0), l. }
  destruct (run_below_stacks U probe a b l n cs h s' rs Hl0 Hrun) as [Hl Hns].
  by apply dump_without_stacks.
Qed.

Lemma track_resolvable e t ptr sz t' :
  level t = AWS_MEMTRACE_STACKS ->
  captured e t <> [] ->
  s_alloc_tracer_track e t ptr sz = Ok t' ->
  stacks_resolvable t -> stacks_resolvable t'.
Proof.
  intros Hl Hcap Hrun Hinv.
  assert (El : level t <> AWS_MEMTRACE_NONE) by (rewrite Hl; discriminate).
  destruct (track_keeps e t ptr sz t' Hrun) as [_ Hsub].
  destruct (track_completed_result e t ptr sz t' El Hrun) as [_ ->].
  assert (Hc : captures e t = true).
  { unfold captures. rewrite Hl. cbn. destruct (captured e t); [done | ].
    reflexivity. }
  intros p b. unfold track_result at 1. cbn [allocs].
  destruct (decide (ptr = p)) as [<-|Hne].
  - rewrite lookup_insert_eq. intros [= <-]. cbn [payload stack]. rewrite Hc.
    exact (track_result_registers e t ptr sz Hc).
  - rewrite lookup_insert_ne by done. intros Hb.
    apply (lookup_weaken_is_Some (stacks t)); [ | done]. by apply (Hinv p b).
Qed.

Lemma untrack_resolvable t ptr t' :
  s_alloc_tracer_untrack t ptr = Ok t' ->
  stacks_resolvable t -> stacks_resolvable t'.
Proof.
  intros Hrun Hinv.
  destruct (level_eqb (level t) AWS_MEMTRACE_NONE) eqn:El.
  - apply level_eqb_eq in El. rewrite untrack_at_none in Hrun by done.
    by injection Hrun as <-.
  - apply level_eqb_neq in El.
    destruct (untrack_completed t ptr t' El Hrun) as [[_ ->] | (b0 & _ & ->)];
      [done | ].
    intros p b. unfold untracked. cbn [allocs stacks with_allocs with_released
      with_allocated].
    intros Hb. apply lookup_delete_Some in Hb as [_ Hb]. by apply (Hinv p b).
Qed.

Lemma run_resolvable probe a b l n cs h s' rs :
  level (aws_mem_tracer_new probe a b l n) = AWS_MEMTRACE_STACKS ->
  Forall (fun ec => captured ec.1 (aws_mem_tracer_new probe a b l n) <> []) cs ->
  facade_run U cs (aws_mem_tracer_new probe a b l n, h) = Ok (s', rs) ->
  level s'.1 = AWS_MEMTRACE_STACKS /\ stacks_resolvable s'.1.
Proof.
  intros Hl0 Hcs Hrun.
  set (t0 := aws_mem_tracer_new probe a b l n) in *.
  assert (Hinv : same_config t0 s'.1 /\ stacks_resolvable s'.1).
  { apply (facade_run_invariant U (fun e => captured e t0 <> [])
             (fun t => same_config t0 t /\ stacks_resolvable t))
      with cs (t0, h) rs.
    - intros e t ptr sz t' He Htr [Hcfg Hres].
      destruct (track_keeps e t ptr sz t' Htr) as [Hkeep _].
      split; [by apply (same_config_trans _ t) | ].
      destruct Hcfg as (_ & _ & Hlevel & Hframes).
      apply (track_resolvable e t ptr sz); [congruence | | done | done].
      unfold captured in *. by rewrite Hframes.
    - intros t ptr t' Hun [Hcfg Hres].
      destruct (untrack_keeps t ptr t' Hun) as [Hkeep _].
      split; [by apply (same_config_trans _ t) | ].
      by apply (untrack_resolvable t ptr).
    - done.
    - done.
    - cbn [fst]. split; [by repeat split | ].
      intros p r. unfold t0. rewrite new_allocs, lookup_empty. discriminate. }
  destruct Hinv as [(_ & _ & Hlevel & _) Hres]. split; [congruence | done].
Qed.

(** X16. The dump of a freshly constructed tracer runs to its end after any
    completed sequence of calls during which the stack walker returned at
    least one frame every time it was asked (and with a priority queue that
    hands back what was pushed): at level STACKS every live record then
    finds its stack in the registry, and below it there is no stack to look
    up. *)
Theorem dump_completes_when_walker_answers (Hq : queue_contract)
    probe a b l n cs h s' rs :
  Forall (fun ec => captured ec.1 (aws_mem_tracer_new probe a b l n) <> []) cs ->
  facade_run U cs (aws_mem_tracer_new probe a b l n, h) = Ok (s', rs) ->
  exists log freed, s_alloc_tracer_dump s'.1 = Ok (log, freed).
Proof.
  intros Hcs Hrun.
  destruct (level_eqb (level (aws_mem_tracer_new probe a b l n))
              AWS_MEMTRACE_STACKS) eqn:El.
  - apply level_eqb_eq in El.
    destruct (run_resolvable probe a b l n cs h s' rs El Hcs Hrun)
      as [Hl Hres].
    destruct (dump_completes_resolvable Hq s'.1 Hl Hres) as [[log freed] Hd].
    by exists log, freed.
  - apply level_eqb_neq in El.
    destruct (run_below_stacks U probe a b l n cs h s' rs El Hrun)
      as [Hl Hns].
    destruct (level_eqb (level s'.1) AWS_MEMTRACE_NONE || (allocated s'.1 =? 0))
      eqn:Htest.
    + apply silent_test in Htest. rewrite (dump_silent _ Htest). by eexists _, _.
    + assert (Hs : ~ silent s'.1).
      { intros Hs. apply silent_test in Hs. congruence. }
      rewrite (dump_without_stacks Hq _ Hl Hns Hs). by eexists _, _.
Qed.

(** X17. At level STACKS, one allocation tracked while the stack walker
    returns no frame is enough to make the next dump abort, unless a stack
    happens to be registered under key 0: the record keeps fingerprint 0,
    the tally pass creates a stat entry for key 0, and the symbolizing pass
    asserts that the registry has a stack under that key. *)
Theorem dump_aborts_after_empty_capture e t ptr sz :
  level t = AWS_MEMTRACE_STACKS ->
  captured e t = [] ->
  allocs t !! ptr = None ->
  stacks t !! 0 = None ->
  wrap (allocated t + sz) <> 0 ->
  exists t', s_alloc_tracer_track e t ptr sz = Ok t' /\
             s_alloc_tracer_dump t' = Fatal.
Proof.
  intros Hl Hcap Hfresh Hk Hz.
  assert (El : level t <> AWS_MEMTRACE_NONE) by (rewrite Hl; discriminate).
  exists (track_result e t ptr sz).
  split; [by apply track_fresh_result | ].
  assert (Hc : captures e t = false).
  { unfold captures. rewrite Hcap. cbn. apply andb_false_r. }
  apply (dump_aborts_missing _ ptr
           {| origin := system_allocator t;
              payload := {| size := sz; time := time_now e; stack := 0 |} |}).
  - exact Hl.
  - exact Hz.
  - unfold track_result. cbn [allocs]. rewrite Hc. apply lookup_insert_eq.
  - unfold track_result. cbn [stacks payload stack]. rewrite Hc.
    replace (wrap 0) with 0; [done | ]. symmetry. apply wrap_small.
    unfold is_size_t. pose proof SIZE_MODULUS_large. lia.
Qed.

End DumpReports.

(** ** What the tally pass counts *)

Section TallyTotals.
Context `{Platform} {heap : Type} (U : allocator_ops heap).

Lemma entries_size_app (l1 l2 : list (Z * block alloc_info)) :
  entries_size (l1 ++ l2) = entries_size l1 + entries_size l2.
Proof.
  unfold entries_size. induction l1 as [ | item l1 IH]; cbn; [reflexivity | ].
  rewrite IH. lia.
Qed.

Lemma stat_of_snoc t group item :
  stat_of t (group ++ [item])
  = Some {| origin := system_allocator t;
            payload :=
              {| stack_metadata.trace := None;
                 stack_metadata.count := wrap (Z.of_nat (length group) + 1);
                 stack_metadata.size :=
                   wrap (entries_size group + size (payload item.2)) |} |}.
Proof.
  assert (Hlen : Z.of_nat (length (group ++ [item]))
                 = Z.of_nat (length group) + 1).
  { rewrite length_app. cbn. lia. }
  assert (Hsz : entries_size (group ++ [item])
                = entries_size group + size (payload item.2)).
  { rewrite entries_size_app. unfold entries_size at 2. cbn. lia. }
  destruct group as [ | g group].
  - cbn [app] in *. cbn [stat_of]. by rewrite Hlen, Hsz.
  - change ((g :: group) ++ [item]) with (g :: (group ++ [item])) in *.
    cbn [stat_of]. by rewrite Hlen, Hsz.
Qed.

Lemma tally_groups t l k :
  foldl (tally_step t) ∅ l !! k = stat_of t (entries_of_key k l).
Proof.
  induction l as [ | item l IH] using rev_ind.
  - cbn. apply lookup_empty.
  - rewrite foldl_app. cbn [foldl]. unfold entries_of_key in *.
    rewrite List.filter_app. cbn [List.filter].
    unfold tally_step at 1. cbn zeta.
    destruct (wrap (stack (payload item.2)) =? k) eqn:Ek.
    + apply Z.eqb_eq in Ek. rewrite Ek, lookup_insert_eq, IH, stat_of_snoc.
      destruct (List.filter _ l) as [ | g group] eqn:Hg; cbn.
      * reflexivity.
      * f_equal. f_equal. f_equal; apply wrap_add_l.
    + apply Z.eqb_neq in Ek. rewrite lookup_insert_ne by done.
      by rewrite app_nil_r.
Qed.

(** X18. The tally pass of the dump groups the live records by the key
    their fingerprint is cast to. It always completes, and the stat table it
    builds has an entry exactly for the keys of live records; the entry of a
    key is a zeroed record of the bookkeeping allocator in which the pass
    has counted the live records of that key and added up their recorded
    sizes, both modulo the range of [size_t]. *)
Theorem tally_groups_live_records_by_key t :
  exists tally,
    aws_hash_table_foreach (allocs t) (s_collect_stack_stats t) ∅ = Ok tally /\
    forall k,
      tally !! k = stat_of t (entries_of_key k (map_to_list (allocs t))).
Proof.
  exists (foldl (tally_step t) ∅ (map_to_list (allocs t))).
  split.
  - unfold aws_hash_table_foreach. apply tally_pass.
  - intros k. apply tally_groups.
Qed.

(** X19. The per-stack figures of the dump add up to the tracer's own
    counters: after any completed sequence of calls on a freshly
    constructed tracer, the sizes in the stat table sum, modulo the range of
    [size_t], to the live-bytes counter, and the counts to the number of
    entries of the allocation map. *)
Theorem tally_totals_match_counters probe a b l n cs h s' rs :
  facade_run U cs (aws_mem_tracer_new probe a b l n, h) = Ok (s', rs) ->
  exists tally,
    aws_hash_table_foreach (allocs s'.1) (s_collect_stack_stats s'.1) ∅
    = Ok tally /\
    wrap (stat_total stack_metadata.size tally) = aws_mem_tracer_bytes s'.1 /\
    wrap (stat_total stack_metadata.count tally)
    = wrap (aws_mem_tracer_count s'.1).
Proof.
  intros Hrun.
  exists (foldl (tally_step s'.1) ∅ (map_to_list (allocs s'.1))).
  split; [unfold aws_hash_table_foreach; apply tally_pass | ].
  split.
  - rewrite tally_size, stat_total_empty, entries_size_map.
    assert (Hc : bytes_consistent s'.1).
    { apply (facade_run_consistent U cs (aws_mem_tracer_new probe a b l n, h)
               s' rs Hrun). apply new_consistent. }
    unfold aws_mem_tracer_bytes. rewrite Hc. f_equal.
  - rewrite tally_count, stat_total_empty.
    unfold aws_mem_tracer_count, aws_hash_table_get_entry_count.
    by rewrite length_map_to_list.
Qed.

End TallyTotals.

(** ** The text of a trace *)

Section TraceText.
Context `{Platform} `{Reporter}.



End TraceText.

(** * Closed instances of the further properties *)

Lemma queue_insert_permutation {A : Type} (pred : A -> A -> Z) x l :
  Permutation (queue_insert pred x l) (x :: l).
Proof.
  induction l as [ | y l IH]; cbn; [done | ].
  destruct (0 <? pred x y); [ | done].
  rewrite IH. apply perm_swap.
Qed.

Lemma queue_drain_permutation : queue_contract.
Proof.
  intros A pred l. cbn. unfold queue_drain.
  induction l as [ | x l IH]; cbn; [done | ].
  rewrite queue_insert_permutation. by constructor.
Qed.

Lemma walker_keeps_contract now n :
  (2 <= n)%nat -> walker_contract (env_at now n).
Proof.
  intros Hn capacity Hcap. cbn [aws_backtrace env_at]. unfold walker.
  rewrite length_take, length_fmap, length_seq.
  unfold FRAMES_TO_SKIP in *. split; [lia | right; lia].
Qed.

Lemma configuration_is_immutable_witness :
  match sample_run AWS_MEMTRACE_STACKS with
  | Ok (s', _) =>
      allocator s'.1 = 5%N /\
      system_allocator s'.1 = aws_default_allocator /\
      level s'.1 = AWS_MEMTRACE_STACKS /\
      frames_per_stack s'.1 = 4
  | Fatal => False
  end.
Proof.
  destruct (sample_run AWS_MEMTRACE_STACKS) as [[s' rs]|] eqn:Hrun.
  - exact (configuration_is_immutable bump_allocator sample_calls
             (aws_mem_tracer_new 1 5%N None AWS_MEMTRACE_STACKS 4, 4096)
             s' rs Hrun).
  - vm_compute in Hrun. discriminate Hrun.
Defined.

Lemma stack_registry_only_grows_witness :
  match
    facade_run bump_allocator
      [(env_at 3 5, Acquire 50); (env_at 4 5, Release 4096)] (two_live, 8192)
  with
  | Ok (s', _) =>
      stacks s'.1 !! 77
      = Some (aws_mem_calloc 9%N {| depth := 2; frames := [4128; 4144] |})
  | Fatal => False
  end.
Proof.
  destruct (facade_run bump_allocator
              [(env_at 3 5, Acquire 50); (env_at 4 5, Release 4096)]
              (two_live, 8192)) as [[s' rs]|] eqn:Hrun.
  - apply (stack_registry_only_grows bump_allocator
             [(env_at 3 5, Acquire 50); (env_at 4 5, Release 4096)]
             (two_live, 8192) s' rs 77 _ Hrun).
    vm_compute. reflexivity.
  - vm_compute in Hrun. discriminate Hrun.
Defined.

Lemma live_fingerprints_are_registered_witness :
  match sample_run AWS_MEMTRACE_STACKS with
  | Ok (s', _) =>
      match allocs s'.1 !! 4478 with
      | Some r =>
          stack (payload r) <> 0 /\
          is_Some (stacks s'.1 !! wrap (stack (payload r)))
      | None => False
      end
  | Fatal => False
  end.
Proof.
  destruct (sample_run AWS_MEMTRACE_STACKS) as [[s' rs]|] eqn:Hrun;
    [ | vm_compute in Hrun; discriminate Hrun].
  destruct (allocs s'.1 !! 4478) as [r|] eqn:Hr.
  - assert (Hnz : stack (payload r) <> 0).
    { pose proof Hrun as Hv. vm_compute in Hv. injection Hv as <- <-.
      vm_compute in Hr. injection Hr as <-. intros Hz. vm_compute in Hz. discriminate Hz. }
    split; [exact Hnz | ].
    exact (live_fingerprints_are_registered bump_allocator
             1 5%N None AWS_MEMTRACE_STACKS 4 sample_calls 4096 s' rs 4478 r
             Hrun Hr Hnz).
  - pose proof Hrun as Hv. vm_compute in Hv. injection Hv as <- <-.
    vm_compute in Hr. discriminate Hr.
Defined.

Lemma no_stack_below_level_stacks_witness :
  match sample_run AWS_MEMTRACE_BYTES with
  | Ok (s', _) =>
      level s'.1 <> AWS_MEMTRACE_STACKS /\
      stacks s'.1 = ∅ /\
      forall p r, allocs s'.1 !! p = Some r -> stack (payload r) = 0
  | Fatal => False
  end.
Proof.
  destruct (sample_run AWS_MEMTRACE_BYTES) as [[s' rs]|] eqn:Hrun.
  - apply (no_stack_below_level_stacks bump_allocator
             1 5%N None AWS_MEMTRACE_BYTES 4 sample_calls 4096 s' rs);
      [right; discriminate | exact Hrun].
  - vm_compute in Hrun. discriminate Hrun.
Defined.

Lemma default_bookkeeping_releases_match_witness :
  match sample_run AWS_MEMTRACE_STACKS with
  | Ok (s', _) =>
      forallb matched (released s'.1 ++ (aws_mem_tracer_destroy s'.1).2) = true
  | Fatal => False
  end.
Proof.
  destruct (sample_run AWS_MEMTRACE_STACKS) as [[s' rs]|] eqn:Hrun.
  - apply (default_bookkeeping_releases_match bump_allocator
             1 5%N None AWS_MEMTRACE_STACKS 4 sample_calls 4096 s' rs);
      [left; reflexivity | exact Hrun].
  - vm_compute in Hrun. discriminate Hrun.
Defined.

Lemma records_live_or_released_witness :
  match sample_run AWS_MEMTRACE_BYTES with
  | Ok (s', _) =>
      (base.size (allocs s'.1) + length (released s'.1))%nat = 3%nat
  | Fatal => False
  end.
Proof.
  destruct (sample_run AWS_MEMTRACE_BYTES) as [[s' rs]|] eqn:Hrun.
  - exact (records_live_or_released bump_allocator
             1 5%N None AWS_MEMTRACE_BYTES 4 sample_calls 4096 s' rs Hrun).
  - vm_compute in Hrun. discriminate Hrun.
Defined.

Lemma teardown_releases_all_metadata_witness :
  match sample_run AWS_MEMTRACE_STACKS with
  | Ok (s', _) =>
      (aws_mem_tracer_destroy s'.1).1 = 5%N /\
      exists records,
        (aws_mem_tracer_destroy s'.1).2
          = records ++ [{| asked := aws_default_allocator;
                           owner := aws_default_allocator |}] /\
        length records
          = (base.size (allocs s'.1) + base.size (stacks s'.1))%nat /\
        Forall (fun ev => asked ev = aws_default_allocator /\
                          owner ev = aws_default_allocator) records
  | Fatal => False
  end.
Proof.
  destruct (sample_run AWS_MEMTRACE_STACKS) as [[s' rs]|] eqn:Hrun.
  - exact (teardown_releases_all_metadata bump_allocator
             1 5%N None AWS_MEMTRACE_STACKS 4 sample_calls 4096 s' rs Hrun).
  - vm_compute in Hrun. discriminate Hrun.
Defined.

Lemma stack_records_within_budget_witness :
  match sample_run AWS_MEMTRACE_STACKS with
  | Ok (s', _) =>
      match stacks s'.1 !! 4276393 with
      | Some r =>
          Z.of_nat (length (frames (payload r))) = depth (payload r) /\
          0 <= depth (payload r) <= frames_per_stack s'.1 /\
          frames_per_stack s'.1 <= 128
      | None => False
      end
  | Fatal => False
  end.
Proof.
  destruct (sample_run AWS_MEMTRACE_STACKS) as [[s' rs]|] eqn:Hrun;
    [ | vm_compute in Hrun; discriminate Hrun].
  destruct (stacks s'.1 !! 4276393) as [r|] eqn:Hr.
  - apply (stack_records_within_budget bump_allocator
             1 5%N None AWS_MEMTRACE_STACKS 4 sample_calls 4096 s' rs
             4276393 r); [lia | | exact Hrun | exact Hr].
    unfold sample_calls.
    do 4 (constructor; [apply walker_keeps_contract; lia | ]). constructor.
  - pose proof Hrun as Hv. vm_compute in Hv. injection Hv as <- <-.
    vm_compute in Hr. discriminate Hr.
Defined.

Lemma second_release_changes_nothing_witness :
  match
    s_trace_mem_release bump_allocator (one_live AWS_MEMTRACE_BYTES, 12288) 4096
  with
  | Ok s1 =>
      s_alloc_tracer_untrack s1.1 4096 = Ok s1.1 /\
      s_trace_mem_release bump_allocator s1 4096
      = Ok (s1.1, mem_release bump_allocator s1.2 4096)
  | Fatal => False
  end.
Proof.
  destruct (s_trace_mem_release bump_allocator
              (one_live AWS_MEMTRACE_BYTES, 12288) 4096) as [s1|] eqn:Hrun.
  - exact (second_release_changes_nothing bump_allocator
             (one_live AWS_MEMTRACE_BYTES, 12288) 4096 s1 Hrun).
  - vm_compute in Hrun. discriminate Hrun.
Defined.

Lemma acquire_then_release_restores_map_witness :
  level (one_live AWS_MEMTRACE_STACKS) <> AWS_MEMTRACE_NONE /\
  capture_in_bounds (env_at 2 5) (one_live AWS_MEMTRACE_STACKS) /\
  allocs (one_live AWS_MEMTRACE_STACKS) !! (mem_acquire bump_allocator 8192 32).2
    = None /\
  exists s1 s2,
    s_trace_mem_acquire bump_allocator (env_at 2 5)
      (one_live AWS_MEMTRACE_STACKS, 8192) 32
      = Ok (s1, (mem_acquire bump_allocator 8192 32).2) /\
    s_trace_mem_release bump_allocator s1 (mem_acquire bump_allocator 8192 32).2
      = Ok s2 /\
    allocs s2.1 = allocs (one_live AWS_MEMTRACE_STACKS) /\
    aws_mem_tracer_count s2.1
      = aws_mem_tracer_count (one_live AWS_MEMTRACE_STACKS) /\
    (captures (env_at 2 5) (one_live AWS_MEMTRACE_STACKS) = true ->
     is_Some (stacks s2.1
                !! wrap (fingerprint (env_at 2 5)
                           (one_live AWS_MEMTRACE_STACKS)))).
Proof.
  assert (Hl : level (one_live AWS_MEMTRACE_STACKS) <> AWS_MEMTRACE_NONE)
    by discriminate.
  assert (Hfresh : allocs (one_live AWS_MEMTRACE_STACKS)
                     !! (mem_acquire bump_allocator 8192 32).2 = None)
    by (vm_compute; reflexivity).
  assert (Hcap : capture_in_bounds (env_at 2 5) (one_live AWS_MEMTRACE_STACKS)).
  { right. vm_compute. split; discriminate. }
  split; [exact Hl | ]. split; [exact Hcap | ]. split; [exact Hfresh | ].
  exact (acquire_then_release_restores_map bump_allocator (env_at 2 5)
           (one_live AWS_MEMTRACE_STACKS) 8192 32 Hl (fun _ => Hcap) Hfresh).
Defined.

Lemma realloc_uses_recorded_size_witness :
  match
    s_trace_mem_realloc bump_allocator (env_at 2 0)
      (one_live AWS_MEMTRACE_BYTES, 8192) 4096 7 300
  with
  | Ok (s', q) =>
      aws_mem_tracer_bytes s'.1
        = wrap (aws_mem_tracer_bytes (one_live AWS_MEMTRACE_BYTES)
                - recorded_size (one_live AWS_MEMTRACE_BYTES) 4096 + 300) /\
      exists b',
        allocs s'.1
          = <[q := b']> (delete 4096 (allocs (one_live AWS_MEMTRACE_BYTES))) /\
        size (payload b') = 300
  | Fatal => False
  end.
Proof.
  destruct (s_trace_mem_realloc bump_allocator (env_at 2 0)
              (one_live AWS_MEMTRACE_BYTES, 8192) 4096 7 300)
    as [[s' q]|] eqn:Hrun.
  - apply (realloc_uses_recorded_size bump_allocator (env_at 2 0)
             (one_live AWS_MEMTRACE_BYTES) 8192 4096 7 300 s' q);
      [discriminate | exact Hrun].
  - vm_compute in Hrun. discriminate Hrun.
Defined.

Lemma dump_is_silent_or_bracketed_witness :
  match s_alloc_tracer_dump (one_live AWS_MEMTRACE_BYTES) with
  | Ok (log, freed) =>
      (silent (one_live AWS_MEMTRACE_BYTES) /\ log = [] /\ freed = []) \/
      (~ silent (one_live AWS_MEMTRACE_BYTES) /\
       exists body,
         log = dump_header (one_live AWS_MEMTRACE_BYTES) ++ body ++ dump_footer)
  | Fatal => False
  end.
Proof.
  destruct (s_alloc_tracer_dump (one_live AWS_MEMTRACE_BYTES))
    as [[log freed]|] eqn:Hdump.
  - exact (dump_is_silent_or_bracketed (one_live AWS_MEMTRACE_BYTES)
             log freed Hdump).
  - vm_compute in Hdump. discriminate Hdump.
Defined.

Lemma dump_aborts_iff_unresolvable_witness :
  level (one_live AWS_MEMTRACE_STACKS) = AWS_MEMTRACE_STACKS /\
  allocated (one_live AWS_MEMTRACE_STACKS) <> 0 /\
  (s_alloc_tracer_dump (one_live AWS_MEMTRACE_STACKS) = Fatal <->
   exists p b,
     allocs (one_live AWS_MEMTRACE_STACKS) !! p = Some b /\
     stacks (one_live AWS_MEMTRACE_STACKS) !! wrap (stack (payload b)) = None).
Proof.
  assert (Hz : allocated (one_live AWS_MEMTRACE_STACKS) <> 0) by discriminate.
  split; [reflexivity | ]. split; [exact Hz | ].
  exact (dump_aborts_iff_unresolvable queue_drain_permutation
           (one_live AWS_MEMTRACE_STACKS) eq_refl Hz).
Defined.

Lemma dump_releases_match_witness :
  match s_alloc_tracer_dump two_live with
  | Ok (_, freed) =>
      forallb matched freed = true /\
      Forall (fun ev => owner ev = system_allocator two_live) freed
  | Fatal => False
  end.
Proof.
  destruct (s_alloc_tracer_dump two_live) as [[log freed]|] eqn:Hdump.
  - exact (dump_releases_match two_live log freed Hdump).
  - vm_compute in Hdump. discriminate Hdump.
Defined.

Lemma dump_below_stacks_lists_sizes_witness :
  match sample_run AWS_MEMTRACE_BYTES with
  | Ok (s', _) =>
      ~ silent s'.1 /\
      s_alloc_tracer_dump s'.1
      = Ok (dump_header s'.1 ++
            ((fun alloc : block alloc_info => LOG_ALLOC (size (payload alloc)))
               <$> aws_priority_queue_drain _ s_alloc_compare
                     (map_to_list (allocs s'.1)).*2) ++
            dump_footer, [])
  | Fatal => False
  end.
Proof.
  destruct (sample_run AWS_MEMTRACE_BYTES) as [[s' rs]|] eqn:Hrun;
    [ | vm_compute in Hrun; discriminate Hrun].
  assert (Hs : ~ silent s'.1).
  { pose proof Hrun as Hv. vm_compute in Hv. injection Hv as <- <-.
    intros [Hl | Ha]; [vm_compute in Hl; discriminate Hl | vm_compute in Ha; discriminate Ha]. }
  split; [exact Hs | ].
  apply (dump_below_stacks_lists_sizes bump_allocator queue_drain_permutation
           1 5%N None AWS_MEMTRACE_BYTES 4 sample_calls 4096 s' rs);
    [right; discriminate | exact Hrun | exact Hs].
Defined.

Lemma dump_completes_when_walker_answers_witness :
  match sample_run AWS_MEMTRACE_STACKS with
  | Ok (s', _) => exists log freed, s_alloc_tracer_dump s'.1 = Ok (log, freed)
  | Fatal => False
  end.
Proof.
  destruct (sample_run AWS_MEMTRACE_STACKS) as [[s' rs]|] eqn:Hrun;
    [ | vm_compute in Hrun; discriminate Hrun].
  apply (dump_completes_when_walker_answers bump_allocator
           queue_drain_permutation
           1 5%N None AWS_MEMTRACE_STACKS 4 sample_calls 4096 s' rs);
    [ | exact Hrun].
  unfold sample_calls.
  do 4 (constructor; [intros Hc; vm_compute in Hc; discriminate Hc | ]).
  constructor.
Defined.

Lemma dump_aborts_after_empty_capture_witness :
  level two_live = AWS_MEMTRACE_STACKS /\
  captured (env_at 7 0) two_live = [] /\
  allocs two_live !! 9000 = None /\
  stacks two_live !! 0 = None /\
  wrap (allocated two_live + 32) <> 0 /\
  exists t', s_alloc_tracer_track (env_at 7 0) two_live 9000 32 = Ok t' /\
             s_alloc_tracer_dump t' = Fatal.
Proof.
  assert (Hcap : captured (env_at 7 0) two_live = [])
    by (vm_compute; reflexivity).
  assert (Hfresh : allocs two_live !! 9000 = None)
    by (vm_compute; reflexivity).
  assert (Hk : stacks two_live !! 0 = None) by (vm_compute; reflexivity).
  assert (Hz : wrap (allocated two_live + 32) <> 0)
    by (intros Hz; vm_compute in Hz; discriminate Hz).
  repeat (split; [done | ]).
  exact (dump_aborts_after_empty_capture (env_at 7 0) two_live 9000 32
           eq_refl Hcap Hfresh Hk Hz).
Defined.

Lemma tally_totals_match_counters_witness :
  match sample_run AWS_MEMTRACE_STACKS with
  | Ok (s', _) =>
      exists tally,
        aws_hash_table_foreach (allocs s'.1) (s_collect_stack_stats s'.1) ∅
        = Ok tally /\
        wrap (stat_total stack_metadata.size tally)
        = aws_mem_tracer_bytes s'.1 /\
        wrap (stat_total stack_metadata.count tally)
        = wrap (aws_mem_tracer_count s'.1)
  | Fatal => False
  end.
Proof.
  destruct (sample_run AWS_MEMTRACE_STACKS) as [[s' rs]|] eqn:Hrun.
  - exact (tally_totals_match_counters bump_allocator
             1 5%N None AWS_MEMTRACE_STACKS 4 sample_calls 4096 s' rs Hrun).
  - vm_compute in Hrun. discriminate Hrun.
Defined.

